(** * tasuki: task store, planner registry, resilient invocation, worker loop

    A shallow embedding of the orchestration core of [tasuki], a multi-agent
    coding tool ([task_store.py], [planner_registry.py], [llm.py], [worker.py],
    [runner.py], and the parsers of [planner.py] and [handoff.py]), the
    properties of its specification settled on it, and further properties
    of the code.

    Conventions of the embedding.
    - A Python [str] is a [string]; its characters are read as code points
      below 256.
    - A Python [dict] keeps insertion order, so it is an association list
      ([PyDict]); assignment to an existing key replaces the value in place,
      assignment to a new key appends.
    - A method that mutates [self] is a computation in the monad [M]:
      it takes the object's state and either returns a value together with
      the new state or raises.
    - A [Task] or [SubPlanner] object is reachable only through the dict
      slot that stores it (the key is the object's id and no method rebinds
      an id), so an attribute assignment on the object is the replacement
      of the record in that slot. *)

From Stdlib Require Import ZArith Lia List String Ascii Bool.
From stdpp Require Import base option list strings.
Import ListNotations.
Local Open Scope string_scope.
Local Set Warnings "-register-all".

(** ** Exceptions and results *)

Inductive exn : Type :=
| KeyError (key : string)
| TypeError
| ValueError
| AttributeError
| OSError
| IllTyped
    (* not a Python exception: the value does not fit the declared type of
       the field it is stored in, so the typed record cannot hold it *)
| RuntimeError (models_to_try : list string) (last_error : option string).

Inductive res (A : Type) : Type :=
| Ok (a : A)
| Raise (e : exn).
Arguments Ok {A} a.
Arguments Raise {A} e.

Definition res_bind {A B} (r : res A) (k : A -> res B) : res B :=
  match r with
  | Ok a => k a
  | Raise e => Raise e
  end.

(** State and exceptions: the methods of an object whose state is [S]. *)
Definition M (S A : Type) : Type := S -> res (A * S).

Definition ret {S A} (a : A) : M S A := fun s => Ok (a, s).
Definition bind {S A B} (c : M S A) (k : A -> M S B) : M S B :=
  fun s => match c s with
           | Ok (a, s') => k a s'
           | Raise e => Raise e
           end.
Definition get_self {S} : M S S := fun s => Ok (s, s).
Definition put_self {S} (s : S) : M S unit := fun _ => Ok (tt, s).
Definition lift {S A} (r : res A) : M S A :=
  fun s => match r with Ok a => Ok (a, s) | Raise e => Raise e end.

Declare Scope py_scope.
Delimit Scope py_scope with py.
Notation "x <- c ;; k" := (bind c (fun x => k))
  (at level 100, c at next level, right associativity) : py_scope.
Notation "c ;;; k" := (bind c (fun _ => k))
  (at level 100, right associativity) : py_scope.
Notation "x <~ c ;; k" := (res_bind c (fun x => k))
  (at level 100, c at next level, right associativity) : py_scope.
Local Open Scope py_scope.

(** ** Python dictionaries with string keys *)

Module PyDict.
Section dict.
Context {V : Type}.

(** [d.get(k)] *)
Fixpoint get (k : string) (d : list (string * V)) : option V :=
  match d with
  | [] => None
  | (k', v) :: d' => if String.eqb k k' then Some v else get k d'
  end.

(** [d.get(k, default)] *)
Definition get_default (k : string) (default : V) (d : list (string * V)) : V :=
  match get k d with
  | Some v => v
  | None => default
  end.

(** [k in d] *)
Definition contains (k : string) (d : list (string * V)) : bool :=
  match get k d with
  | Some _ => true
  | None => false
  end.

(** [d[k]] *)
Definition getitem (k : string) (d : list (string * V)) : res V :=
  match get k d with
  | Some v => Ok v
  | None => Raise (KeyError k)
  end.

(** [d[k] = v] *)
Fixpoint setitem (k : string) (v : V) (d : list (string * V)) : list (string * V) :=
  match d with
  | [] => [(k, v)]
  | (k', v') :: d' =>
      if String.eqb k k' then (k', v) :: d' else (k', v') :: setitem k v d'
  end.

(** An attribute assignment on the object stored under [k]. *)
Fixpoint alter (f : V -> V) (k : string) (d : list (string * V)) : list (string * V) :=
  match d with
  | [] => []
  | (k', v') :: d' =>
      if String.eqb k k' then (k', f v') :: d' else (k', v') :: alter f k d'
  end.

Definition keys (d : list (string * V)) : list string := map fst d.
Definition values (d : list (string * V)) : list V := map snd d.
Definition items (d : list (string * V)) : list (string * V) := d.

(** [{k: v for k, v in pairs}] *)
Definition of_pairs (pairs : list (string * V)) : list (string * V) :=
  fold_left (fun acc kv => setitem (fst kv) (snd kv) acc) pairs [].
End dict.
End PyDict.

(** ** JSON-representable Python values *)

Inductive pyval : Type :=
| PNone
| PBool (b : bool)
| PInt (z : Z)
| PStr (s : string)
| PList (l : list pyval)
| PDict (d : list (string * pyval)).

(** Truth value of an object in a condition. *)
Definition truthy (v : pyval) : bool :=
  match v with
  | PNone => false
  | PBool b => b
  | PInt z => negb (Z.eqb z 0)
  | PStr s => negb (String.eqb s "")
  | PList l => match l with [] => false | _ => true end
  | PDict d => match d with [] => false | _ => true end
  end.

Definition as_str (v : pyval) : res string :=
  match v with PStr s => Ok s | _ => Raise IllTyped end.
Definition as_bool (v : pyval) : res bool :=
  match v with PBool b => Ok b | _ => Raise IllTyped end.
Definition as_dict (v : pyval) : res (list (string * pyval)) :=
  match v with PDict d => Ok d | _ => Raise IllTyped end.
Definition as_opt_str (v : pyval) : res (option string) :=
  match v with PNone => Ok None | PStr s => Ok (Some s) | _ => Raise IllTyped end.

(** Uses of a value as a dict that Python itself checks: a method of
    dict ([v.get(..)], [v.items()]) raises AttributeError and a
    subscript with a text ([v["id"]]) raises TypeError on a value that
    is not a dict. *)
Definition dict_for_method (v : pyval) : res (list (string * pyval)) :=
  match v with PDict d => Ok d | _ => Raise AttributeError end.
Definition dict_for_subscript (v : pyval) : res (list (string * pyval)) :=
  match v with PDict d => Ok d | _ => Raise TypeError end.

(** ** pathlib

    [Path] objects are used through two operations only, [Path(s)] and
    [str(p)].  The library is not part of the repository: it is taken as
    an interface with the two facts the code relies on. *)

Class PathLib : Type := {
  Path : Type;
  Path_of : string -> Path;         (* Path(s) *)
  path_str : Path -> string;        (* str(p) *)
  Path_of_path_str : forall p, Path_of (path_str p) = p;
  path_str_nonempty : forall p, path_str p <> "";
}.

(** Paths kept as written: a non-empty text, first character and rest;
    [Path("")] is the current directory. *)
Definition PlainPath : PathLib.
Proof.
  refine {|
    Path := (ascii * string)%type;
    Path_of := fun s => match s with
                        | EmptyString => ("."%char, EmptyString)
                        | String c s' => (c, s')
                        end;
    path_str := fun p => String (fst p) (snd p);
  |}.
  - intros [c s]. reflexivity.
  - intros [c s]. discriminate.
Defined.

(** ** task_store.py *)

Module Task.
Section with_path.
Context `{PathLib}.

Record t : Type := mk {
  id : string;
  planner_id : string;
  description : string;
  status : string;                  (* pending | running | done *)
  worker_id : option string;
  handoff_path : option Path;
  meta : list (string * pyval);
}.

(** [Task(id=.., planner_id=.., description=..)] with the defaults. *)
Definition new (id planner_id description : string) : t :=
  mk id planner_id description "pending" None None [].

Definition set_status (s : string) (self : t) : t :=
  mk (id self) (planner_id self) (description self) s
     (worker_id self) (handoff_path self) (meta self).
Definition set_worker_id (w : option string) (self : t) : t :=
  mk (id self) (planner_id self) (description self) (status self)
     w (handoff_path self) (meta self).
Definition set_handoff_path (p : option Path) (self : t) : t :=
  mk (id self) (planner_id self) (description self) (status self)
     (worker_id self) p (meta self).

Definition to_dict (self : t) : list (string * pyval) :=
  [ ("id", PStr (id self));
    ("planner_id", PStr (planner_id self));
    ("description", PStr (description self));
    ("status", PStr (status self));
    ("worker_id", match worker_id self with
                  | Some w => PStr w
                  | None => PNone
                  end);
    ("handoff_path", match handoff_path self with
                     | Some p => PStr (path_str p)   (* a Path is truthy *)
                     | None => PNone
                     end);
    ("meta", PDict (meta self)) ].

Definition from_dict (d : list (string * pyval)) : res t :=
  id_ <~ res_bind (PyDict.getitem "id" d) as_str ;;
  planner_id_ <~ res_bind (PyDict.getitem "planner_id" d) as_str ;;
  description_ <~ res_bind (PyDict.getitem "description" d) as_str ;;
  status_ <~ as_str (PyDict.get_default "status" (PStr "pending") d) ;;
  worker_id_ <~ as_opt_str (PyDict.get_default "worker_id" PNone d) ;;
  handoff_path_ <~
    (if truthy (PyDict.get_default "handoff_path" PNone d)
     then match PyDict.getitem "handoff_path" d with
          | Ok (PStr s) => Ok (Some (Path_of s))
          | Ok _ => Raise TypeError
          | Raise e => Raise e
          end
     else Ok None) ;;
  meta_ <~ as_dict (PyDict.get_default "meta" (PDict []) d) ;;
  Ok (mk id_ planner_id_ description_ status_ worker_id_ handoff_path_ meta_).
End with_path.
End Task.

Module TaskStore.
Section with_path.
Context `{PathLib}.

(** [_tasks] is the in-memory table, [file] the content of
    [tasks.json] ([None] while the file does not exist).  [json.dumps]
    followed by [json.loads] gives back the document it was given, so
    the file is kept as the document itself. *)
Record t : Type := mk {
  _tasks : list (string * Task.t);
  file : option pyval;
}.

Definition with_tasks (tasks : list (string * Task.t)) (self : t) : t :=
  mk tasks (file self).

(** [{"tasks": {tid: t.to_dict() for tid, t in self._tasks.items()}}] *)
Definition snapshot (tasks : list (string * Task.t)) : pyval :=
  PDict [("tasks",
          PDict (PyDict.of_pairs
                   (map (fun kv => (fst kv, PDict (Task.to_dict (snd kv))))
                        (PyDict.items tasks))))].

Definition _save : M t unit :=
  self <- get_self ;;
  let data := snapshot (_tasks self) in
  put_self (mk (_tasks self) (Some data)).

(** The body of the [try] block of [_load]. *)
Fixpoint load_items (pairs : list (string * pyval))
         (acc : list (string * Task.t)) : res (list (string * Task.t)) :=
  match pairs with
  | [] => Ok acc
  | (k, v) :: rest =>
      d <~ dict_for_subscript v ;;             (* d["id"] in from_dict *)
      task <~ Task.from_dict d ;;
      load_items rest (PyDict.setitem k task acc)
  end.

Definition parse_file (data : pyval) : res (list (string * Task.t)) :=
  top <~ dict_for_method data ;;             (* data.get("tasks", {}) *)
  tasks <~ dict_for_method (PyDict.get_default "tasks" (PDict []) top) ;;
                                             (* .items() *)
  load_items (PyDict.items tasks) [].

(** [except Exception] catches what Python raises.  [IllTyped] is not
    raised by Python: the file holds a value that the code would store
    in a field of another type, and the call is outside the model. *)
Definition _load : M t unit :=
  self <- get_self ;;
  match file self with
  | Some data =>
      match parse_file data with
      | Ok tasks => put_self (with_tasks tasks self)
      | Raise IllTyped => lift (Raise IllTyped)
      | Raise _ => ret tt                       (* except Exception: pass *)
      end
  | None => ret tt
  end.

(** [TaskStore(session_root)] on a directory whose [tasks.json] is [f]. *)
Definition init (f : option pyval) : res t :=
  match _load (mk [] f) with
  | Ok (_, self) => Ok self
  | Raise e => Raise e
  end.

Definition add (task : Task.t) : M t unit :=
  self <- get_self ;;
  put_self (with_tasks (PyDict.setitem (Task.id task) task (_tasks self)) self) ;;;
  _save.

Definition add_many (tasks : list Task.t) : M t unit :=
  self <- get_self ;;
  put_self (with_tasks
              (fold_left (fun d task => PyDict.setitem (Task.id task) task d)
                         tasks (_tasks self))
              self) ;;;
  _save.

Definition get_pending (self : t) : list Task.t :=
  List.filter (fun task => String.eqb (Task.status task) "pending")
              (PyDict.values (_tasks self)).

(** [self._tasks[task_id]]: the object stored under [task_id], or
    KeyError. *)
Definition subscript (task_id : string) : M t Task.t :=
  self <- get_self ;;
  lift (PyDict.getitem task_id (_tasks self)).

(** [t.attr = value], for the object [t] stored under [task_id]. *)
Definition setattr (task_id : string) (f : Task.t -> Task.t) : M t unit :=
  self <- get_self ;;
  put_self (with_tasks (PyDict.alter f task_id (_tasks self)) self).

(** [t] is the object found under [task_id]; the value returned is that
    object, as it is when the call returns. *)
Definition claim (task_id worker_id : string) : M t (option Task.t) :=
  self <- get_self ;;
  match PyDict.get task_id (_tasks self) with
  | Some t_ =>
      if String.eqb (Task.status t_) "pending" then
        setattr task_id (Task.set_status "running") ;;;
        setattr task_id (Task.set_worker_id (Some worker_id)) ;;;
        _save ;;;
        self' <- get_self ;;
        ret (PyDict.get task_id (_tasks self'))
      else ret None
  | None => ret None
  end.

Definition complete (task_id : string) (handoff_path : Path) : M t unit :=
  self <- get_self ;;
  if PyDict.contains task_id (_tasks self) then
    _ <- subscript task_id ;;
    setattr task_id (Task.set_status "done") ;;;
    _ <- subscript task_id ;;
    setattr task_id (Task.set_handoff_path (Some handoff_path)) ;;;
    _save
  else ret tt.

Definition get_by_planner (planner_id : string) (self : t) : list Task.t :=
  List.filter (fun task => String.eqb (Task.planner_id task) planner_id)
              (PyDict.values (_tasks self)).

Definition get_handoffs_for_planner (planner_id : string) (self : t) : list Task.t :=
  List.filter
    (fun task =>
       String.eqb (Task.planner_id task) planner_id
       && String.eqb (Task.status task) "done"
       && match Task.handoff_path task with Some _ => true | None => false end)
    (PyDict.values (_tasks self)).
End with_path.
End TaskStore.

(** ** Python string methods *)

Module PyStr.

Definition nl : string := String (ascii_of_nat 10) EmptyString.

(** [c.isspace()] for a code point below 256. *)
Definition isspace (c : ascii) : bool :=
  let n := nat_of_ascii c in
  (((9 <=? n) && (n <=? 13)) || ((28 <=? n) && (n <=? 32))
   || (n =? 133) || (n =? 160))%nat.

Fixpoint lstrip (s : string) : string :=
  match s with
  | EmptyString => EmptyString
  | String c s' => if isspace c then lstrip s' else s
  end.

Fixpoint rstrip (s : string) : string :=
  match s with
  | EmptyString => EmptyString
  | String c s' =>
      match rstrip s' with
      | EmptyString => if isspace c then EmptyString else String c EmptyString
      | r => String c r
      end
  end.

(** [s.strip()] *)
Definition strip (s : string) : string := rstrip (lstrip s).

(** [s.find(sub)], [-1] when [sub] does not occur. *)
Fixpoint find (sub s : string) : Z :=
  if String.prefix sub s then 0%Z
  else match s with
       | EmptyString => (-1)%Z
       | String _ s' =>
           let i := find sub s' in
           if (i <? 0)%Z then (-1)%Z else (i + 1)%Z
       end.

(** [s.rfind(sub)], [-1] when [sub] does not occur. *)
Fixpoint rfind (sub s : string) : Z :=
  match s with
  | EmptyString => if String.prefix sub s then 0%Z else (-1)%Z
  | String _ s' =>
      let i := rfind sub s' in
      if (i <? 0)%Z then (if String.prefix sub s then 0%Z else (-1)%Z)
      else (i + 1)%Z
  end.

(** [s[i:]] for [0 <= i]. *)
Fixpoint drop (i : nat) (s : string) : string :=
  match i, s with
  | O, _ => s
  | S i', String _ s' => drop i' s'
  | S _, EmptyString => EmptyString
  end.
Definition slice_from (i : Z) (s : string) : string := drop (Z.to_nat i) s.

(** [sub in s] *)
Definition contains (sub s : string) : bool := negb (find sub s <? 0)%Z.

Definition lower_char (c : ascii) : ascii :=
  let n := nat_of_ascii c in
  if (((65 <=? n) && (n <=? 90))
      || ((192 <=? n) && (n <=? 222) && negb (n =? 215)))%nat
  then ascii_of_nat (n + 32) else c.

(** [s.lower()] *)
Fixpoint lower (s : string) : string :=
  match s with
  | EmptyString => EmptyString
  | String c s' => String (lower_char c) (lower s')
  end.

End PyStr.

(** ** [int(s)] on a text

    The white space that [int] skips at both ends is not that of
    [str.strip]: the separators 28 to 31 are not skipped.  The digits
    may be grouped by single underscores.  A text of more than 4300
    digits is refused (the default of [sys.int_max_str_digits]). *)

Module PyInt.

Definition is_space (c : ascii) : bool :=
  let n := nat_of_ascii c in
  (((9 <=? n) && (n <=? 13)) || (n =? 32) || (n =? 133) || (n =? 160))%nat.

Fixpoint lstrip (s : string) : string :=
  match s with
  | EmptyString => EmptyString
  | String c s' => if is_space c then lstrip s' else s
  end.

Fixpoint rstrip (s : string) : string :=
  match s with
  | EmptyString => EmptyString
  | String c s' =>
      match rstrip s' with
      | EmptyString => if is_space c then EmptyString else String c EmptyString
      | r => String c r
      end
  end.

(** A decimal digit below 256: [0] to [9]. *)
Definition is_digit (c : ascii) : bool :=
  let n := nat_of_ascii c in ((48 <=? n) && (n <=? 57))%nat.

Definition digit_value (c : ascii) : Z := Z.of_nat (nat_of_ascii c - 48).

(** The digits of the literal, read from the left: [after_digit] tells
    whether the character just read was a digit, [acc] is the value and
    [count] the number of digits read so far. *)
Fixpoint digits (s : string) (after_digit : bool) (acc : Z) (count : nat)
  : option (Z * nat) :=
  match s with
  | EmptyString => if after_digit then Some (acc, count) else None
  | String c s' =>
      if is_digit c
      then digits s' true (10 * acc + digit_value c)%Z (S count)
      else if Ascii.eqb c "_"%char
           then (if after_digit then digits s' false acc count else None)
           else None
  end.

Definition max_str_digits : nat := 4300.

(** [int(s)] *)
Definition int (s : string) : res Z :=
  let text := rstrip (lstrip s) in
  let '(negative, body) :=
    match text with
    | String c rest =>
        if Ascii.eqb c "-"%char then (true, rest)
        else if Ascii.eqb c "+"%char then (false, rest)
        else (false, text)
    | EmptyString => (false, text)
    end in
  match digits body false 0%Z 0 with
  | Some (value, count) =>
      if (max_str_digits <? count)%nat then Raise ValueError
      else Ok (if negative then (- value)%Z else value)
  | None => Raise ValueError
  end.

End PyInt.

(** ** planner_registry.py *)

Module SubPlanner.

Record t : Type := mk {
  id : string;
  parent_id : string;               (* "root" or another sub id *)
  scope : string;
  is_new : bool;                    (* True if not yet run *)
}.

Definition set_is_new (b : bool) (self : t) : t :=
  mk (id self) (parent_id self) (scope self) b.

Definition to_dict (self : t) : list (string * pyval) :=
  [ ("id", PStr (id self));
    ("parent_id", PStr (parent_id self));
    ("scope", PStr (scope self));
    ("is_new", PBool (is_new self)) ].

Definition from_dict (d : list (string * pyval)) : res t :=
  id_ <~ res_bind (PyDict.getitem "id" d) as_str ;;
  parent_id_ <~ res_bind (PyDict.getitem "parent_id" d) as_str ;;
  scope_ <~ res_bind (PyDict.getitem "scope" d) as_str ;;
  is_new_ <~ as_bool (PyDict.get_default "is_new" (PBool true) d) ;;
  Ok (mk id_ parent_id_ scope_ is_new_).

End SubPlanner.

Module PlannerRegistry.

(** [_subs] is the in-memory table, [file] the content of
    [planners.json] ([None] while the file does not exist). *)
Record t : Type := mk {
  _subs : list (string * SubPlanner.t);
  file : option pyval;
}.

Definition with_subs (subs : list (string * SubPlanner.t)) (self : t) : t :=
  mk subs (file self).

(** [{"sub_planners": [s.to_dict() for s in self._subs.values()]}] *)
Definition snapshot (subs : list (string * SubPlanner.t)) : pyval :=
  PDict [("sub_planners",
          PList (map (fun s => PDict (SubPlanner.to_dict s))
                     (PyDict.values subs)))].

Definition _save : M t unit :=
  self <- get_self ;;
  let data := snapshot (_subs self) in
  put_self (mk (_subs self) (Some data)).

(** The body of the [try] block of [_load]. *)
Fixpoint load_subs (entries : list pyval)
         (acc : list (string * SubPlanner.t)) : res (list (string * SubPlanner.t)) :=
  match entries with
  | [] => Ok acc
  | s :: rest =>
      d <~ dict_for_subscript s ;;             (* s["id"] *)
      key <~ res_bind (PyDict.getitem "id" d) as_str ;;
      sub <~ SubPlanner.from_dict d ;;
      load_subs rest (PyDict.setitem key sub acc)
  end.

Definition parse_file (data : pyval) : res (list (string * SubPlanner.t)) :=
  top <~ dict_for_method data ;;             (* data.get("sub_planners", []) *)
  match PyDict.get_default "sub_planners" (PList []) top with
  | PList entries => load_subs entries []
  | PDict [] | PStr EmptyString => Ok []     (* nothing to iterate over *)
  | _ => Raise TypeError
      (* not iterable, or [s["id"]] on a key of a dict or a character *)
  end.

(** As in the task store, [except Exception] catches what Python
    raises, and [IllTyped] marks a file outside the model. *)
Definition _load : M t unit :=
  self <- get_self ;;
  match file self with
  | Some data =>
      match parse_file data with
      | Ok subs => put_self (with_subs subs self)
      | Raise IllTyped => lift (Raise IllTyped)
      | Raise _ => ret tt                         (* except Exception: pass *)
      end
  | None => ret tt
  end.

(** [PlannerRegistry(session_root)] on a directory whose
    [planners.json] is [f]. *)
Definition init (f : option pyval) : res t :=
  match _load (mk [] f) with
  | Ok (_, self) => Ok self
  | Raise e => Raise e
  end.

(** [uuid8] stands for [uuid.uuid4().hex[:8]]. *)
Definition add_sub (uuid8 : string) (parent_id scope : string) : M t SubPlanner.t :=
  let sid := "sub-" +:+ uuid8 in
  let sub := SubPlanner.mk sid parent_id (PyStr.strip scope) true in
  self <- get_self ;;
  put_self (with_subs (PyDict.setitem sid sub (_subs self)) self) ;;;
  _save ;;;
  ret sub.

Definition get (planner_id : string) (self : t) : option SubPlanner.t :=
  PyDict.get planner_id (_subs self).

Definition get_all_subs (self : t) : list SubPlanner.t :=
  PyDict.values (_subs self).

(** The [for] loop of [get_subs_to_run]; [handoffs sub_id] is
    [task_store.get_handoffs_for_planner(sub_id)]. *)
Fixpoint to_run_loop {T} (handoffs : string -> list T)
         (subs : list SubPlanner.t) (to_run : list SubPlanner.t) : list SubPlanner.t :=
  match subs with
  | [] => to_run
  | sub :: rest =>
      if SubPlanner.is_new sub then
        to_run_loop handoffs rest (to_run ++ [sub])%list
      else
        match handoffs (SubPlanner.id sub) with
        | _ :: _ => to_run_loop handoffs rest (to_run ++ [sub])%list
        | [] => to_run_loop handoffs rest to_run
        end
  end.

Definition get_subs_to_run `{PathLib} (task_store : TaskStore.t) (self : t)
  : list SubPlanner.t :=
  to_run_loop (fun sub_id => TaskStore.get_handoffs_for_planner sub_id task_store)
              (PyDict.values (_subs self)) [].

Definition mark_run (planner_id : string) : M t unit :=
  self <- get_self ;;
  if PyDict.contains planner_id (_subs self) then
    _ <- lift (PyDict.getitem planner_id (_subs self)) ;;   (* self._subs[planner_id] *)
    put_self (with_subs (PyDict.alter (SubPlanner.set_is_new false) planner_id
                                      (_subs self)) self) ;;;
    _save
  else ret tt.

End PlannerRegistry.

(** ** llm.py: the resilient invocation layer *)

Module Llm.

Definition _RATE_LIMIT_KEYWORDS : list string :=
  [ "rate limit"; "rate_limit"; "too many requests"; "quota exceeded";
    "capacity"; "limit reached"; "usage limit"; "model limit"; "429" ].

(** [error] is [str(error)]. *)
Definition _is_rate_limit_error (error : string) : bool :=
  let text := PyStr.lower error in
  existsb (fun kw => PyStr.contains kw text) _RATE_LIMIT_KEYWORDS.

(** What [chat] reads from the configuration: the result of
    [get_retry_config] and of [get_fallback_models].  The numbers are
    Python integers. *)
Record config : Type := mk_config {
  max_retries : Z;
  base_delay_sec : Z;
  max_delay_sec : Z;
  fallback_models : list string;
}.

(** The values used when the configuration file gives none. *)
Definition default_config : config :=
  mk_config 3 2 60 ["opus-4.6-thinking"; "auto"].

(** One call of [_call_once]: the text returned, or [str(e)] of the
    exception raised. *)
Inductive call_outcome : Type :=
| Reply (result : string)
| Fails (error : string).

(** What one iteration of the inner loop did: the attempt index, the
    outcome of [_call_once], and the argument [time.sleep] was called
    with, if it was called. *)
Record attempt_log : Type := mk_attempt {
  attempt : nat;
  outcome : call_outcome;
  sleep_arg : option Z;
}.

Inductive inner_exit : Type :=
| Returned (result : string)        (* return result *)
| Broke                             (* break *)
| Exhausted                         (* the else clause of the for loop *)
| SleepRaised.                      (* time.sleep raised ValueError *)

Section chat.
(** The remote service: [call_once n model_name] is the outcome of the
    call of [_call_once] made with [model_name] after [n] earlier calls. *)
Variable call_once : nat -> string -> call_outcome.
Variable cfg : config.

(** [min(base_delay * (2 ** attempt), max_delay)] *)
Definition backoff_delay (attempt : nat) : Z :=
  Z.min (base_delay_sec cfg * 2 ^ Z.of_nat attempt) (max_delay_sec cfg).

(** [for attempt in range(max_retries)] for one model. *)
Fixpoint retry_loop (model_name : string) (attempts : list nat)
         (calls : nat) (last_error : option string)
  : inner_exit * list attempt_log * nat * option string :=
  match attempts with
  | [] => (Exhausted, [], calls, last_error)
  | attempt :: rest =>
      match call_once calls model_name with
      | Reply result =>
          (Returned result, [mk_attempt attempt (Reply result) None],
           S calls, last_error)
      | Fails e =>
          if _is_rate_limit_error e then
            let delay := backoff_delay attempt in
            if (delay <? 0)%Z then
              (SleepRaised, [mk_attempt attempt (Fails e) (Some delay)],
               S calls, Some e)
            else
              let '(exit, log, calls', last_error') :=
                retry_loop model_name rest (S calls) (Some e) in
              (exit, mk_attempt attempt (Fails e) (Some delay) :: log,
               calls', last_error')
          else
            (Broke, [mk_attempt attempt (Fails e) None], S calls, Some e)
      end
  end.

(** [for model_name in models_to_try], then the final [raise]. *)
Fixpoint model_loop (models_to_try : list string) (models : list string)
         (calls : nat) (last_error : option string)
  : res string * list (string * list attempt_log) :=
  match models with
  | [] => (Raise (RuntimeError models_to_try last_error), [])
  | model_name :: rest =>
      let '(exit, log, calls', last_error') :=
        retry_loop model_name (seq 0 (Z.to_nat (max_retries cfg))) calls last_error in
      match exit with
      | Returned result => (Ok result, [(model_name, log)])
      | SleepRaised => (Raise ValueError, [(model_name, log)])
      | Broke | Exhausted =>
          let '(r, logs) := model_loop models_to_try rest calls' last_error' in
          (r, (model_name, log) :: logs)
      end
  end.

Definition models_to_try (model : string) : list string :=
  model :: List.filter (fun m => negb (String.eqb m model)) (fallback_models cfg).

(** [chat]: the result, and the log of what was called and slept. *)
Definition chat_run (model : string)
  : res string * list (string * list attempt_log) :=
  model_loop (models_to_try model) (models_to_try model) 0 None.

Definition chat (model : string) : res string := fst (chat_run model).
Definition chat_log (model : string) : list (string * list attempt_log) :=
  snd (chat_run model).

(** Whether the loop goes on to the next model after these attempts:
    not after a reply, and not when [time.sleep] raised. *)
Definition moves_on (attempts : list attempt_log) : bool :=
  match last attempts with
  | None => true
  | Some a =>
      match outcome a with
      | Reply _ => false
      | Fails e =>
          if _is_rate_limit_error e
          then (0 <=? backoff_delay (attempt a))%Z
          else true
      end
  end.
End chat.

(** Whether the outer loop goes on after the inner loop ended this way. *)
Definition goes_on (exit : inner_exit) : bool :=
  match exit with
  | Broke | Exhausted => true
  | Returned _ | SleepRaised => false
  end.

(** The number of calls of [_call_once] logged before entry [j]. *)
Definition calls_before (log : list (string * list attempt_log)) (j : nat) : nat :=
  length (concat (map snd (take j log))).

End Llm.

(** ** worker.py: the tool loop *)

Module Worker.

Definition _MAX_TOOL_ITERATIONS : nat := 20.

Definition _TOOLS : list string := ["run_cmd"; "read_file"; "edit_file"].

Record message : Type := mk_message {
  role : string;
  content : string;
}.

Section tools.
(** [subprocess_run command timeout] is the text that lines 25 to 44 of
    [_tool_run_cmd] return: the [try] block around [subprocess.run],
    whose handlers turn every exception into a text. *)
Variable subprocess_run : string -> Z -> string.

(** [_tool_run_cmd(args, repo_path)].  The arguments come from
    [_parse_tool_call], which stores texts only. *)
Definition _tool_run_cmd (args : list (string * string)) : res string :=
  let command := PyDict.get_default "command" "" args in
  if String.eqb (PyStr.strip command) "" then Ok "ERROR: command is empty"
  else
    timeout <~ match PyDict.get "timeout" args with
               | Some text => PyInt.int text       (* line 24, before the try *)
               | None => Ok 120%Z
               end ;;
    Ok (subprocess_run command (Z.min timeout 300)).
End tools.

Definition extract_handoff_from_response (response : string) : string :=
  let fix starts (l : list string) : option string :=
    match l with
    | [] => None
    | start :: l' =>
        let idx := PyStr.find start response in
        if negb (idx =? -1)%Z
        then Some (PyStr.strip (PyStr.slice_from idx response))
        else starts l'
    end in
  match starts ["# Summary"; "# Handoff"; "# What was done"] with
  | Some h => h
  | None =>
      let last_h := PyStr.rfind (PyStr.nl +:+ "# ") response in
      if negb (last_h =? -1)%Z
      then PyStr.strip (PyStr.slice_from (last_h + 1) response)
      else PyStr.strip response
  end.

Definition budget_exceeded_handoff : string :=
  "# Summary" +:+ PyStr.nl +:+ PyStr.nl
  +:+ "Task processing reached iteration limit. Partial work may have been done."
  +:+ PyStr.nl +:+ PyStr.nl
  +:+ "# Notes / Concerns" +:+ PyStr.nl +:+ PyStr.nl
  +:+ "Max tool iterations reached.".

(** What [run_worker] leaves behind: the text returned and the text
    written to [handoff_path]. *)
Record outcome : Type := mk_outcome {
  returned : string;
  written : string;
}.

Inductive loop_exit : Type :=
| LoopBreak (handoff_content : string)
| LoopElse.

Section run_worker.
(** The environment of one dispatch.
    - [chat i messages] is the call of the invocation layer in
      iteration [i], given the conversation so far; it raises when every
      candidate model failed.
    - [_parse_tool_call response] is the tool name, the arguments and the
      remaining text found in a response by the regular expressions of
      [_parse_tool_call]; the loop uses the tool name and the arguments.
    - [run_tool i name args] is [_TOOLS[name](args, repo_path)] in
      iteration [i]. *)
Variable chat : nat -> list message -> res string.
Variable _parse_tool_call :
  string -> option string * option (list (string * string)) * string.
Variable run_tool : nat -> string -> list (string * string) -> res string.
(** What [run_worker] does outside the loop, in no [try]:
    - [setup] is lines 183 to 186, [config or load_config()],
      [get_client(config)], [get_model(config)] and
      [load_worker_prompt()]: they return, or one of them raises;
    - [write_handoff text] is lines 258 and 259, the [mkdir] of the
      parent directory and the [write_text] of the handoff.
    The calls of the logger write to the session's own files and are
    taken to return. *)
Variable setup : res unit.
Variable write_handoff : string -> res unit.

Definition tool_feedback (tool_result : string) : string :=
  "<tool_result>" +:+ PyStr.nl +:+ tool_result +:+ PyStr.nl +:+ "</tool_result>"
  +:+ PyStr.nl +:+ PyStr.nl
  +:+ "Continue with the task. Use another tool or write the HANDOFF if done.".

Definition unknown_tool (tool_name : string) : string :=
  "ERROR: unknown tool '" +:+ tool_name
  +:+ "'. Available: run_cmd, read_file, edit_file".

(** [for iteration in range(_MAX_TOOL_ITERATIONS)] *)
Fixpoint tool_loop (iterations : list nat) (messages : list message)
  : res (loop_exit * list message) :=
  match iterations with
  | [] => Ok (LoopElse, messages)
  | iteration :: rest =>
      response <~ chat iteration messages ;;
      let messages := (messages ++ [mk_message "assistant" response])%list in
      let '(tool_name, tool_args, remaining) := _parse_tool_call response in
      match tool_name with
      | None => Ok (LoopBreak (extract_handoff_from_response response), messages)
      | Some name =>
          tool_result <~
            (if existsb (String.eqb name) _TOOLS
             then run_tool iteration name
                           (match tool_args with Some a => a | None => [] end)
             else Ok (unknown_tool name)) ;;
          tool_loop rest
            (messages ++ [mk_message "user" (tool_feedback tool_result)])%list
      end
  end.

Definition initial_user (description listing : string) : string :=
  "## Task (from planner)" +:+ PyStr.nl +:+ PyStr.nl +:+ description
  +:+ PyStr.nl +:+ PyStr.nl
  +:+ "## Repository context (top-level)" +:+ PyStr.nl +:+ PyStr.nl +:+ listing
  +:+ PyStr.nl +:+ PyStr.nl
  +:+ "Complete this task using tools (run_cmd, read_file, edit_file). "
  +:+ "When you are finished, output your HANDOFF document (starting with '# Summary').".

(** [run_worker]; [description] is [task.description] and [listing] the
    text of the repository listing. *)
Definition run_worker (description listing : string) : res outcome :=
  _ <~ setup ;;
  let messages := [mk_message "user" (initial_user description listing)] in
  r <~ tool_loop (seq 0 _MAX_TOOL_ITERATIONS) messages ;;
  let '(exit, messages) := r in
  let handoff_content :=
    match exit with
    | LoopBreak h => h
    | LoopElse =>
        match last (A:=message) messages with
        | Some m =>
            if String.eqb (role m) "assistant"
            then extract_handoff_from_response (content m)
            else ""
        | None => ""
        end
    end in
  let handoff_content :=
    if String.eqb handoff_content "" then budget_exceeded_handoff
    else handoff_content in
  _ <~ write_handoff handoff_content ;;
  Ok (mk_outcome handoff_content handoff_content).
End run_worker.

End Worker.

(** ** Sequences of task-store operations *)

Module Ops.
Section with_path.
Context `{PathLib}.

Inductive op : Type :=
| Add (task : Task.t)
| AddMany (tasks : list Task.t)
| Claim (task_id worker_id : string)
| Complete (task_id : string) (handoff_path : Path).

Definition run_op (o : op) : M TaskStore.t unit :=
  match o with
  | Add task => TaskStore.add task
  | AddMany tasks => TaskStore.add_many tasks
  | Claim task_id worker_id => _ <- TaskStore.claim task_id worker_id ;; ret tt
  | Complete task_id handoff_path => TaskStore.complete task_id handoff_path
  end.

Fixpoint run_ops (os : list op) : M TaskStore.t unit :=
  match os with
  | [] => ret tt
  | o :: os' => run_op o ;;; run_ops os'
  end.

(** The tasks an operation stores. *)
Definition added (o : op) : list Task.t :=
  match o with
  | Add task => [task]
  | AddMany tasks => tasks
  | _ => []
  end.

(** Claims of one task by several workers, one call after the other. *)
Fixpoint claim_all (task_id : string) (worker_ids : list string)
  : M TaskStore.t (list (option Task.t)) :=
  match worker_ids with
  | [] => ret []
  | w :: ws =>
      r <- TaskStore.claim task_id w ;;
      rs <- claim_all task_id ws ;;
      ret (r :: rs)
  end.
End with_path.
End Ops.

(** ** runner.py: applying the output of a planner *)

Module Runner.
Section with_path.
Context `{PathLib}.

(** The runner owns one task store and one planner registry. *)
Definition state : Type := (TaskStore.t * PlannerRegistry.t)%type.

Definition on_task_store {A} (c : M TaskStore.t A) : M state A :=
  fun s => match c (fst s) with
           | Ok (a, store) => Ok (a, (store, snd s))
           | Raise e => Raise e
           end.

Definition on_planner_registry {A} (c : M PlannerRegistry.t A) : M state A :=
  fun s => match c (snd s) with
           | Ok (a, registry) => Ok (a, (fst s, registry))
           | Raise e => Raise e
           end.

(** [for scope in sub_scopes: self.planner_registry.add_sub(planner_id, scope)];
    each scope comes with the random part of the id it will get. *)
Fixpoint add_subs (planner_id : string) (sub_scopes : list (string * string))
  : M state unit :=
  match sub_scopes with
  | [] => ret tt
  | (uuid8, scope) :: rest =>
      _ <- on_planner_registry (PlannerRegistry.add_sub uuid8 planner_id scope) ;;
      add_subs planner_id rest
  end.

(** [_run_planner_and_apply].  [run_planner] is the outcome of the call
    of [run_planner] at line 46, which is in no [try]: the tasks and the
    delegated scopes it returned (each scope with the random part of the
    id it will get), or the exception it raised (the RuntimeError of
    [chat], an error of the configuration or of the client). *)
Definition _run_planner_and_apply (planner_id : string)
           (run_planner : res (list Task.t * list (string * string)))
  : M state (list Task.t) :=
  r <- lift run_planner ;;
  let tasks := fst r in
  let sub_scopes := snd r in
  add_subs planner_id sub_scopes ;;;
  (match tasks with
   | _ :: _ => on_task_store (TaskStore.add_many tasks)
   | [] => ret tt
   end) ;;;
  (if negb (String.eqb planner_id "root")
   then on_planner_registry (PlannerRegistry.mark_run planner_id)
   else ret tt) ;;;
  ret tasks.
End with_path.
End Runner.

(** ** Threads inside [claim]

    [claim] takes no lock.  A thread that runs it is between two lines of
    its body; the interpreter may switch threads there.  The local
    variable [t] refers to the object stored under [task_id]; reads and
    writes of its attributes go to that object. *)

Module ClaimRace.
Section with_path.
Context `{PathLib}.

Inductive pc : Type :=
| L78        (* t = self._tasks.get(task_id) *)
| L79        (* if t and t.status == "pending": *)
| L80        (* t.status = "running" *)
| L81        (* t.worker_id = worker_id *)
| L82        (* self._save() *)
| L83        (* return t *)
| L84        (* return None *)
| Finished (result : option Task.t).

Record thread : Type := mk_thread {
  task_id : string;
  worker_id : string;
  at_line : pc;
  t_bound : bool;       (* whether the local [t] is an object, not None *)
}.

Definition start (task_id worker_id : string) : thread :=
  mk_thread task_id worker_id L78 false.

Definition goto (l : pc) (th : thread) : thread :=
  mk_thread (task_id th) (worker_id th) l (t_bound th).

Definition save (self : TaskStore.t) : TaskStore.t :=
  match TaskStore._save self with
  | Ok (_, self') => self'
  | Raise _ => self
  end.

(** One line of [claim], run by [th]. *)
Definition step (th : thread) (self : TaskStore.t) : thread * TaskStore.t :=
  let tasks := TaskStore._tasks self in
  match at_line th with
  | L78 =>
      (mk_thread (task_id th) (worker_id th) L79
                 (PyDict.contains (task_id th) tasks), self)
  | L79 =>
      let pending :=
        match PyDict.get (task_id th) tasks with
        | Some task => String.eqb (Task.status task) "pending"
        | None => false
        end in
      (goto (if t_bound th && pending then L80 else L84) th, self)
  | L80 =>
      (goto L81 th,
       TaskStore.with_tasks
         (PyDict.alter (Task.set_status "running") (task_id th) tasks) self)
  | L81 =>
      (goto L82 th,
       TaskStore.with_tasks
         (PyDict.alter (Task.set_worker_id (Some (worker_id th))) (task_id th) tasks)
         self)
  | L82 => (goto L83 th, save self)
  | L83 => (goto (Finished (PyDict.get (task_id th) tasks)) th, self)
  | L84 => (goto (Finished None) th, self)
  | Finished _ => (th, self)
  end.

(** A schedule names, step by step, the thread that runs its next line. *)
Fixpoint run (schedule : list nat) (threads : list thread) (self : TaskStore.t)
  : list thread * TaskStore.t :=
  match schedule with
  | [] => (threads, self)
  | i :: schedule' =>
      match threads !! i with
      | Some th =>
          let '(th', self') := step th self in
          run schedule' (<[i := th']> threads) self'
      | None => run schedule' threads self
      end
  end.

(** [n] lines run by one thread with no other thread in between. *)
Fixpoint steps (n : nat) (th : thread) (self : TaskStore.t)
  : thread * TaskStore.t :=
  match n with
  | O => (th, self)
  | S n' => let '(th', self') := step th self in steps n' th' self'
  end.

(** The schedule that runs [n] calls one after the other: thread
    [first] runs the six lines of its call, then thread [first + 1]
    runs its lines, and so on. *)
Definition serial (first n : nat) : list nat :=
  flat_map (fun i => repeat i 6) (seq first n).

(** The value a thread's call returned, as the object was when the call
    returned ([None] also while the call has not returned). *)
Definition result (th : thread) : option Task.t :=
  match at_line th with
  | Finished r => r
  | _ => None
  end.

Definition finished (th : thread) : bool :=
  match at_line th with
  | Finished _ => true
  | _ => false
  end.

(** The thread is about to run its check (line 79). *)
Definition at_check (th : thread) : bool :=
  match at_line th with L79 => true | _ => false end.

(** The thread stands between its check and its write: it has found the
    task pending and has not yet run line 80. *)
Definition at_write (th : thread) : bool :=
  match at_line th with L80 => true | _ => false end.

(** The thread has run line 80. *)
Definition has_written (th : thread) : bool :=
  match at_line th with
  | L81 | L82 | L83 | Finished (Some _) => true
  | _ => false
  end.

(** The thread has found the task pending at its check. *)
Definition has_passed (th : thread) : bool := at_write th || has_written th.

(** The thread has found the task missing or not pending at its check. *)
Definition has_failed (th : thread) : bool :=
  match at_line th with
  | L84 | Finished None => true
  | _ => false
  end.

(** No thread runs its check (line 79) while another thread stands
    between its own check and its write (line 80). *)
Fixpoint checks_apart (schedule : list nat) (threads : list thread)
         (self : TaskStore.t) : bool :=
  match schedule with
  | [] => true
  | i :: schedule' =>
      match threads !! i with
      | Some th =>
          let '(th', self') := step th self in
          negb (at_check th && existsb at_write threads)
          && checks_apart schedule' (<[i := th']> threads) self'
      | None => checks_apart schedule' threads self
      end
  end.

(** Whether the task under [k] is stored and pending. *)
Definition pending_at (k : string) (self : TaskStore.t) : bool :=
  match PyDict.get k (TaskStore._tasks self) with
  | Some task => String.eqb (Task.status task) "pending"
  | None => false
  end.

(** What holds at every point of a run of threads that claim the stored
    task [k]: a thread past line 78 has found the task; the task is
    pending as long as no thread has run line 80; and a thread can have
    failed its check only after another thread has passed its own. *)
Definition consistent (k : string) (threads : list thread) (self : TaskStore.t)
  : Prop :=
  Forall (fun th => task_id th = k /\ (at_check th = true -> t_bound th = true))
         threads /\
  PyDict.contains k (TaskStore._tasks self) = true /\
  pending_at k self = negb (existsb has_written threads) /\
  (existsb has_failed threads = true -> existsb has_passed threads = true).
End with_path.
End ClaimRace.

(** ** More string methods: lines, joins, character classes *)

Module PyText.

(** A line boundary of [str.splitlines()], for a code point below 256. *)
Definition is_linebreak (c : ascii) : bool :=
  let n := nat_of_ascii c in
  (((10 <=? n) && (n <=? 13)) || ((28 <=? n) && (n <=? 30)) || (n =? 133))%nat.

Definition is_cr (c : ascii) : bool := (nat_of_ascii c =? 13)%nat.
Definition is_lf (c : ascii) : bool := (nat_of_ascii c =? 10)%nat.

(** [s.splitlines()]; [cur] is the line read so far.  A carriage return
    followed by a line feed is one boundary; the text after the last
    boundary is a line when it is not empty. *)
Fixpoint splitlines_from (s : string) (cur : string) : list string :=
  match s with
  | EmptyString => match cur with EmptyString => [] | _ => [cur] end
  | String c s' =>
      if is_linebreak c then
        match s' with
        | String c2 s2 =>
            if is_cr c && is_lf c2 then cur :: splitlines_from s2 EmptyString
            else cur :: splitlines_from s' EmptyString
        | EmptyString => cur :: splitlines_from s' EmptyString
        end
      else splitlines_from s' (cur +:+ String c EmptyString)
  end.

Definition splitlines (s : string) : list string := splitlines_from s EmptyString.

(** [sep.join(parts)] *)
Fixpoint join (sep : string) (parts : list string) : string :=
  match parts with
  | [] => EmptyString
  | [p] => p
  | p :: rest => p +:+ sep +:+ join sep rest
  end.

(** [s.lstrip(c)] for a single character [c]. *)
Fixpoint lstrip_char (c : ascii) (s : string) : string :=
  match s with
  | EmptyString => EmptyString
  | String c' s' => if Ascii.eqb c' c then lstrip_char c s' else s
  end.

(** A character matched by [\d], for a code point below 256. *)
Definition isdigit (c : ascii) : bool :=
  let n := nat_of_ascii c in ((48 <=? n) && (n <=? 57))%nat.

Fixpoint skip_digits (s : string) : string :=
  match s with
  | EmptyString => EmptyString
  | String c s' => if isdigit c then skip_digits s' else s
  end.

End PyText.


(** ** planner.py: tasks from a response *)

Module Planner.
Section with_path.
Context `{PathLib}.

(** [re.match(r"^\d+[.)]\s*", line)]: the text after the match
    ([line[m.end():]]), or [None] when the line does not match. *)
Definition match_numbered (line : string) : option string :=
  match line with
  | String c _ =>
      if PyText.isdigit c then
        match PyText.skip_digits line with
        | String p rest =>
            if Ascii.eqb p "."%char || Ascii.eqb p ")"%char
            then Some (PyStr.lstrip rest)
            else None
        | EmptyString => None
        end
      else None
  | EmptyString => None
  end.

(** [re.match(r"^[-*]\s*", line)], in the same way. *)
Definition match_bullet (line : string) : option string :=
  match line with
  | String c rest =>
      if Ascii.eqb c "-"%char || Ascii.eqb c "*"%char
      then Some (PyStr.lstrip rest)
      else None
  | EmptyString => None
  end.

(** [for prefix in (...)]: the description of the task the line gives,
    if it gives one.  A description that is too short goes on to the
    next pattern. *)
Fixpoint description_of (patterns : list (string -> option string)) (line : string)
  : option string :=
  match patterns with
  | [] => None
  | pattern :: rest =>
      match pattern line with
      | Some after =>
          let desc := PyStr.strip after in
          if (String.length desc <? 10)%nat then description_of rest line
          else Some desc
      | None => description_of rest line
      end
  end.

(** The loop over the lines; [uuid n] stands for the [n]-th value of
    [uuid.uuid4().hex[:8]] drawn by the call. *)
Fixpoint tasks_of_lines (uuid : nat -> string) (planner_id : string)
         (lines : list string) (tasks : list Task.t) : list Task.t :=
  match lines with
  | [] => tasks
  | line :: rest =>
      let line := PyStr.strip line in
      if String.eqb line "" then tasks_of_lines uuid planner_id rest tasks
      else
        match description_of [match_numbered; match_bullet] line with
        | Some desc =>
            tasks_of_lines uuid planner_id rest
              (tasks ++ [Task.new ("task-" +:+ uuid (length tasks)) planner_id desc])%list
        | None => tasks_of_lines uuid planner_id rest tasks
        end
  end.

Definition parse_tasks_from_response (uuid : nat -> string)
           (response planner_id : string) : list Task.t :=
  tasks_of_lines uuid planner_id (PyText.splitlines response) [].
End with_path.
End Planner.

(** ** handoff.py *)

Module Handoff.

(** The state of the loop of [parse_handoff]: the sections found, the
    current heading ([None] before the first one) and the lines read
    under it. *)
Definition close_section (sections : list (string * string))
           (current : option string) (buf : list string) : list (string * string) :=
  match current with
  | Some heading =>
      if String.eqb heading "" then sections
      else PyDict.setitem heading (PyStr.strip (PyText.join PyStr.nl buf)) sections
  | None => sections
  end.

Definition heading_of (line : string) : string :=
  PyStr.lower (PyStr.strip (PyText.lstrip_char "#"%char line)).

Fixpoint parse_lines (lines : list string) (sections : list (string * string))
         (current : option string) (buf : list string) : list (string * string) :=
  match lines with
  | [] => close_section sections current buf
  | line :: rest =>
      if String.prefix "#" line
      then parse_lines rest (close_section sections current buf)
                       (Some (heading_of line)) []
      else parse_lines rest sections current (buf ++ [line])%list
  end.

Definition parse_handoff (content : string) : list (string * string) :=
  parse_lines (PyText.splitlines content) [] None [].

Definition recommended : list string :=
  ["summary"; "what was done"; "notes"; "concerns"; "discoveries"; "feedback"].

Definition validate_handoff (content : string) : bool * list string :=
  let sections := parse_handoff content in
  let missing :=
    List.filter
      (fun s => negb (existsb (fun k => PyStr.contains s k) (PyDict.keys sections)))
      recommended in
  let has_summary :=
    existsb (fun k => negb (String.eqb k ""))
            (List.filter
               (fun k => PyStr.contains "summary" k || PyStr.contains "done" k
                         || PyStr.contains "change" k)
               (PyDict.keys sections)) in
  let ok :=
    (100 <=? String.length (PyStr.strip content))%nat
    && (has_summary || (1 <=? length sections)%nat) in
  (ok, missing).

End Handoff.

(** ** worker.py: the repository listing *)

Module Listing.

Definition line_of (entry : string * bool) : string :=
  if snd entry then "- " +:+ fst entry +:+ "/" else "- " +:+ fst entry.

(** The loop of [list_repo] over [sorted(Path(repo_path).iterdir())]:
    each entry is a name and whether it is a directory; [i] is its index. *)
Fixpoint list_loop (max_entries : Z) (i : nat) (entries : list (string * bool))
         (lines : list string) : list string :=
  match entries with
  | [] => lines
  | entry :: rest =>
      if (max_entries <=? Z.of_nat i)%Z then (lines ++ ["..."])%list
      else if String.prefix "." (fst entry)
           then list_loop max_entries (S i) rest lines
           else list_loop max_entries (S i) rest (lines ++ [line_of entry])%list
  end.

Definition list_repo (entries : list (string * bool)) (max_entries : Z) : string :=
  let text := PyText.join PyStr.nl (list_loop max_entries 0 entries []) in
  if String.eqb text "" then "(empty)" else text.

End Listing.

(** ** runner.py: the dispatch of one task *)

Module Dispatch.
Section with_path.
Context `{PathLib}.

(** [run_one(task)].  [prepare] is the outcome of creating the working
    directory and copying the repository, [handoff_path] the path
    [work_dir / "handoff.md"], and [worker] the outcome of [run_worker]
    on the claimed task.  The value returned is the claimed object, as it
    is when the call returns. *)
Definition run_one (task : Task.t) (handoff_path : Path)
           (prepare : res unit) (worker : res Worker.outcome)
  : M TaskStore.t (option Task.t) :=
  let worker_id := "w-" +:+ Task.id task in
  _ <- lift prepare ;;
  claimed <- TaskStore.claim (Task.id task) worker_id ;;
  match claimed with
  | None => ret None
  | Some _ =>
      fun self =>
        match worker with
        | Ok _ =>
            match TaskStore.complete (Task.id task) handoff_path self with
            | Ok (_, self') => Ok (PyDict.get (Task.id task) (TaskStore._tasks self'), self')
            | Raise _ => Ok (None, self)          (* except Exception *)
            end
        | Raise _ => Ok (None, self)              (* except Exception *)
        end
  end.
End with_path.
End Dispatch.

(** ** Sequences of registry operations *)

Module RegOps.

Inductive op : Type :=
| AddSub (uuid8 parent_id scope : string)
| MarkRun (planner_id : string).

Definition run_op (o : op) : M PlannerRegistry.t unit :=
  match o with
  | AddSub uuid8 parent_id scope =>
      _ <- PlannerRegistry.add_sub uuid8 parent_id scope ;; ret tt
  | MarkRun planner_id => PlannerRegistry.mark_run planner_id
  end.

Fixpoint run_ops (os : list op) : M PlannerRegistry.t unit :=
  match os with
  | [] => ret tt
  | o :: os' => run_op o ;;; run_ops os'
  end.

End RegOps.

(** A table of tasks with one entry per id, each stored under its own
    id. *)
Definition store_ok `{PathLib} (tasks : list (string * Task.t)) : Prop :=
  List.NoDup (PyDict.keys tasks)
  /\ Forall (fun kv => fst kv = Task.id (snd kv)) tasks.

(** All the attempts of a log of [chat], in the order they were made. *)
Definition all_attempts (log : list (string * list Llm.attempt_log))
  : list Llm.attempt_log :=
  concat (map snd log).

(** The error text of an attempt that failed. *)
Definition error_of (a : Llm.attempt_log) : option string :=
  match Llm.outcome a with
  | Llm.Fails e => Some e
  | Llm.Reply _ => None
  end.

Definition replied (a : Llm.attempt_log) : bool :=
  match Llm.outcome a with
  | Llm.Reply _ => true
  | Llm.Fails _ => false
  end.

(** [last_error] after the attempts of [log], when it was [le] before:
    every call that fails overwrites it. *)
Fixpoint last_error_after (le : option string) (log : list Llm.attempt_log)
  : option string :=
  match log with
  | [] => le
  | a :: log' =>
      last_error_after
        (match Llm.outcome a with Llm.Fails e => Some e | Llm.Reply _ => le end) log'
  end.

(** The log of a model that failed with the rate-limit error [e] at
    each of the attempts [attempts]. *)
Definition limited_attempts (cfg : Llm.config) (e : string) (attempts : list nat)
  : list Llm.attempt_log :=
  map (fun k => Llm.mk_attempt k (Llm.Fails e) (Some (Llm.backoff_delay cfg k)))
      attempts.

Module SampleCalls.

(** A service that refuses every call with an authentication error. *)
Definition unauthorized (n : nat) (model_name : string) : Llm.call_outcome :=
  Llm.Fails "401 unauthorized".

End SampleCalls.

(** ** Vocabulary of the statements *)

Section vocabulary.
Context `{PathLib}.

(** The record a successful claim leaves in the store. *)
Definition claimed (worker_id : string) (task : Task.t) : Task.t :=
  Task.set_worker_id (Some worker_id) (Task.set_status "running" task).

(** The record [complete] leaves in the store. *)
Definition completed (handoff_path : Path) (task : Task.t) : Task.t :=
  Task.set_handoff_path (Some handoff_path) (Task.set_status "done" task).

(** A store whose file has just been written. *)
Definition saved (tasks : list (string * Task.t)) : TaskStore.t :=
  TaskStore.mk tasks (Some (TaskStore.snapshot tasks)).

(** The status moves the operations of the store can make. *)
Definition forward (s s' : string) : Prop :=
  s' = s \/ (s = "pending" /\ s' = "running") \/ s' = "done".

(** Whether a call of [claim] returned a task. *)
Definition is_task (r : option Task.t) : bool :=
  match r with Some _ => true | None => false end.

(** The last task of [tasks] whose id is [k]: the one [add_many] keeps. *)
Definition last_with_id (k : string) (tasks : list Task.t) : option Task.t :=
  List.find (fun task => String.eqb (Task.id task) k) (rev tasks).

(** A task as [parse_tasks_from_response] makes it. *)
Definition fresh_task (planner_id : string) (task : Task.t) : Prop :=
  Task.status task = "pending" /\ Task.planner_id task = planner_id /\
  Task.worker_id task = None /\ Task.handoff_path task = None /\
  Task.meta task = [] /\
  PyStr.strip (Task.description task) = Task.description task /\
  10 <= String.length (Task.description task).
End vocabulary.

(** A table of sub-planners with one entry per id, each stored under
    its own id. *)
Definition registry_ok (subs : list (string * SubPlanner.t)) : Prop :=
  List.NoDup (PyDict.keys subs)
  /\ Forall (fun kv => fst kv = SubPlanner.id (snd kv)) subs.

(** ** Concrete stores and registries *)

Module Sample.
#[local] Existing Instance PlainPath.

Definition a_md : Path := Path_of "a.md".
Definition b_md : Path := Path_of "b.md".

Definition t1_pending : Task.t := Task.new "t1" "root" "Write README".
Definition t1_done : Task.t :=
  Task.mk "t1" "sub-1" "Write README" "done" (Some "w-t1") (Some a_md) [].
Definition t2_pending : Task.t := Task.new "t2" "root" "Add LICENSE".

Definition store_pending : TaskStore.t := saved [("t1", t1_pending); ("t2", t2_pending)].
Definition store_done : TaskStore.t := saved [("t1", t1_done); ("t2", t2_pending)].

Definition sub1_new : SubPlanner.t := SubPlanner.mk "sub-1" "root" "Handle all test files" true.
Definition sub1_run : SubPlanner.t := SubPlanner.set_is_new false sub1_new.
Definition registry_new : PlannerRegistry.t :=
  PlannerRegistry.mk [("sub-1", sub1_new)] None.
End Sample.

(** ** Concrete services and agents *)

Module SampleRun.

(** A primary model that is always rate-limited and fallbacks that answer. *)
Definition primary_limited (n : nat) (model_name : string) : Llm.call_outcome :=
  if String.eqb model_name "gpt-5.2-codex-xhigh"
  then Llm.Fails "Error code: 429 - Too Many Requests"
  else Llm.Reply "pong".

(** A service that is rate-limited for its first calls, whatever the model. *)
Definition limited_until (first_ok : nat) (n : nat) (model_name : string)
  : Llm.call_outcome :=
  if (n <? first_ok)%nat then Llm.Fails "Rate limit reached" else Llm.Reply "pong".

(** A parser that recognises a response that starts with the opening tag. *)
Definition parse_by_prefix (response : string)
  : option string * option (list (string * string)) * string :=
  if String.prefix "<tool_call>" response
  then (Some "run_cmd", Some [("command", "ls")], "")
  else (None, None, response).

Definition tool_ok (i : nat) (name : string) (args : list (string * string))
  : res string := Ok "[exit_code: 0]".

(** An agent that asks for a tool in every response. *)
Definition agent_never_done (i : nat) (messages : list Worker.message) : res string :=
  Ok ("<tool_call>" +:+ PyStr.nl +:+ "tool: run_cmd" +:+ PyStr.nl
      +:+ "command: ls" +:+ PyStr.nl +:+ "</tool_call>").

(** An agent that asks for a tool twice and then writes its handoff. *)
Definition agent_done_at_2 (i : nat) (messages : list Worker.message) : res string :=
  if (i <? 2)%nat then agent_never_done i messages
  else Ok ("All done." +:+ PyStr.nl +:+ "# Summary" +:+ PyStr.nl +:+ "README written."
           +:+ PyStr.nl).

(** A set-up that returns, and a handoff file that can be written. *)
Definition setup_ok : res unit := Ok tt.
Definition write_ok (text : string) : res unit := Ok tt.

(** A handoff file that cannot be written. *)
Definition write_denied (text : string) : res unit := Raise OSError.

(** An agent that runs a command with a time limit that is no number. *)
Definition agent_bad_timeout (i : nat) (messages : list Worker.message) : res string :=
  Ok ("<tool_call>" +:+ PyStr.nl +:+ "tool: run_cmd" +:+ PyStr.nl
      +:+ "command: ls" +:+ PyStr.nl +:+ "timeout: abc" +:+ PyStr.nl
      +:+ "</tool_call>").

(** What [_parse_tool_call] finds in that response. *)
Definition parse_bad_timeout (response : string)
  : option string * option (list (string * string)) * string :=
  if String.prefix "<tool_call>" response
  then (Some "run_cmd", Some [("command", "ls"); ("timeout", "abc")], "")
  else (None, None, response).

(** A machine on which every command prints nothing and exits with 0. *)
Definition shell_quiet (command : string) (timeout : Z) : string := "[exit_code: 0]".

(** The table of tools with [run_cmd] as the code has it; the file
    tools, which these runs do not call, answer as they do without a
    path. *)
Definition tools (i : nat) (name : string) (args : list (string * string))
  : res string :=
  if String.eqb name "run_cmd" then Worker._tool_run_cmd shell_quiet args
  else Ok "ERROR: path is empty".

(** An agent that writes its handoff in its first response. *)
Definition agent_done_at_once (i : nat) (messages : list Worker.message) : res string :=
  agent_done_at_2 (2 + i) messages.

(** An invocation layer whose every candidate model failed. *)
Definition agent_down (i : nat) (messages : list Worker.message) : res string :=
  Raise (RuntimeError ["m"] (Some "Error code: 401 - Unauthorized")).

(** Tools that answer under the names of the table only. *)
Definition tool_known_only (i : nat) (name : string) (args : list (string * string))
  : res string :=
  if existsb (String.eqb name) Worker._TOOLS then Ok "[exit_code: 0]"
  else Raise (KeyError name).

End SampleRun.

(** * Properties *)

(** ** Dictionaries *)

Ltac eqb_cases :=
  repeat match goal with
         | |- context [String.eqb ?a ?b] =>
             destruct (String.eqb_spec a b); subst; try congruence
         | H : context [String.eqb ?a ?b] |- _ =>
             destruct (String.eqb_spec a b); subst; try congruence
         end.

Section PyDict_facts.
Context {V : Type}.
Implicit Types (d : list (string * V)) (k : string) (v : V).

Lemma get_setitem_eq k v d : PyDict.get k (PyDict.setitem k v d) = Some v.
Proof.
  induction d as [|[k' v'] d IH]; simpl.
  - now rewrite String.eqb_refl.
  - destruct (String.eqb_spec k k'); simpl.
    + subst. now rewrite String.eqb_refl.
    + destruct (String.eqb_spec k k'); [congruence | exact IH].
Qed.

Lemma get_setitem_ne k k' v d :
  k <> k' -> PyDict.get k' (PyDict.setitem k v d) = PyDict.get k' d.
Proof.
  intros Hne. induction d as [|[k0 v0] d IH]; simpl.
  - destruct (String.eqb_spec k' k); congruence.
  - destruct (String.eqb_spec k k0); simpl.
    + subst. destruct (String.eqb_spec k' k0); congruence.
    + destruct (String.eqb_spec k' k0); [reflexivity | exact IH].
Qed.

Lemma get_alter_eq f k d :
  PyDict.get k (PyDict.alter f k d) = option_map f (PyDict.get k d).
Proof.
  induction d as [|[k' v'] d IH]; simpl; [reflexivity|].
  destruct (String.eqb_spec k k'); simpl.
  - subst. now rewrite String.eqb_refl.
  - destruct (String.eqb_spec k k'); [congruence | exact IH].
Qed.

Lemma get_alter_ne f k k' d :
  k <> k' -> PyDict.get k' (PyDict.alter f k d) = PyDict.get k' d.
Proof.
  intros Hne. induction d as [|[k0 v0] d IH]; simpl; [reflexivity|].
  destruct (String.eqb_spec k k0); simpl.
  - subst. destruct (String.eqb_spec k' k0); congruence.
  - destruct (String.eqb_spec k' k0); [reflexivity | exact IH].
Qed.

Lemma keys_alter f k d : PyDict.keys (PyDict.alter f k d) = PyDict.keys d.
Proof.
  induction d as [|[k' v'] d IH]; simpl; [reflexivity|].
  destruct (String.eqb k k'); simpl; [reflexivity | now f_equal].
Qed.

Lemma alter_absent f k d : PyDict.get k d = None -> PyDict.alter f k d = d.
Proof.
  induction d as [|[k' v'] d IH]; simpl; [reflexivity|].
  destruct (String.eqb k k'); [discriminate | intros; f_equal; auto].
Qed.

Lemma alter_alter f g k d :
  PyDict.alter g k (PyDict.alter f k d) = PyDict.alter (fun x => g (f x)) k d.
Proof.
  induction d as [|[k' v'] d IH]; simpl; [reflexivity|].
  destruct (String.eqb k k') eqn:E; simpl; rewrite E; [reflexivity | now f_equal].
Qed.

Lemma keys_setitem_present k v d :
  PyDict.contains k d = true -> PyDict.keys (PyDict.setitem k v d) = PyDict.keys d.
Proof.
  unfold PyDict.contains.
  induction d as [|[k' v'] d IH]; simpl; [discriminate|].
  destruct (String.eqb k k'); simpl; [reflexivity | intros; f_equal; auto].
Qed.

Lemma get_None_not_in_keys k d :
  PyDict.get k d = None <-> ~ In k (PyDict.keys d).
Proof.
  induction d as [|[k' v'] d IH]; simpl; [tauto|].
  destruct (String.eqb_spec k k'); subst.
  - split; [discriminate | intros Hn; exfalso; apply Hn; now left].
  - rewrite IH. split; [intros Hn [?|?]; congruence | tauto].
Qed.

Lemma setitem_absent k v d :
  PyDict.get k d = None -> PyDict.setitem k v d = (d ++ [(k, v)])%list.
Proof.
  induction d as [|[k' v'] d IH]; simpl; [reflexivity|].
  destruct (String.eqb k k'); [discriminate | intros; f_equal; auto].
Qed.

Lemma get_In k v d : PyDict.get k d = Some v -> In v (PyDict.values d).
Proof.
  induction d as [|[k' v'] d IH]; simpl; [discriminate|].
  destruct (String.eqb k k'); [intros [= ->]; now left | intros; right; auto].
Qed.

(** A dict comprehension over pairs with distinct keys lists the pairs. *)
Lemma fold_setitem_fresh (pairs acc : list (string * V)) :
  List.NoDup (PyDict.keys (acc ++ pairs)%list) ->
  fold_left (fun acc kv => PyDict.setitem (fst kv) (snd kv) acc) pairs acc
  = (acc ++ pairs)%list.
Proof.
  revert acc. induction pairs as [|[k v] pairs IH]; intros acc Hnd; simpl.
  - now rewrite app_nil_r.
  - rewrite setitem_absent.
    + rewrite IH; rewrite <- app_assoc; [reflexivity | exact Hnd].
    + apply get_None_not_in_keys. unfold PyDict.keys in *.
      rewrite map_app in Hnd. simpl in Hnd.
      apply NoDup_remove_2 in Hnd. intros Hin. apply Hnd.
      apply in_or_app. now left.
Qed.

Lemma of_pairs_NoDup (pairs : list (string * V)) :
  List.NoDup (PyDict.keys pairs) -> PyDict.of_pairs pairs = pairs.
Proof. intros Hnd. unfold PyDict.of_pairs. now rewrite fold_setitem_fresh. Qed.
End PyDict_facts.

(** ** The task store *)

Section TaskStore_facts.
Context `{PathLib}.
Implicit Types (st : TaskStore.t) (task : Task.t).

Lemma claim_eval st task_id worker_id :
  TaskStore.claim task_id worker_id st =
  match PyDict.get task_id (TaskStore._tasks st) with
  | Some task =>
      if String.eqb (Task.status task) "pending"
      then Ok (Some (claimed worker_id task),
               saved (PyDict.alter (claimed worker_id) task_id (TaskStore._tasks st)))
      else Ok (None, st)
  | None => Ok (None, st)
  end.
Proof.
  unfold TaskStore.claim, bind, get_self.
  destruct (PyDict.get task_id (TaskStore._tasks st)) as [task|] eqn:Hget;
    [|reflexivity].
  destruct (String.eqb (Task.status task) "pending"); [|reflexivity].
  unfold TaskStore.setattr, TaskStore._save, bind, get_self, put_self,
    ret, TaskStore.with_tasks; simpl.
  rewrite alter_alter, get_alter_eq, Hget. reflexivity.
Qed.

Lemma complete_eval st task_id handoff_path :
  TaskStore.complete task_id handoff_path st =
  match PyDict.get task_id (TaskStore._tasks st) with
  | Some _ =>
      Ok (tt, saved (PyDict.alter (completed handoff_path) task_id (TaskStore._tasks st)))
  | None => Ok (tt, st)
  end.
Proof.
  unfold TaskStore.complete, bind, get_self, PyDict.contains.
  destruct (PyDict.get task_id (TaskStore._tasks st)) as [task|] eqn:Hget;
    [|reflexivity].
  unfold TaskStore.setattr, TaskStore.subscript, TaskStore._save, bind, get_self,
    lift, put_self, PyDict.getitem, ret, TaskStore.with_tasks; simpl.
  rewrite Hget; simpl. rewrite get_alter_eq, Hget; simpl.
  rewrite alter_alter. reflexivity.
Qed.

Lemma add_eval st task :
  TaskStore.add task st =
  Ok (tt, saved (PyDict.setitem (Task.id task) task (TaskStore._tasks st))).
Proof. reflexivity. Qed.

Lemma add_many_eval st tasks :
  TaskStore.add_many tasks st =
  Ok (tt, saved (fold_left (fun d task => PyDict.setitem (Task.id task) task d)
                           tasks (TaskStore._tasks st))).
Proof. reflexivity. Qed.
End TaskStore_facts.

Section TaskStore_claims.
Context `{PathLib}.
Implicit Types (st : TaskStore.t) (task : Task.t).

(** C1. [claim(task_id, worker_id)] never raises.  It returns a task
    exactly when a task with that id exists and is pending; the task
    returned is the stored one with status running and the worker id
    stamped, and it is what the store now holds under that id.  In every
    other case it returns None and the store is unchanged. *)
Theorem claim_returns_task_iff_pending st task_id worker_id :
  exists r st',
    TaskStore.claim task_id worker_id st = Ok (r, st') /\
    (r <> None <->
     exists task, PyDict.get task_id (TaskStore._tasks st) = Some task
                  /\ Task.status task = "pending") /\
    (forall t1, r = Some t1 ->
       exists task, PyDict.get task_id (TaskStore._tasks st) = Some task
         /\ t1 = Task.set_worker_id (Some worker_id) (Task.set_status "running" task)
         /\ Task.status t1 = "running"
         /\ Task.worker_id t1 = Some worker_id
         /\ PyDict.get task_id (TaskStore._tasks st') = Some t1) /\
    (r = None -> st' = st).
Proof.
  rewrite claim_eval.
  destruct (PyDict.get task_id (TaskStore._tasks st)) as [task|] eqn:Hget.
  - destruct (String.eqb_spec (Task.status task) "pending") as [Hp|Hp].
    + eexists _, _. split; [reflexivity|]. repeat split.
      * intros _. now exists task.
      * intros _. discriminate.
      * intros t1 [= <-]. exists task. repeat split.
        simpl. now rewrite get_alter_eq, Hget.
      * discriminate.
    + exists None, st. repeat split; try congruence.
      * intros (task' & [= <-] & Hs). contradiction.
  - exists None, st. repeat split; try congruence.
    intros (task' & [=] & _).
Qed.

(** C10. A successful claim changes only the status and the worker id
    of the claimed task: the ids stored, their order, every record under
    another id, and the id, planner id, description, handoff path and
    meta of the claimed task are as before.  A claim that returns None
    changes nothing. *)
Theorem claim_frame st task_id worker_id :
  exists r st',
    TaskStore.claim task_id worker_id st = Ok (r, st') /\
    PyDict.keys (TaskStore._tasks st') = PyDict.keys (TaskStore._tasks st) /\
    (forall k, k <> task_id ->
       PyDict.get k (TaskStore._tasks st') = PyDict.get k (TaskStore._tasks st)) /\
    (forall t1, PyDict.get task_id (TaskStore._tasks st') = Some t1 ->
       exists t0, PyDict.get task_id (TaskStore._tasks st) = Some t0
         /\ Task.id t1 = Task.id t0
         /\ Task.planner_id t1 = Task.planner_id t0
         /\ Task.description t1 = Task.description t0
         /\ Task.handoff_path t1 = Task.handoff_path t0
         /\ Task.meta t1 = Task.meta t0) /\
    (r = None -> st' = st).
Proof.
  rewrite claim_eval.
  destruct (PyDict.get task_id (TaskStore._tasks st)) as [task|] eqn:Hget.
  - destruct (String.eqb (Task.status task) "pending").
    + eexists _, _. split; [reflexivity|]. simpl. repeat split.
      * apply keys_alter.
      * intros k Hk. apply get_alter_ne. congruence.
      * intros t1. rewrite get_alter_eq, Hget. intros [= <-].
        exists task. now repeat split.
      * discriminate.
    + exists None, st. repeat split. intros t1 Ht1. exists t1.
      rewrite <- Hget. now repeat split.
  - exists None, st. repeat split. intros t1 Ht1. congruence.
Qed.
End TaskStore_claims.

Section TaskStore_lifecycle.
Context `{PathLib}.
Implicit Types (st : TaskStore.t) (task : Task.t).

Lemma get_fold_setitem_ne (tasks : list Task.t) (d : list (string * Task.t)) k :
  (forall t, In t tasks -> Task.id t <> k) ->
  PyDict.get k (fold_left (fun d task => PyDict.setitem (Task.id task) task d) tasks d)
  = PyDict.get k d.
Proof.
  revert d. induction tasks as [|t tasks IH]; intros d Hne; simpl; [reflexivity|].
  rewrite IH by (intros; apply Hne; now right).
  apply get_setitem_ne, Hne. now left.
Qed.

Lemma get_fold_setitem (tasks : list Task.t) (d : list (string * Task.t)) k :
  PyDict.get k (fold_left (fun d task => PyDict.setitem (Task.id task) task d) tasks d)
  = match last_with_id k tasks with
    | Some task => Some task
    | None => PyDict.get k d
    end.
Proof.
  unfold last_with_id. revert d.
  induction tasks as [|t tasks IH] using rev_ind; intros d; [reflexivity|].
  rewrite fold_left_app, rev_app_distr. simpl.
  destruct (String.eqb_spec (Task.id t) k) as [<-|Hne].
  - apply get_setitem_eq.
  - rewrite get_setitem_ne by exact Hne. apply IH.
Qed.

(** What one operation does to a task it does not add. *)
Lemma run_op_step (o : Ops.op) st task_id task :
  PyDict.get task_id (TaskStore._tasks st) = Some task ->
  (forall t, In t (Ops.added o) -> Task.id t <> task_id) ->
  exists st' task',
    Ops.run_op o st = Ok (tt, st') /\
    PyDict.get task_id (TaskStore._tasks st') = Some task' /\
    (task' = task
     \/ (Task.status task = "pending"
         /\ exists w, o = Ops.Claim task_id w /\ task' = claimed w task)
     \/ (exists hp, o = Ops.Complete task_id hp /\ task' = completed hp task)).
Proof.
  intros Hget Hfresh. destruct o as [t|ts|i w|i hp]; simpl in *.
  - rewrite add_eval. eexists _, task. split; [reflexivity|]. split; [|now left].
    simpl. rewrite get_setitem_ne; [exact Hget | apply Hfresh; now left].
  - rewrite add_many_eval. eexists _, task. split; [reflexivity|]. split; [|now left].
    simpl. now rewrite get_fold_setitem_ne.
  - unfold bind. rewrite claim_eval.
    destruct (String.eqb_spec i task_id) as [->|Hne].
    + rewrite Hget. destruct (String.eqb_spec (Task.status task) "pending") as [Hp|Hp].
      * eexists _, (claimed w task). split; [reflexivity|]. split.
        -- simpl. now rewrite get_alter_eq, Hget.
        -- right; left. split; [exact Hp|]. now exists w.
      * exists st, task. repeat split; [exact Hget | now left].
    + destruct (PyDict.get i (TaskStore._tasks st)) as [ti|].
      * destruct (String.eqb (Task.status ti) "pending").
        -- eexists _, task. split; [reflexivity|]. split; [|now left].
           simpl. now rewrite get_alter_ne.
        -- exists st, task. repeat split; [exact Hget | now left].
      * exists st, task. repeat split; [exact Hget | now left].
  - rewrite complete_eval.
    destruct (String.eqb_spec i task_id) as [->|Hne].
    + rewrite Hget. eexists _, (completed hp task). split; [reflexivity|]. split.
      * simpl. now rewrite get_alter_eq, Hget.
      * right; right. now exists hp.
    + destruct (PyDict.get i (TaskStore._tasks st)) as [ti|].
      * eexists _, task. split; [reflexivity|]. split; [|now left].
        simpl. now rewrite get_alter_ne.
      * exists st, task. repeat split; [exact Hget | now left].
Qed.

Lemma forward_trans a b c : forward a b -> forward b c -> forward a c.
Proof.
  unfold forward.
  intros [ -> | [ [ -> -> ] | -> ] ] [ -> | [ [ Hb -> ] | -> ] ];
    auto; try discriminate.
Qed.

(** C2 (amended). Take a task of the store and any sequence of add,
    add_many, claim and complete operations that adds no task with its
    id.  No operation raises, the task is still stored, and its status
    has stayed, moved from pending to running, or moved to done; so no
    sequence takes done or running back to pending.  The task is running
    only if it was running already or was pending and claimed; it is done
    only if it was done already or complete was applied to it.  Its
    planner id is unchanged. *)
Theorem status_moves_forward (os : list Ops.op) st task_id task :
  PyDict.get task_id (TaskStore._tasks st) = Some task ->
  (forall o t, In o os -> In t (Ops.added o) -> Task.id t <> task_id) ->
  exists st' task',
    Ops.run_ops os st = Ok (tt, st') /\
    PyDict.get task_id (TaskStore._tasks st') = Some task' /\
    forward (Task.status task) (Task.status task') /\
    (Task.status task' = "pending" -> Task.status task = "pending") /\
    (Task.status task' = "running" ->
       Task.status task = "running"
       \/ (Task.status task = "pending" /\ exists w, In (Ops.Claim task_id w) os)) /\
    (Task.status task' = "done" ->
       Task.status task = "done" \/ exists hp, In (Ops.Complete task_id hp) os) /\
    Task.planner_id task' = Task.planner_id task.
Proof.
  revert st task. induction os as [|o os IH]; intros st task Hget Hfresh.
  - exists st, task. simpl. repeat split; auto. now left.
  - destruct (run_op_step o st task_id task Hget) as (st1 & task1 & Hrun & Hget1 & Hcase).
    { intros t Ht. apply (Hfresh o t); [now left | exact Ht]. }
    destruct (IH st1 task1 Hget1) as (st' & task' & Hrun' & Hget' & Hfw & Hp & Hr & Hd & Hpl).
    { intros o' t Ho' Ht. apply (Hfresh o' t); [now right | exact Ht]. }
    exists st', task'. simpl. unfold bind. rewrite Hrun.
    split; [exact Hrun'|]. split; [exact Hget'|].
    destruct Hcase as [ -> | [ (Hpend & w & -> & ->) | (hp & -> & ->) ] ].
    + repeat split; auto.
      * intros Hs. destruct (Hr Hs) as [?|[? [w Hw]]]; [now left|].
        right. split; [assumption|]. exists w. now right.
      * intros Hs. destruct (Hd Hs) as [?|[hp Hhp]]; [now left|].
        right. exists hp. now right.
    + simpl in *. repeat split.
      * eapply forward_trans; [|exact Hfw]. right; left. now split.
      * intros Hs. apply Hp in Hs. discriminate.
      * intros _. right. split; [exact Hpend|]. exists w. now left.
      * intros Hs. destruct (Hd Hs) as [?|[hp Hhp]]; [discriminate|].
        right. exists hp. now right.
      * exact Hpl.
    + simpl in *. repeat split.
      * eapply forward_trans; [|exact Hfw]. right; right. reflexivity.
      * intros Hs. apply Hp in Hs. discriminate.
      * intros Hs. destruct (Hr Hs) as [?|[? _]]; discriminate.
      * intros _. right. exists hp. now left.
      * exact Hpl.
Qed.
End TaskStore_lifecycle.

Section TaskStore_complete_add.
Context `{PathLib}.
Implicit Types (st : TaskStore.t) (task : Task.t).

(** C6 (amended). [complete(task_id, handoff_ref)] never raises.  With
    an id that is not in the store it changes nothing, neither a record
    nor the file.  With the id of a stored task, already done or not, it
    leaves every record under another id and the order of the ids as they
    were, sets the status of the task to done (a done task stays done),
    and replaces its handoff reference by [handoff_ref]; the other fields
    of the task are unchanged. *)
Theorem complete_ignores_absent_overwrites_present st task_id handoff_path :
  exists st',
    TaskStore.complete task_id handoff_path st = Ok (tt, st') /\
    (PyDict.get task_id (TaskStore._tasks st) = None -> st' = st) /\
    PyDict.keys (TaskStore._tasks st') = PyDict.keys (TaskStore._tasks st) /\
    (forall k, k <> task_id ->
       PyDict.get k (TaskStore._tasks st') = PyDict.get k (TaskStore._tasks st)) /\
    (forall task, PyDict.get task_id (TaskStore._tasks st) = Some task ->
       exists task', PyDict.get task_id (TaskStore._tasks st') = Some task'
         /\ Task.status task' = "done"
         /\ Task.handoff_path task' = Some handoff_path
         /\ Task.id task' = Task.id task
         /\ Task.planner_id task' = Task.planner_id task
         /\ Task.description task' = Task.description task
         /\ Task.worker_id task' = Task.worker_id task
         /\ Task.meta task' = Task.meta task).
Proof.
  rewrite complete_eval.
  destruct (PyDict.get task_id (TaskStore._tasks st)) as [task|] eqn:Hget.
  - eexists. split; [reflexivity|]. simpl. repeat split.
    + discriminate.
    + apply keys_alter.
    + intros k Hk. apply get_alter_ne. congruence.
    + intros task0 [= <-]. exists (completed handoff_path task).
      rewrite get_alter_eq, Hget. now repeat split.
  - exists st. repeat split. discriminate.
Qed.

(** C5 (amended). [add] and [add_many] never fail, also when the store
    already holds a task with the id of a task added: after [add] the
    store holds the new record under that id, at the place of the old
    one when there was one, and every record under another id is
    unchanged; after [add_many] it holds, under each id, the last task
    of the list with that id, or the record it held before when the list
    has none. *)
Theorem add_replaces_existing st task tasks :
  (exists st',
     TaskStore.add task st = Ok (tt, st') /\
     PyDict.get (Task.id task) (TaskStore._tasks st') = Some task /\
     (forall k, k <> Task.id task ->
        PyDict.get k (TaskStore._tasks st') = PyDict.get k (TaskStore._tasks st)) /\
     (PyDict.contains (Task.id task) (TaskStore._tasks st) = true ->
        PyDict.keys (TaskStore._tasks st') = PyDict.keys (TaskStore._tasks st))) /\
  (exists st',
     TaskStore.add_many tasks st = Ok (tt, st') /\
     forall k, PyDict.get k (TaskStore._tasks st')
               = match last_with_id k tasks with
                 | Some t => Some t
                 | None => PyDict.get k (TaskStore._tasks st)
                 end).
Proof.
  split.
  - rewrite add_eval. eexists. split; [reflexivity|]. simpl. repeat split.
    + apply get_setitem_eq.
    + intros k Hk. apply get_setitem_ne. congruence.
    + apply keys_setitem_present.
  - rewrite add_many_eval. eexists. split; [reflexivity|]. simpl.
    intros k. apply get_fold_setitem.
Qed.
End TaskStore_complete_add.

Section TaskStore_samples.
#[local] Existing Instance PlainPath.

Lemma status_moves_forward_witness :
  let os := [Ops.Claim "t1" "w-t1"; Ops.Complete "t1" Sample.a_md;
             Ops.Add Sample.t2_pending; Ops.Claim "t1" "w-other"] in
  PyDict.get "t1" (TaskStore._tasks Sample.store_pending) = Some Sample.t1_pending /\
  exists st' task',
    Ops.run_ops os Sample.store_pending = Ok (tt, st') /\
    PyDict.get "t1" (TaskStore._tasks st') = Some task' /\
    forward (Task.status Sample.t1_pending) (Task.status task') /\
    (Task.status task' = "pending" -> Task.status Sample.t1_pending = "pending") /\
    (Task.status task' = "running" ->
       Task.status Sample.t1_pending = "running"
       \/ (Task.status Sample.t1_pending = "pending"
           /\ exists w, In (Ops.Claim "t1" w) os)) /\
    (Task.status task' = "done" ->
       Task.status Sample.t1_pending = "done"
       \/ exists hp, In (Ops.Complete "t1" hp) os) /\
    Task.planner_id task' = Task.planner_id Sample.t1_pending.
Proof.
  intros os. split; [reflexivity|].
  apply (status_moves_forward os Sample.store_pending "t1" Sample.t1_pending).
  - reflexivity.
  - intros o t [<-|[<-|[<-|[<-|[]]]]]; simpl; intros Ht;
      try contradiction.
    destruct Ht as [<-|[]]. discriminate.
Defined.

(** C2, as stated, fails.  [complete] applied to a pending task that
    was never claimed takes it from pending to done in one step; and
    [add] of a task whose id is already stored replaces a done record by
    a pending one. *)
Lemma status_skips_running_or_goes_back :
  (PyDict.get "t1" (TaskStore._tasks Sample.store_pending) = Some Sample.t1_pending /\
   Task.status Sample.t1_pending = "pending" /\
   exists st',
     Ops.run_ops [Ops.Complete "t1" Sample.a_md] Sample.store_pending = Ok (tt, st') /\
     option_map Task.status (PyDict.get "t1" (TaskStore._tasks st')) = Some "done") /\
  (PyDict.get "t1" (TaskStore._tasks Sample.store_done) = Some Sample.t1_done /\
   Task.status Sample.t1_done = "done" /\
   exists st',
     Ops.run_ops [Ops.Add Sample.t1_pending] Sample.store_done = Ok (tt, st') /\
     option_map Task.status (PyDict.get "t1" (TaskStore._tasks st')) = Some "pending").
Proof.
  split.
  - split; [reflexivity|]. split; [reflexivity|].
    eexists. split; [vm_compute; reflexivity | reflexivity].
  - split; [reflexivity|]. split; [reflexivity|].
    eexists. split; [vm_compute; reflexivity | reflexivity].
Qed.

(** C6, as stated, fails: [complete] on a task that is already done
    replaces the handoff reference the task had. *)
Lemma complete_on_done_replaces_handoff :
  PyDict.get "t1" (TaskStore._tasks Sample.store_done) = Some Sample.t1_done /\
  Task.status Sample.t1_done = "done" /\
  Task.handoff_path Sample.t1_done = Some Sample.a_md /\
  exists st',
    TaskStore.complete "t1" Sample.b_md Sample.store_done = Ok (tt, st') /\
    option_map Task.handoff_path (PyDict.get "t1" (TaskStore._tasks st'))
      = Some (Some Sample.b_md) /\
    PyDict.get "t1" (TaskStore._tasks st') <> Some Sample.t1_done /\
    Sample.b_md <> Sample.a_md.
Proof.
  split; [reflexivity|]. split; [reflexivity|]. split; [reflexivity|].
  eexists. split; [vm_compute; reflexivity|]. split; [reflexivity|].
  split; discriminate.
Qed.

(** C5, as stated, fails: adding a task whose id is already stored
    succeeds, and the record that was stored under the id is replaced. *)
Lemma add_duplicate_id_succeeds :
  let dup := Task.new "t1" "root" "Write README again" in
  PyDict.get "t1" (TaskStore._tasks Sample.store_done) = Some Sample.t1_done /\
  (exists st',
     TaskStore.add dup Sample.store_done = Ok (tt, st') /\
     PyDict.get "t1" (TaskStore._tasks st') = Some dup) /\
  (exists st',
     TaskStore.add_many [dup] Sample.store_done = Ok (tt, st') /\
     PyDict.get "t1" (TaskStore._tasks st') = Some dup) /\
  dup <> Sample.t1_done.
Proof.
  intros dup. split; [reflexivity|].
  split; [eexists; split; [vm_compute; reflexivity | reflexivity]|].
  split; [eexists; split; [vm_compute; reflexivity | reflexivity]|].
  discriminate.
Qed.
End TaskStore_samples.

(** ** The planner registry *)

Section PlannerRegistry_facts.
Context `{PathLib}.

Lemma to_run_loop_filter {T} (handoffs : string -> list T)
      (subs to_run : list SubPlanner.t) :
  PlannerRegistry.to_run_loop handoffs subs to_run
  = (to_run ++ List.filter
                 (fun sub => SubPlanner.is_new sub
                             || match handoffs (SubPlanner.id sub) with
                                | [] => false
                                | _ :: _ => true
                                end) subs)%list.
Proof.
  revert to_run. induction subs as [|sub subs IH]; intros to_run; simpl.
  - now rewrite app_nil_r.
  - destruct (SubPlanner.is_new sub); simpl.
    + rewrite IH, <- app_assoc. reflexivity.
    + destruct (handoffs (SubPlanner.id sub)); rewrite IH; [reflexivity|].
      now rewrite <- app_assoc.
Qed.

Lemma handoffs_nonempty (store : TaskStore.t) planner_id :
  TaskStore.get_handoffs_for_planner planner_id store <> [] <->
  exists task,
    In task (PyDict.values (TaskStore._tasks store))
    /\ Task.planner_id task = planner_id
    /\ Task.status task = "done"
    /\ Task.handoff_path task <> None.
Proof.
  unfold TaskStore.get_handoffs_for_planner. split.
  - intros Hne.
    destruct (List.filter _ _) as [|task l] eqn:Hf; [congruence|].
    assert (Hin : In task (task :: l)) by now left.
    rewrite <- Hf in Hin. apply filter_In in Hin as [Hin Hc].
    exists task. split; [exact Hin|].
    apply andb_prop in Hc as [Hc Hp]. apply andb_prop in Hc as [Hid Hs].
    apply String.eqb_eq in Hid, Hs.
    repeat split; auto. destruct (Task.handoff_path task); congruence.
  - intros (task & Hin & Hid & Hs & Hp) Hnil.
    assert (Hin' : In task (List.filter
      (fun task => String.eqb (Task.planner_id task) planner_id
                   && String.eqb (Task.status task) "done"
                   && match Task.handoff_path task with
                      | Some _ => true | None => false end)
      (PyDict.values (TaskStore._tasks store)))).
    { apply filter_In. split; [exact Hin|].
      rewrite Hid, Hs, String.eqb_refl. simpl.
      destruct (Task.handoff_path task); congruence. }
    rewrite Hnil in Hin'. exact Hin'.
Qed.

(** C4 (amended). A sub-planner is in the list [get_subs_to_run]
    returns exactly when it is registered and either its never-yet-run
    flag is set or the task store holds at least one done task, owned by
    it, that has a handoff path.  Whether the task was already there when
    the sub-planner last ran plays no part. *)
Theorem eligible_iff_new_or_has_handoffs
        (reg : PlannerRegistry.t) (store : TaskStore.t) (sub : SubPlanner.t) :
  In sub (PlannerRegistry.get_subs_to_run store reg) <->
  In sub (PlannerRegistry.get_all_subs reg)
  /\ (SubPlanner.is_new sub = true
      \/ exists task,
           In task (PyDict.values (TaskStore._tasks store))
           /\ Task.planner_id task = SubPlanner.id sub
           /\ Task.status task = "done"
           /\ Task.handoff_path task <> None).
Proof.
  unfold PlannerRegistry.get_subs_to_run, PlannerRegistry.get_all_subs.
  rewrite to_run_loop_filter. simpl. rewrite filter_In.
  rewrite <- handoffs_nonempty.
  split; intros [Hin Hc]; (split; [exact Hin|]).
  - apply orb_prop in Hc as [Hc|Hc]; [now left|right].
    destruct (TaskStore.get_handoffs_for_planner _ _); [discriminate|congruence].
  - destruct Hc as [->|Hc]; [reflexivity|].
    destruct (TaskStore.get_handoffs_for_planner _ _); [congruence|].
    apply orb_true_r.
Qed.
End PlannerRegistry_facts.

Section PlannerRegistry_samples.
#[local] Existing Instance PlainPath.

(** C4, as stated, fails.  The store holds one done task of sub-planner
    sub-1, which has never run, so the sub-planner is returned.  The
    runner then runs it (the planner emits no task and no delegation) and
    marks it as run; the store is left as it was, so no done task has
    arrived since the sub-planner was processed.  The next query on that
    store returns the sub-planner again. *)
Lemma processed_sub_planner_stays_eligible :
  PlannerRegistry.get_subs_to_run Sample.store_done Sample.registry_new
    = [Sample.sub1_new] /\
  exists reg',
    Runner._run_planner_and_apply "sub-1" (Ok ([], []))
                                  (Sample.store_done, Sample.registry_new)
    = Ok ([], (Sample.store_done, reg')) /\
    PlannerRegistry.get_all_subs reg' = [Sample.sub1_run] /\
    SubPlanner.is_new Sample.sub1_run = false /\
    PlannerRegistry.get_subs_to_run Sample.store_done reg' = [Sample.sub1_run].
Proof.
  split; [reflexivity|].
  eexists. split; [vm_compute; reflexivity|]. repeat split.
Qed.
End PlannerRegistry_samples.

(** ** Persistence *)

Section Persistence.
Context `{PathLib}.

Lemma Task_from_dict_to_dict (task : Task.t) :
  Task.from_dict (Task.to_dict task) = Ok task.
Proof.
  destruct task as [i p d s w hp m]. unfold Task.from_dict, Task.to_dict. simpl.
  destruct w as [w|], hp as [hp|]; simpl;
    try reflexivity.
  - destruct (String.eqb_spec (path_str hp) "") as [He|_];
      [now apply path_str_nonempty in He|].
    simpl. now rewrite Path_of_path_str.
  - destruct (String.eqb_spec (path_str hp) "") as [He|_];
      [now apply path_str_nonempty in He|].
    simpl. now rewrite Path_of_path_str.
Qed.

Lemma SubPlanner_from_dict_to_dict (sub : SubPlanner.t) :
  SubPlanner.from_dict (SubPlanner.to_dict sub) = Ok sub.
Proof. now destruct sub. Qed.

Lemma load_items_encoded (pairs acc : list (string * Task.t)) :
  TaskStore.load_items
    (map (fun kv => (fst kv, PDict (Task.to_dict (snd kv)))) pairs) acc
  = Ok (fold_left (fun acc kv => PyDict.setitem (fst kv) (snd kv) acc) pairs acc).
Proof.
  revert acc. induction pairs as [|[k task] pairs IH]; intros acc; [reflexivity|].
  cbn [map TaskStore.load_items fst snd dict_for_subscript res_bind].
  rewrite Task_from_dict_to_dict. cbn [res_bind]. apply IH.
Qed.

Lemma keys_encoded {A B} (f : A -> B) (pairs : list (string * A)) :
  PyDict.keys (map (fun kv => (fst kv, f (snd kv))) pairs) = PyDict.keys pairs.
Proof. unfold PyDict.keys. rewrite map_map. reflexivity. Qed.

Lemma TaskStore_reload (tasks : list (string * Task.t)) :
  List.NoDup (PyDict.keys tasks) ->
  TaskStore.parse_file (TaskStore.snapshot tasks) = Ok tasks.
Proof.
  intros Hnd. unfold TaskStore.parse_file, TaskStore.snapshot, PyDict.items.
  cbn [dict_for_method res_bind]. unfold PyDict.get_default. cbn [PyDict.get].
  rewrite String.eqb_refl. cbn [dict_for_method res_bind].
  rewrite of_pairs_NoDup
    by now rewrite (keys_encoded (fun task => PDict (Task.to_dict task))).
  rewrite load_items_encoded. now rewrite fold_setitem_fresh.
Qed.

Lemma load_subs_encoded (subs : list SubPlanner.t) (acc : list (string * SubPlanner.t)) :
  PlannerRegistry.load_subs (map (fun s => PDict (SubPlanner.to_dict s)) subs) acc
  = Ok (fold_left (fun acc kv => PyDict.setitem (fst kv) (snd kv) acc)
                  (map (fun s => (SubPlanner.id s, s)) subs) acc).
Proof.
  revert acc. induction subs as [|sub subs IH]; intros acc; [reflexivity|].
  cbn [map PlannerRegistry.load_subs dict_for_subscript res_bind fold_left fst snd].
  rewrite SubPlanner_from_dict_to_dict.
  destruct sub as [i p s n]. cbn. apply IH.
Qed.

Lemma keyed_by_id (subs : list (string * SubPlanner.t)) :
  Forall (fun kv => fst kv = SubPlanner.id (snd kv)) subs ->
  map (fun s => (SubPlanner.id s, s)) (PyDict.values subs) = subs.
Proof.
  induction 1 as [|[k s] subs Hk _ IH]; [reflexivity|].
  simpl in *. now rewrite IH, <- Hk.
Qed.

Lemma PlannerRegistry_reload (subs : list (string * SubPlanner.t)) :
  List.NoDup (PyDict.keys subs) ->
  Forall (fun kv => fst kv = SubPlanner.id (snd kv)) subs ->
  PlannerRegistry.parse_file (PlannerRegistry.snapshot subs) = Ok subs.
Proof.
  intros Hnd Hid. unfold PlannerRegistry.parse_file, PlannerRegistry.snapshot.
  cbn [dict_for_method res_bind]. unfold PyDict.get_default. cbn [PyDict.get].
  rewrite String.eqb_refl.
  rewrite load_subs_encoded, keyed_by_id by exact Hid.
  now rewrite fold_setitem_fresh.
Qed.

(** C9. [from_dict] after [to_dict] gives back the record, for every
    Task and every SubPlanner.  Hence a store whose table has one entry
    per id, once saved and loaded again from the file, holds the same
    records in the same order; and so does a registry whose entries are
    stored under their own ids. *)
Theorem snapshot_roundtrip
        (task : Task.t) (sub : SubPlanner.t)
        (st : TaskStore.t) (reg : PlannerRegistry.t) :
  List.NoDup (PyDict.keys (TaskStore._tasks st)) ->
  List.NoDup (PyDict.keys (PlannerRegistry._subs reg)) ->
  Forall (fun kv => fst kv = SubPlanner.id (snd kv)) (PlannerRegistry._subs reg) ->
  Task.from_dict (Task.to_dict task) = Ok task /\
  SubPlanner.from_dict (SubPlanner.to_dict sub) = Ok sub /\
  (exists st1 st2,
     TaskStore._save st = Ok (tt, st1) /\
     TaskStore.init (TaskStore.file st1) = Ok st2 /\
     TaskStore._tasks st2 = TaskStore._tasks st) /\
  (exists reg1 reg2,
     PlannerRegistry._save reg = Ok (tt, reg1) /\
     PlannerRegistry.init (PlannerRegistry.file reg1) = Ok reg2 /\
     PlannerRegistry._subs reg2 = PlannerRegistry._subs reg).
Proof.
  intros Hst Hreg Hid.
  split; [apply Task_from_dict_to_dict|].
  split; [apply SubPlanner_from_dict_to_dict|].
  split.
  - unfold TaskStore._save, bind, get_self, put_self. cbn zeta beta iota.
    eexists _, _. split; [reflexivity|].
    unfold TaskStore.init, TaskStore._load, bind, get_self.
    cbn [TaskStore.file]. rewrite TaskStore_reload by exact Hst.
    split; reflexivity.
  - unfold PlannerRegistry._save, bind, get_self, put_self. cbn zeta beta iota.
    eexists _, _. split; [reflexivity|].
    unfold PlannerRegistry.init, PlannerRegistry._load, bind, get_self.
    cbn [PlannerRegistry.file]. rewrite PlannerRegistry_reload by assumption.
    split; reflexivity.
Qed.
End Persistence.

Section Persistence_samples.
#[local] Existing Instance PlainPath.

Lemma snapshot_roundtrip_witness :
  List.NoDup (PyDict.keys (TaskStore._tasks Sample.store_done)) /\
  List.NoDup (PyDict.keys (PlannerRegistry._subs Sample.registry_new)) /\
  Forall (fun kv => fst kv = SubPlanner.id (snd kv))
         (PlannerRegistry._subs Sample.registry_new) /\
  Task.from_dict (Task.to_dict Sample.t1_done) = Ok Sample.t1_done /\
  SubPlanner.from_dict (SubPlanner.to_dict Sample.sub1_new) = Ok Sample.sub1_new /\
  (exists st1 st2,
     TaskStore._save Sample.store_done = Ok (tt, st1) /\
     TaskStore.init (TaskStore.file st1) = Ok st2 /\
     TaskStore._tasks st2 = TaskStore._tasks Sample.store_done) /\
  (exists reg1 reg2,
     PlannerRegistry._save Sample.registry_new = Ok (tt, reg1) /\
     PlannerRegistry.init (PlannerRegistry.file reg1) = Ok reg2 /\
     PlannerRegistry._subs reg2 = PlannerRegistry._subs Sample.registry_new).
Proof.
  assert (H1 : List.NoDup (PyDict.keys (TaskStore._tasks Sample.store_done))).
  { simpl. repeat constructor; simpl; intuition discriminate. }
  assert (H2 : List.NoDup (PyDict.keys (PlannerRegistry._subs Sample.registry_new))).
  { simpl. repeat constructor; simpl; intuition discriminate. }
  assert (H3 : Forall (fun kv => fst kv = SubPlanner.id (snd kv))
                      (PlannerRegistry._subs Sample.registry_new)).
  { simpl. repeat constructor. }
  split; [exact H1|]. split; [exact H2|]. split; [exact H3|].
  exact (snapshot_roundtrip Sample.t1_done Sample.sub1_new
                            Sample.store_done Sample.registry_new H1 H2 H3).
Defined.
End Persistence_samples.

(** ** Claims of one task by several workers *)

Section Claim_once.
Context `{PathLib}.
Implicit Types (st : TaskStore.t) (task : Task.t).

Lemma claim_all_not_pending st task_id worker_ids :
  (forall task, PyDict.get task_id (TaskStore._tasks st) = Some task ->
                Task.status task <> "pending") ->
  Ops.claim_all task_id worker_ids st
  = Ok (repeat None (length worker_ids), st).
Proof.
  intros Hnp. induction worker_ids as [|w ws IH]; [reflexivity|].
  simpl. unfold bind. rewrite claim_eval.
  destruct (PyDict.get task_id (TaskStore._tasks st)) as [task|] eqn:Hget.
  - destruct (String.eqb_spec (Task.status task) "pending") as [Hp|_].
    + now apply Hnp in Hp.
    + now rewrite IH.
  - now rewrite IH.
Qed.

Lemma filter_repeat_None n :
  List.filter is_task (repeat (@None Task.t) n) = [].
Proof. induction n; simpl; auto. Qed.

(** Claims of a pending task made one after the other: the first
    returns the task, the others return None. *)
Lemma sequential_claims_exactly_one st task_id task worker_ids :
  PyDict.get task_id (TaskStore._tasks st) = Some task ->
  Task.status task = "pending" ->
  worker_ids <> [] ->
  exists st' rs w,
    Ops.claim_all task_id worker_ids st = Ok (rs, st') /\
    length rs = length worker_ids /\
    hd_error worker_ids = Some w /\
    rs = Some (claimed w task) :: repeat None (length worker_ids - 1) /\
    length (List.filter is_task rs) = 1 /\
    PyDict.get task_id (TaskStore._tasks st') = Some (claimed w task).
Proof.
  intros Hget Hp Hne. destruct worker_ids as [|w ws]; [congruence|].
  simpl. unfold bind. rewrite claim_eval, Hget, Hp. simpl.
  rewrite claim_all_not_pending.
  - eexists _, _, w. split; [reflexivity|]. simpl.
    rewrite repeat_length, Nat.sub_0_r, filter_repeat_None.
    repeat split. now rewrite get_alter_eq, Hget.
  - simpl. intros task'. rewrite get_alter_eq, Hget. intros [= <-]. discriminate.
Qed.
End Claim_once.

(** ** Threads *)

Section ClaimRace_facts.
Context `{PathLib}.

(** A thread that runs the lines of [claim] with no other thread in
    between does what the method [claim] does. *)
Lemma thread_alone_is_claim (st : TaskStore.t) task_id worker_id :
  exists th st',
    ClaimRace.steps 6 (ClaimRace.start task_id worker_id) st = (th, st') /\
    ClaimRace.finished th = true /\
    TaskStore.claim task_id worker_id st = Ok (ClaimRace.result th, st').
Proof.
  rewrite claim_eval.
  unfold ClaimRace.steps, ClaimRace.step, ClaimRace.start, ClaimRace.goto,
    PyDict.contains. cbn [ClaimRace.at_line ClaimRace.task_id ClaimRace.t_bound].
  destruct (PyDict.get task_id (TaskStore._tasks st)) as [task|] eqn:Hget.
  - destruct (String.eqb (Task.status task) "pending");
      cbn [andb ClaimRace.at_line ClaimRace.task_id ClaimRace.t_bound
           ClaimRace.worker_id].
    + eexists _, _. split; [reflexivity|]. split; [reflexivity|].
      cbn [ClaimRace.result ClaimRace.at_line ClaimRace.save TaskStore._save
           bind get_self put_self TaskStore.with_tasks TaskStore._tasks].
      rewrite alter_alter, get_alter_eq, Hget. reflexivity.
    + eexists _, _. split; [reflexivity|]. split; reflexivity.
  - eexists _, _. split; [reflexivity|]. split; reflexivity.
Qed.
Lemma run_app schedule1 schedule2 (threads : list ClaimRace.thread) (st : TaskStore.t) :
  ClaimRace.run (schedule1 ++ schedule2) threads st
  = ClaimRace.run schedule2 (fst (ClaimRace.run schedule1 threads st))
                  (snd (ClaimRace.run schedule1 threads st)).
Proof.
  revert threads st. induction schedule1 as [|i schedule1 IH]; intros threads st;
    [reflexivity|].
  simpl. destruct (threads !! i) as [th|]; [|apply IH].
  destruct (ClaimRace.step th st) as [th' st']. apply IH.
Qed.

(** [n] consecutive steps of the schedule given to one thread are [n]
    lines of that thread. *)
Lemma run_repeat n i :
  forall (threads : list ClaimRace.thread) (st : TaskStore.t) th,
    threads !! i = Some th ->
    ClaimRace.run (repeat i n) threads st
    = (<[i := fst (ClaimRace.steps n th st)]> threads, snd (ClaimRace.steps n th st)).
Proof.
  induction n as [|n IH]; intros threads st th Hi; simpl.
  - now rewrite list_insert_id.
  - rewrite Hi. destruct (ClaimRace.step th st) as [th1 st1].
    rewrite (IH _ _ th1).
    + now rewrite list_insert_insert_eq.
    + apply list_lookup_insert_eq. now apply lookup_lt_Some in Hi.
Qed.

(** Run one after the other, the threads do what the calls of [claim]
    made in sequence do. *)
Lemma run_serial task_id worker_ids :
  forall (done : list ClaimRace.thread) (st : TaskStore.t),
  exists threads' st',
    ClaimRace.run (ClaimRace.serial (length done) (length worker_ids))
                  (done ++ map (ClaimRace.start task_id) worker_ids) st
    = ((done ++ threads')%list, st') /\
    Forall (fun th => ClaimRace.finished th = true) threads' /\
    Ops.claim_all task_id worker_ids st = Ok (map ClaimRace.result threads', st').
Proof.
  induction worker_ids as [|w ws IH]; intros done st.
  - exists [], st. simpl. repeat split. constructor.
  - destruct (thread_alone_is_claim st task_id w) as (th1 & st1 & Hsteps & Hfin & Hclaim).
    destruct (IH (done ++ [th1])%list st1) as (threads' & st' & Hrun & Hall & Hrest).
    exists (th1 :: threads'), st'. split; [|split].
    + unfold ClaimRace.serial in *. cbn [length seq flat_map map].
      rewrite run_app.
      rewrite (run_repeat 6 (length done) _ st (ClaimRace.start task_id w))
        by now apply list_lookup_middle.
      rewrite Hsteps. cbn [fst snd].
      rewrite insert_app_r_alt by lia. rewrite Nat.sub_diag.
      cbn [insert list_insert].
      rewrite length_app, Nat.add_1_r in Hrun.
      rewrite <- app_assoc in Hrun. cbn [app] in Hrun.
      rewrite Hrun. now rewrite <- app_assoc.
    + now constructor.
    + simpl. unfold bind. rewrite Hclaim, Hrest. reflexivity.
Qed.

(** Threads that run their calls one after the other: no call raises,
    every call returns, and exactly one of them, the first, returns the
    task (stamped with the first worker id); the other N-1 return None.
    The results are those of N calls of [claim] made in sequence. *)
Lemma serial_claims_exactly_one (st : TaskStore.t) task_id task worker_ids :
  PyDict.get task_id (TaskStore._tasks st) = Some task ->
  Task.status task = "pending" ->
  worker_ids <> [] ->
  exists threads' st' w,
    ClaimRace.run (ClaimRace.serial 0 (length worker_ids))
                  (map (ClaimRace.start task_id) worker_ids) st
    = (threads', st') /\
    Forall (fun th => ClaimRace.finished th = true) threads' /\
    Ops.claim_all task_id worker_ids st = Ok (map ClaimRace.result threads', st') /\
    hd_error worker_ids = Some w /\
    map ClaimRace.result threads'
    = Some (claimed w task) :: repeat None (length worker_ids - 1) /\
    length (List.filter is_task (map ClaimRace.result threads')) = 1 /\
    PyDict.get task_id (TaskStore._tasks st') = Some (claimed w task).
Proof.
  intros Hget Hp Hne.
  destruct (run_serial task_id worker_ids [] st) as (threads' & st' & Hrun & Hfin & Hall).
  destruct (sequential_claims_exactly_one st task_id task worker_ids Hget Hp Hne)
    as (st2 & rs & w & Hseq & _ & Hw & Hrs & Hcount & Hstored).
  rewrite Hall in Hseq. injection Hseq as Hrs' Hst. subst st2 rs.
  exists threads', st', w. simpl in Hrun.
  split; [exact Hrun|]. split; [exact Hfin|]. split; [exact Hall|].
  split; [exact Hw|]. split; [exact Hrs|]. split; [exact Hcount | exact Hstored].
Qed.
End ClaimRace_facts.

(** ** Interleaved claims

    How many of the calls return the task is decided by the order of the
    checks (line 79) and the first writes (line 80). *)

Section ClaimRace_interleavings.
Context `{PathLib}.
Implicit Types (th : ClaimRace.thread) (st : TaskStore.t)
         (threads : list ClaimRace.thread).

Lemma existsb_insert_or {A} (p : A -> bool) (l : list A) :
  forall i x y b,
    l !! i = Some x -> p y = p x || b ->
    existsb p (<[i := y]> l) = existsb p l || b.
Proof.
  induction l as [|a l IH]; intros [|i] x y b Hi Hp; simpl in *; try discriminate.
  - injection Hi as ->. rewrite Hp. now destruct (p x), b, (existsb p l).
  - rewrite (IH i x y b Hi Hp). now destruct (p a), (existsb p l), b.
Qed.

Lemma count_insert_or {A} (p : A -> bool) (l : list A) :
  forall i x y b,
    l !! i = Some x -> p y = p x || b ->
    length (List.filter p (<[i := y]> l))
    = length (List.filter p l) + (if negb (p x) && b then 1 else 0).
Proof.
  induction l as [|a l IH]; intros [|i] x y b Hi Hp; simpl in *; try discriminate.
  - injection Hi as ->. rewrite Hp. destruct (p x), b; simpl; lia.
  - destruct (p a); simpl; rewrite (IH i x y b Hi Hp); lia.
Qed.

Lemma existsb_count {A} (p : A -> bool) (l : list A) :
  existsb p l = true <-> 1 <= length (List.filter p l).
Proof.
  induction l as [|a l IH]; simpl; [split; [discriminate | lia]|].
  destruct (p a); simpl; [split; [lia | reflexivity] | exact IH].
Qed.

Lemma count_split {A} (p q r : A -> bool) (l : list A) :
  (forall x, p x = q x || r x) -> (forall x, q x && r x = false) ->
  length (List.filter p l) = length (List.filter q l) + length (List.filter r l).
Proof.
  intros Hp Hqr. induction l as [|a l IH]; simpl; [reflexivity|].
  rewrite Hp. specialize (Hqr a). destruct (q a), (r a); simpl in *; try discriminate; lia.
Qed.

(** One line of [claim], seen from the thread that runs it. *)
Lemma step_facts k th st th' st' :
  ClaimRace.task_id th = k ->
  (ClaimRace.at_check th = true -> ClaimRace.t_bound th = true) ->
  PyDict.contains k (TaskStore._tasks st) = true ->
  ClaimRace.step th st = (th', st') ->
  ClaimRace.task_id th' = k /\
  (ClaimRace.at_check th' = true -> ClaimRace.t_bound th' = true) /\
  PyDict.contains k (TaskStore._tasks st') = true /\
  ClaimRace.pending_at k st'
  = ClaimRace.pending_at k st && negb (ClaimRace.at_write th) /\
  ClaimRace.has_written th' = ClaimRace.has_written th || ClaimRace.at_write th /\
  ClaimRace.has_passed th'
  = ClaimRace.has_passed th
    || (ClaimRace.at_check th && ClaimRace.pending_at k st) /\
  ClaimRace.has_failed th'
  = ClaimRace.has_failed th
    || (ClaimRace.at_check th && negb (ClaimRace.pending_at k st)).
Proof.
  intros Hk Hb Hc. unfold PyDict.contains in Hc.
  destruct (PyDict.get k (TaskStore._tasks st)) as [task|] eqn:Hget; [|discriminate].
  destruct th as [k0 w line bound]. simpl in Hk. subst k0.
  unfold ClaimRace.step, ClaimRace.pending_at, ClaimRace.has_passed,
    ClaimRace.has_written, ClaimRace.has_failed, ClaimRace.at_check,
    ClaimRace.at_write, ClaimRace.goto, PyDict.contains in *.
  cbn [ClaimRace.at_line ClaimRace.task_id ClaimRace.t_bound ClaimRace.worker_id] in *.
  destruct line as [| | | | | | |r]; intros [= <- <-];
    cbn [ClaimRace.at_line ClaimRace.task_id ClaimRace.t_bound ClaimRace.worker_id
         TaskStore._tasks TaskStore.with_tasks ClaimRace.save TaskStore._save
         bind get_self put_self];
    rewrite ?get_alter_eq, ?Hget; cbn [option_map].
  all: try rewrite (Hb eq_refl).
  all: try destruct r.
  all: cbn [Task.status Task.set_status Task.set_worker_id].
  all: destruct (String.eqb (Task.status task) "pending"); simpl.
  all: repeat split; try reflexivity; try discriminate.
Qed.
Local Abbreviation passed_count threads :=
  (length (List.filter ClaimRace.has_passed threads)).

Lemma no_match_no_count {A} (p : A -> bool) (l : list A) :
  existsb p l = false -> length (List.filter p l) = 0.
Proof.
  intros Hno. destruct (length (List.filter p l)) as [|n] eqn:Hn; [reflexivity|].
  assert (Hex : existsb p l = true) by (apply existsb_count; lia). congruence.
Qed.

Lemma passed_split threads :
  passed_count threads
  = length (List.filter ClaimRace.at_write threads)
    + length (List.filter ClaimRace.has_written threads).
Proof.
  apply count_split; [reflexivity|].
  intros th. unfold ClaimRace.at_write, ClaimRace.has_written.
  now destruct (ClaimRace.at_line th).
Qed.

(** One step of a schedule keeps the threads and the store consistent;
    the number of threads that have passed their check grows by one
    exactly when the step is a check that finds the task pending. *)
Lemma consistent_step k threads st i th th' st' :
  ClaimRace.consistent k threads st ->
  threads !! i = Some th ->
  ClaimRace.step th st = (th', st') ->
  ClaimRace.consistent k (<[i := th']> threads) st' /\
  passed_count (<[i := th']> threads)
  = passed_count threads
    + (if negb (ClaimRace.has_passed th)
          && (ClaimRace.at_check th && ClaimRace.pending_at k st)
       then 1 else 0).
Proof.
  intros (Hall & Hc & Hp & Hf) Hi Hstep.
  destruct (Forall_lookup_1 _ _ _ _ Hall Hi) as [Hk Hb].
  destruct (step_facts k th st th' st' Hk Hb Hc Hstep)
    as (Hk' & Hb' & Hc' & Hp' & Hw' & Hpass' & Hfail').
  split; [|now apply count_insert_or].
  split; [apply Forall_insert; [exact Hall | now split]|].
  split; [exact Hc'|]. split.
  - rewrite Hp', Hp, (existsb_insert_or _ _ _ _ _ _ Hi Hw'). now rewrite negb_orb.
  - rewrite (existsb_insert_or _ _ _ _ _ _ Hi Hfail'),
      (existsb_insert_or _ _ _ _ _ _ Hi Hpass').
    intros Hor. apply orb_true_iff in Hor as [Hold|Hnew].
    + now rewrite (Hf Hold).
    + apply andb_true_iff in Hnew as [_ Hnp]. rewrite negb_true_iff in Hnp.
      rewrite Hp, negb_false_iff in Hnp.
      assert (Hex : existsb ClaimRace.has_passed threads = true).
      { apply existsb_exists in Hnp as (x & Hin & Hx). apply existsb_exists.
        exists x. split; [exact Hin|]. unfold ClaimRace.has_passed.
        rewrite Hx. apply orb_true_r. }
      now rewrite Hex.
Qed.

Lemma run_consistent k schedule :
  forall threads st threads' st',
    ClaimRace.consistent k threads st ->
    ClaimRace.run schedule threads st = (threads', st') ->
    ClaimRace.consistent k threads' st' /\
    length threads' = length threads /\
    passed_count threads <= passed_count threads'.
Proof.
  induction schedule as [|i schedule IH]; intros threads st threads' st' Hc Hrun;
    cbn [ClaimRace.run] in Hrun.
  - injection Hrun as <- <-. split; [exact Hc|]. split; [reflexivity | lia].
  - destruct (threads !! i) as [th|] eqn:Hi; [|now apply (IH threads st)].
    destruct (ClaimRace.step th st) as [th1 st1] eqn:Hstep.
    destruct (consistent_step k threads st i th th1 st1 Hc Hi Hstep) as [Hc1 Hcount].
    destruct (IH _ _ _ _ Hc1 Hrun) as (Hc' & Hlen & Hmono).
    split; [exact Hc'|]. rewrite length_insert in Hlen. split; [exact Hlen | lia].
Qed.

(** While the checks stay apart, at most one thread passes its check. *)
Lemma checks_apart_at_most_one k schedule :
  forall threads st threads' st',
    ClaimRace.consistent k threads st ->
    ClaimRace.checks_apart schedule threads st = true ->
    passed_count threads <= 1 ->
    ClaimRace.run schedule threads st = (threads', st') ->
    passed_count threads' <= 1.
Proof.
  induction schedule as [|i schedule IH];
    intros threads st threads' st' Hc Hapart Hone Hrun;
    cbn [ClaimRace.run ClaimRace.checks_apart] in Hrun, Hapart.
  - now injection Hrun as <- <-.
  - destruct (threads !! i) as [th|] eqn:Hi; [|now apply (IH threads st threads' st')].
    destruct (ClaimRace.step th st) as [th1 st1] eqn:Hstep.
    apply andb_true_iff in Hapart as [Hhead Htail].
    destruct (consistent_step k threads st i th th1 st1 Hc Hi Hstep) as [Hc1 Hcount].
    apply (IH _ _ threads' st' Hc1 Htail); [|exact Hrun].
    rewrite Hcount.
    destruct (negb (ClaimRace.has_passed th)
              && (ClaimRace.at_check th && ClaimRace.pending_at k st)) eqn:Hnew;
      [|lia].
    apply andb_true_iff in Hnew as [_ Hnew].
    apply andb_true_iff in Hnew as [Hchk Hpend].
    rewrite Hchk in Hhead. cbn [andb] in Hhead. rewrite negb_true_iff in Hhead.
    destruct Hc as (_ & _ & Hp & _). rewrite Hpend in Hp.
    symmetry in Hp. rewrite negb_true_iff in Hp.
    rewrite passed_split, (no_match_no_count _ _ Hhead), (no_match_no_count _ _ Hp).
    lia.
Qed.

(** Once a thread runs its check while another stands between its
    check and its write, two threads have passed their check. *)
Lemma checks_together_two k schedule :
  forall threads st threads' st',
    ClaimRace.consistent k threads st ->
    ClaimRace.checks_apart schedule threads st = false ->
    ClaimRace.run schedule threads st = (threads', st') ->
    2 <= passed_count threads'.
Proof.
  induction schedule as [|i schedule IH];
    intros threads st threads' st' Hc Hapart Hrun;
    cbn [ClaimRace.run ClaimRace.checks_apart] in Hrun, Hapart.
  - discriminate.
  - destruct (threads !! i) as [th|] eqn:Hi; [|now apply (IH threads st threads' st')].
    destruct (ClaimRace.step th st) as [th1 st1] eqn:Hstep.
    destruct (consistent_step k threads st i th th1 st1 Hc Hi Hstep) as [Hc1 Hcount].
    destruct (negb (ClaimRace.at_check th && existsb ClaimRace.at_write threads))
      eqn:Hhead; [now apply (IH _ _ threads' st' Hc1 Hapart)|].
    rewrite negb_false_iff in Hhead. apply andb_true_iff in Hhead as [Hchk Hw].
    destruct (run_consistent k schedule _ _ _ _ Hc1 Hrun) as (_ & _ & Hmono).
    apply existsb_count in Hw.
    assert (Hnp : ClaimRace.has_passed th = false).
    { unfold ClaimRace.has_passed, ClaimRace.at_write, ClaimRace.has_written,
        ClaimRace.at_check in *. now destruct (ClaimRace.at_line th). }
    rewrite Hnp, Hchk in Hcount. cbn [negb andb] in Hcount.
    pose proof (passed_split threads) as Hsplit.
    destruct (ClaimRace.pending_at k st) eqn:Hpend; [lia|].
    destruct Hc as (_ & _ & Hp & _). rewrite Hpend in Hp.
    symmetry in Hp. rewrite negb_false_iff in Hp. apply existsb_count in Hp. lia.
Qed.

(** When every call has returned, the calls that returned the task are
    the threads that passed their check. *)
Lemma successes_are_passed threads :
  Forall (fun th => ClaimRace.finished th = true) threads ->
  length (List.filter is_task (map ClaimRace.result threads)) = passed_count threads.
Proof.
  induction 1 as [|th threads Hfin _ IH]; [reflexivity|].
  cbn [map List.filter].
  assert (Heq : is_task (ClaimRace.result th) = ClaimRace.has_passed th).
  { unfold ClaimRace.result, ClaimRace.has_passed, ClaimRace.at_write,
      ClaimRace.has_written, ClaimRace.finished in *.
    destruct (ClaimRace.at_line th) as [| | | | | | |[r|]]; try discriminate;
      reflexivity. }
  rewrite Heq. destruct (ClaimRace.has_passed th); simpl; now rewrite IH.
Qed.

Lemma finished_one_passed k threads st :
  ClaimRace.consistent k threads st ->
  threads <> [] ->
  Forall (fun th => ClaimRace.finished th = true) threads ->
  1 <= passed_count threads.
Proof.
  intros (_ & _ & _ & Hf) Hne Hfin. apply existsb_count.
  destruct threads as [|th rest]; [congruence|].
  apply Forall_cons in Hfin as [Hth _].
  assert (Hor : ClaimRace.has_passed th = true \/ ClaimRace.has_failed th = true).
  { unfold ClaimRace.has_passed, ClaimRace.at_write, ClaimRace.has_written,
      ClaimRace.has_failed, ClaimRace.finished in *.
    destruct (ClaimRace.at_line th) as [| | | | | | |[r|]]; try discriminate;
      [now left | now right]. }
  destruct Hor as [Hp|Hfail].
  - cbn [existsb]. now rewrite Hp.
  - apply Hf. cbn [existsb]. now rewrite Hfail.
Qed.

Lemma start_consistent k task st worker_ids :
  PyDict.get k (TaskStore._tasks st) = Some task ->
  Task.status task = "pending" ->
  ClaimRace.consistent k (map (ClaimRace.start k) worker_ids) st /\
  passed_count (map (ClaimRace.start k) worker_ids) = 0.
Proof.
  intros Hget Hp.
  assert (Hnone : forall p, p = ClaimRace.has_written \/ p = ClaimRace.has_failed
                            \/ p = ClaimRace.has_passed ->
                    existsb p (map (ClaimRace.start k) worker_ids) = false).
  { intros p Hp'. induction worker_ids as [|w ws IH]; [reflexivity|].
    cbn [map existsb]. rewrite IH.
    destruct Hp' as [->|[->| ->]]; reflexivity. }
  split; [|apply no_match_no_count, Hnone; auto].
  split; [|split; [|split]].
  - clear Hnone. induction worker_ids as [|w ws IH]; simpl; constructor;
      [split; [reflexivity | discriminate] | exact IH].
  - unfold PyDict.contains. now rewrite Hget.
  - unfold ClaimRace.pending_at. rewrite Hget, Hp, Hnone by auto. reflexivity.
  - rewrite Hnone by auto. discriminate.
Qed.

(** C3 (amended). Take a store that holds a pending task and N >= 1
    threads that claim it, each with its own worker id, and any schedule
    of their lines after which every call has returned.  At least one
    call returns the task.  Exactly one call returns the task, and the
    other N-1 return None, if and only if no thread runs its check
    (line 79) while another thread stands between its own check and its
    write of the status (line 80). *)
Theorem one_claim_succeeds_iff_checks_apart
        (st : TaskStore.t) task_id task worker_ids schedule threads' st' :
  PyDict.get task_id (TaskStore._tasks st) = Some task ->
  Task.status task = "pending" ->
  worker_ids <> [] ->
  ClaimRace.run schedule (map (ClaimRace.start task_id) worker_ids) st
  = (threads', st') ->
  Forall (fun th => ClaimRace.finished th = true) threads' ->
  let successes := length (List.filter is_task (map ClaimRace.result threads')) in
  length (map ClaimRace.result threads') = length worker_ids /\
  1 <= successes /\
  (successes = 1 <->
   ClaimRace.checks_apart schedule (map (ClaimRace.start task_id) worker_ids) st
   = true).
Proof.
  intros Hget Hp Hne Hrun Hfin successes. subst successes.
  destruct (start_consistent task_id task st worker_ids Hget Hp) as [Hc Hzero].
  destruct (run_consistent task_id schedule _ _ _ _ Hc Hrun) as (Hc' & Hlen & _).
  rewrite length_map in Hlen.
  assert (Hne' : threads' <> []).
  { intros ->. destruct worker_ids; [congruence | discriminate]. }
  rewrite successes_are_passed by exact Hfin.
  pose proof (finished_one_passed task_id threads' st' Hc' Hne' Hfin) as Hone.
  split; [now rewrite length_map|]. split; [exact Hone|].
  destruct (ClaimRace.checks_apart schedule
              (map (ClaimRace.start task_id) worker_ids) st) eqn:Hapart.
  - split; [reflexivity|]. intros _.
    assert (passed_count threads' <= 1); [|lia].
    apply (checks_apart_at_most_one task_id schedule _ _ threads' st' Hc Hapart);
      [lia|].
    exact Hrun.
  - split; [|discriminate]. intros Heq.
    pose proof (checks_together_two task_id schedule _ _ _ _ Hc Hapart Hrun). lia.
Qed.
End ClaimRace_interleavings.

Section ClaimRace_samples.
#[local] Existing Instance PlainPath.

Lemma serial_claims_exactly_one_witness :
  let ws := ["w-a"; "w-b"; "w-c"] in
  PyDict.get "t1" (TaskStore._tasks Sample.store_pending) = Some Sample.t1_pending /\
  Task.status Sample.t1_pending = "pending" /\
  ws <> [] /\
  exists threads' st' w,
    ClaimRace.run (ClaimRace.serial 0 (length ws))
                  (map (ClaimRace.start "t1") ws) Sample.store_pending
    = (threads', st') /\
    Forall (fun th => ClaimRace.finished th = true) threads' /\
    Ops.claim_all "t1" ws Sample.store_pending
    = Ok (map ClaimRace.result threads', st') /\
    hd_error ws = Some w /\
    map ClaimRace.result threads'
    = Some (claimed w Sample.t1_pending) :: repeat None (length ws - 1) /\
    length (List.filter is_task (map ClaimRace.result threads')) = 1 /\
    PyDict.get "t1" (TaskStore._tasks st') = Some (claimed w Sample.t1_pending).
Proof.
  intros ws.
  assert (Hne : ws <> []) by discriminate.
  split; [reflexivity|]. split; [reflexivity|]. split; [exact Hne|].
  exact (serial_claims_exactly_one Sample.store_pending "t1" Sample.t1_pending ws
           eq_refl eq_refl Hne).
Defined.

Lemma one_claim_succeeds_iff_checks_apart_witness :
  let ws := ["w-a"; "w-b"; "w-c"] in
  let schedule := [0; 1; 2; 1; 1; 0; 2; 1; 0; 1; 2; 1] in
  let final :=
    ClaimRace.run schedule (map (ClaimRace.start "t1") ws) Sample.store_pending in
  PyDict.get "t1" (TaskStore._tasks Sample.store_pending) = Some Sample.t1_pending /\
  Task.status Sample.t1_pending = "pending" /\
  ws <> [] /\
  Forall (fun th => ClaimRace.finished th = true) (fst final) /\
  map ClaimRace.result (fst final)
  = [None; Some (claimed "w-b" Sample.t1_pending); None] /\
  length (map ClaimRace.result (fst final)) = length ws /\
  1 <= length (List.filter is_task (map ClaimRace.result (fst final))) /\
  (length (List.filter is_task (map ClaimRace.result (fst final))) = 1 <->
   ClaimRace.checks_apart schedule (map (ClaimRace.start "t1") ws)
                          Sample.store_pending = true).
Proof.
  intros ws schedule final.
  assert (H1 : PyDict.get "t1" (TaskStore._tasks Sample.store_pending)
               = Some Sample.t1_pending) by reflexivity.
  assert (H2 : Task.status Sample.t1_pending = "pending") by reflexivity.
  assert (H3 : ws <> []) by discriminate.
  assert (H4 : ClaimRace.run schedule (map (ClaimRace.start "t1") ws)
                             Sample.store_pending = (fst final, snd final))
    by (vm_compute; reflexivity).
  assert (H5 : Forall (fun th => ClaimRace.finished th = true) (fst final))
    by (vm_compute; repeat constructor).
  split; [exact H1|]. split; [exact H2|]. split; [exact H3|]. split; [exact H5|].
  split; [vm_compute; reflexivity|].
  exact (one_claim_succeeds_iff_checks_apart
           Sample.store_pending "t1" Sample.t1_pending ws schedule
           (fst final) (snd final) H1 H2 H3 H4 H5).
Defined.

(** C3, as stated, fails.  Two threads claim the pending task t1.  Each
    runs lines 78 and 79 (both find the task pending) before either runs
    line 80; then each runs its remaining lines.  Both calls return the
    task: two results are not None. *)
Lemma interleaved_claims_both_return_task :
  let threads := [ClaimRace.start "t1" "w-a"; ClaimRace.start "t1" "w-b"] in
  let schedule := [0; 0; 1; 1; 0; 0; 0; 0; 1; 1; 1; 1] in
  PyDict.get "t1" (TaskStore._tasks Sample.store_pending) = Some Sample.t1_pending /\
  Task.status Sample.t1_pending = "pending" /\
  map ClaimRace.finished (fst (ClaimRace.run schedule threads Sample.store_pending))
    = [true; true] /\
  map ClaimRace.result (fst (ClaimRace.run schedule threads Sample.store_pending))
    = [Some (claimed "w-a" Sample.t1_pending); Some (claimed "w-b" Sample.t1_pending)] /\
  length (List.filter is_task
            (map ClaimRace.result
                 (fst (ClaimRace.run schedule threads Sample.store_pending)))) = 2.
Proof. vm_compute. repeat split. Qed.
End ClaimRace_samples.

(** ** The worker's tool loop *)

Section Worker_facts.
Variable chat : nat -> list Worker.message -> res string.
Variable _parse_tool_call :
  string -> option string * option (list (string * string)) * string.
Variable run_tool : nat -> string -> list (string * string) -> res string.
Variable setup : res unit.
Variable write_handoff : string -> res unit.

Local Abbreviation tool_loop := (Worker.tool_loop chat _parse_tool_call run_tool).
Local Abbreviation run_worker :=
  (Worker.run_worker chat _parse_tool_call run_tool setup write_handoff).

Lemma budget_exceeded_handoff_nonempty : Worker.budget_exceeded_handoff <> "".
Proof. intros Heq. vm_compute in Heq. discriminate Heq. Qed.

(** When the loop runs out of iterations, the conversation ends with a
    message of the user: the initial one, or the feedback of a tool. *)
Lemma tool_loop_else_ends_with_user iterations messages messages' :
  (exists m, last messages = Some m /\ Worker.role m = "user") ->
  tool_loop iterations messages = Ok (Worker.LoopElse, messages') ->
  exists m, last messages' = Some m /\ Worker.role m = "user".
Proof.
  revert messages. induction iterations as [|i its IH]; intros messages Hu Hl.
  - simpl in Hl. injection Hl as <-. exact Hu.
  - cbn [Worker.tool_loop] in Hl.
    destruct (chat i messages) as [response|e]; [|discriminate].
    cbn [res_bind] in Hl.
    destruct (_parse_tool_call response) as [[[name|] args] remaining];
      [|discriminate].
    match type of Hl with
    | res_bind ?x _ = _ => destruct x as [tool_result|e]; [|discriminate]
    end.
    cbn [res_bind] in Hl. apply IH in Hl; [exact Hl|].
    eexists. split; [apply last_snoc | reflexivity].
Qed.

(** What [run_worker] returns, when it returns, is what it wrote and is
    not empty. *)
Lemma run_worker_returns_nonempty description listing out :
  run_worker description listing = Ok out ->
  Worker.returned out <> "" /\ Worker.written out = Worker.returned out.
Proof.
  unfold Worker.run_worker.
  destruct setup as [u|e]; [|discriminate]. cbn [res_bind].
  destruct (Worker.tool_loop _ _ _ _ _) as [[exit messages]|e]; [|discriminate].
  cbn [res_bind]. destruct (write_handoff _) as [u'|e]; [|discriminate].
  simpl. intros [= <-]. simpl. split; [|reflexivity].
  destruct (String.eqb_spec
              match exit with
              | Worker.LoopBreak h => h
              | Worker.LoopElse =>
                  match last messages with
                  | Some m =>
                      if String.eqb (Worker.role m) "assistant"
                      then Worker.extract_handoff_from_response (Worker.content m)
                      else ""
                  | None => ""
                  end
              end "") as [He|Hne].
  - apply budget_exceeded_handoff_nonempty.
  - exact Hne.
Qed.

Lemma tool_loop_total iterations messages :
  (forall i msgs, In i iterations -> exists r, chat i msgs = Ok r) ->
  (forall i name args, In i iterations -> exists r, run_tool i name args = Ok r) ->
  exists exit messages',
    tool_loop iterations messages = Ok (exit, messages') /\
    ((forall i msgs r, In i iterations -> chat i msgs = Ok r ->
                       fst (fst (_parse_tool_call r)) <> None) ->
     exit = Worker.LoopElse).
Proof.
  revert messages.
  induction iterations as [|i its IH]; intros messages Hchat Htool.
  - eexists _, _. split; reflexivity.
  - cbn [Worker.tool_loop].
    destruct (Hchat i messages) as [response Hr]; [now left|].
    rewrite Hr. cbn [res_bind].
    destruct (_parse_tool_call response) as [[[name|] args] remaining] eqn:Hparse.
    + assert (Ht : exists tool_result,
                 (if existsb (String.eqb name) Worker._TOOLS
                  then run_tool i name match args with Some a => a | None => [] end
                  else Ok (Worker.unknown_tool name)) = Ok tool_result).
      { destruct (existsb _ _); [apply Htool; now left | now eexists]. }
      destruct Ht as [tool_result ->]. cbn [res_bind].
      destruct (IH (messages ++ [Worker.mk_message "assistant" response]
                             ++ [Worker.mk_message "user"
                                   (Worker.tool_feedback tool_result)])%list)
        as (exit & messages' & Hloop & Hall).
      { intros j msgs Hj. apply Hchat. now right. }
      { intros j n a Hj. apply Htool. now right. }
      exists exit, messages'. rewrite <- app_assoc. split; [exact Hloop|].
      intros Hcalls. apply Hall. intros j msgs r Hj. apply Hcalls. now right.
    + eexists _, _. split; [reflexivity|]. intros Hall.
      apply (Hall i messages response) in Hr; [|now left].
      rewrite Hparse in Hr. now simpl in Hr.
Qed.

(** C8 (amended). When the set-up of [run_worker] returns, no call of
    the invocation layer and no tool raises within the iteration budget,
    and the handoff can be written, [run_worker] returns; the text it
    returns is the text it wrote to the handoff path and is not empty.
    When moreover every response of the agent asks for a tool, so that
    the budget is used up without a final response, the text is the
    budget-exceeded handoff. *)
Theorem run_worker_always_yields_handoff description listing :
  setup = Ok tt ->
  (forall i msgs, i < Worker._MAX_TOOL_ITERATIONS -> exists r, chat i msgs = Ok r) ->
  (forall i name args, i < Worker._MAX_TOOL_ITERATIONS ->
                       exists r, run_tool i name args = Ok r) ->
  (forall text, write_handoff text = Ok tt) ->
  exists out,
    run_worker description listing = Ok out /\
    Worker.returned out <> "" /\
    Worker.written out = Worker.returned out /\
    ((forall i msgs r, i < Worker._MAX_TOOL_ITERATIONS -> chat i msgs = Ok r ->
                       fst (fst (_parse_tool_call r)) <> None) ->
     Worker.returned out = Worker.budget_exceeded_handoff).
Proof.
  intros Hsetup Hchat Htool Hwrite.
  pose (messages := [Worker.mk_message "user" (Worker.initial_user description listing)]).
  destruct (tool_loop_total (seq 0 Worker._MAX_TOOL_ITERATIONS) messages)
    as (exit & messages' & Hloop & Hall).
  { intros i msgs Hi. apply Hchat. apply in_seq in Hi. lia. }
  { intros i n a Hi. apply Htool. apply in_seq in Hi. lia. }
  assert (Hrun : exists out, run_worker description listing = Ok out).
  { unfold Worker.run_worker. fold messages.
    rewrite Hsetup, Hloop. cbn [res_bind]. rewrite Hwrite. now eexists. }
  destruct Hrun as [out Hout]. exists out. split; [exact Hout|].
  destruct (run_worker_returns_nonempty _ _ _ Hout) as [Hne Hw].
  split; [exact Hne|]. split; [exact Hw|].
  intros Htools.
  assert (Hexit : exit = Worker.LoopElse).
  { apply Hall. intros i msgs r Hi. apply Htools. apply in_seq in Hi. lia. }
  subst exit.
  destruct (tool_loop_else_ends_with_user
              (seq 0 Worker._MAX_TOOL_ITERATIONS) messages messages')
    as (m & Hlast & Hrole).
  { exists (Worker.mk_message "user" (Worker.initial_user description listing)).
    split; reflexivity. }
  { exact Hloop. }
  unfold Worker.run_worker in Hout. fold messages in Hout.
  rewrite Hsetup, Hloop in Hout. cbn [res_bind] in Hout.
  rewrite Hwrite in Hout. simpl in Hout.
  rewrite Hlast, Hrole in Hout. simpl in Hout. now injection Hout as <-.
Qed.
End Worker_facts.

(** ** The resilient invocation layer *)

Section Llm_facts.
Variable call_once : nat -> string -> Llm.call_outcome.
Variable cfg : Llm.config.

Local Abbreviation delay := (Llm.backoff_delay cfg).

Lemma moves_on_cons a log :
  log <> [] -> Llm.moves_on cfg (a :: log) = Llm.moves_on cfg log.
Proof. unfold Llm.moves_on. destruct log; [congruence | reflexivity]. Qed.

(** The inner loop, attempt by attempt. *)
Lemma retry_loop_spec model_name n :
  forall k calls last_error exit log calls' last_error',
    Llm.retry_loop call_once cfg model_name (seq k n) calls last_error
    = (exit, log, calls', last_error') ->
    length log <= n /\
    (0 < n -> log <> []) /\
    calls' = calls + length log /\
    Llm.goes_on exit = Llm.moves_on cfg log /\
    forall i a, log !! i = Some a ->
      Llm.attempt a = k + i /\
      Llm.outcome a = call_once (calls + i) model_name /\
      Llm.sleep_arg a
      = match Llm.outcome a with
        | Llm.Fails e =>
            if Llm._is_rate_limit_error e then Some (delay (k + i)) else None
        | Llm.Reply _ => None
        end /\
      (is_Some (log !! S i) <->
       S i < n /\ exists e, Llm.outcome a = Llm.Fails e
                            /\ Llm._is_rate_limit_error e = true
                            /\ (0 <= delay (k + i))%Z).
Proof.
  induction n as [|n IH]; intros k calls last_error exit log calls' last_error' Hrun.
  - simpl in Hrun. injection Hrun as <- <- <- <-. simpl.
    split; [lia|]. split; [lia|]. split; [lia|]. split; [reflexivity|].
    intros i a Hi. discriminate.
  - cbn [seq Llm.retry_loop] in Hrun.
    destruct (call_once calls model_name) as [result|e] eqn:Hcall.
    + injection Hrun as <- <- <- <-. simpl.
      split; [lia|]. split; [congruence|]. split; [lia|]. split; [reflexivity|].
      intros [|i] a Hi; [|discriminate]. injection Hi as <-. simpl.
      rewrite !Nat.add_0_r. split; [reflexivity|]. split; [congruence|].
      split; [reflexivity|]. split.
      * intros [x Hx]. discriminate.
      * intros (_ & e & He & _). discriminate.
    + destruct (Llm._is_rate_limit_error e) eqn:Hrl.
      * destruct (Z.ltb_spec (delay k) 0) as [Hneg|Hpos].
        -- injection Hrun as <- <- <- <-. simpl.
           split; [lia|]. split; [congruence|]. split; [lia|]. split.
           { unfold Llm.moves_on. simpl. rewrite Hrl.
             symmetry. apply Z.leb_gt. exact Hneg. }
           intros [|i] a Hi; [|discriminate]. injection Hi as <-. simpl.
           rewrite !Nat.add_0_r, Hrl. split; [reflexivity|]. split; [congruence|].
           split; [reflexivity|]. split.
           ++ intros [x Hx]. discriminate.
           ++ intros (_ & e' & _ & _ & Hd). lia.
        -- destruct (Llm.retry_loop call_once cfg model_name (seq (S k) n)
                                    (S calls) (Some e))
             as [[[exit0 log0] calls0] le0] eqn:Hrec.
           injection Hrun as <- <- <- <-.
           destruct (IH _ _ _ _ _ _ _ Hrec) as (Hlen & Hnonempty & Hcalls & Hgo & Hatt).
           simpl. split; [lia|]. split; [congruence|]. split; [lia|]. split.
           { destruct n as [|n'].
             - simpl in Hrec. injection Hrec as <- <- <- <-.
               unfold Llm.moves_on. simpl. rewrite Hrl.
               symmetry. apply Z.leb_le. exact Hpos.
             - rewrite moves_on_cons by (apply Hnonempty; lia). exact Hgo. }
           intros [|i] a Hi.
           ++ injection Hi as <-. simpl. rewrite !Nat.add_0_r, Hrl.
              split; [reflexivity|]. split; [congruence|]. split; [reflexivity|].
              split.
              ** intros [x Hx]. split.
                 --- destruct n; [|lia].
                     simpl in Hrec. injection Hrec as <- <- <- <-. discriminate.
                 --- exists e. auto.
              ** intros (Hn & _).
                 destruct log0 as [|a0 log0]; [|now eexists].
                 exfalso. apply Hnonempty; [lia | reflexivity].
           ++ simpl in Hi. destruct (Hatt i a Hi) as (Ha & Ho & Hs & Hnext).
              replace (k + S i) with (S k + i) by lia.
              replace (calls + S i) with (S calls + i) by lia.
              split; [exact Ha|]. split; [exact Ho|]. split; [exact Hs|].
              split.
              ** intros Hx. apply Hnext in Hx. split; [lia | tauto].
              ** intros (Hn & He). apply Hnext. split; [lia | exact He].
      * injection Hrun as <- <- <- <-. simpl.
        split; [lia|]. split; [congruence|]. split; [lia|]. split.
        { unfold Llm.moves_on. simpl. now rewrite Hrl. }
        intros [|i] a Hi; [|discriminate]. injection Hi as <-. simpl.
        rewrite !Nat.add_0_r, Hrl. split; [reflexivity|]. split; [congruence|].
        split; [reflexivity|]. split.
        -- intros [x Hx]. discriminate.
        -- intros (_ & e' & [= <-] & He' & _). congruence.
Qed.
Lemma calls_before_cons entry log j :
  Llm.calls_before (entry :: log) (S j)
  = length (snd entry) + Llm.calls_before log j.
Proof. unfold Llm.calls_before. simpl. now rewrite length_app. Qed.

(** The outer loop, model by model: entry [j] of the log is the inner
    loop run for candidate [j], starting after the calls logged before. *)
Lemma model_loop_spec all models :
  forall calls last_error r logs,
    Llm.model_loop call_once cfg all models calls last_error = (r, logs) ->
    (models <> [] -> logs <> []) /\
    forall j m attempts, logs !! j = Some (m, attempts) ->
      models !! j = Some m /\
      (exists exit calls' le le',
         Llm.retry_loop call_once cfg m (seq 0 (Z.to_nat (Llm.max_retries cfg)))
                        (calls + Llm.calls_before logs j) le
         = (exit, attempts, calls', le')) /\
      (is_Some (logs !! S j) <->
       is_Some (models !! S j) /\ Llm.moves_on cfg attempts = true).
Proof.
  induction models as [|m0 rest IH]; intros calls last_error r logs Hrun.
  - simpl in Hrun. injection Hrun as <- <-. split; [congruence|].
    intros j m attempts Hj. discriminate.
  - cbn [Llm.model_loop] in Hrun.
    destruct (Llm.retry_loop call_once cfg m0 _ calls last_error)
      as [[[exit log] calls'] le'] eqn:Hretry.
    destruct (retry_loop_spec _ _ _ _ _ _ _ _ _ Hretry)
      as (_ & _ & Hcalls & Hgo & _).
    assert (Hstop : Llm.goes_on exit = false ->
              logs = [(m0, log)] ->
              forall j m attempts, logs !! j = Some (m, attempts) ->
                (m0 :: rest) !! j = Some m /\
                (exists exit calls' le le',
                   Llm.retry_loop call_once cfg m
                     (seq 0 (Z.to_nat (Llm.max_retries cfg)))
                     (calls + Llm.calls_before logs j) le
                   = (exit, attempts, calls', le')) /\
                (is_Some (logs !! S j) <->
                 is_Some ((m0 :: rest) !! S j) /\ Llm.moves_on cfg attempts = true)).
    { intros Hfalse -> [|j] m attempts Hj; [|discriminate].
      injection Hj as <- <-. split; [reflexivity|]. split.
      - exists exit, calls', last_error, le'.
        unfold Llm.calls_before. simpl. now rewrite Nat.add_0_r.
      - split.
        + intros [x Hx]. discriminate.
        + intros (_ & Hm). congruence. }
    destruct exit as [result| | |].
    + injection Hrun as <- <-. split; [congruence|]. now apply Hstop.
    + destruct (Llm.model_loop call_once cfg all rest calls' le') as [r' logs'] eqn:Hrest.
      injection Hrun as <- <-. split; [congruence|].
      destruct (IH _ _ _ _ Hrest) as (Hne & Hent).
      intros [|j] m attempts Hj.
      * injection Hj as <- <-. split; [reflexivity|]. split.
        -- exists Llm.Broke, calls', last_error, le'.
           unfold Llm.calls_before. simpl. now rewrite Nat.add_0_r.
        -- simpl. split.
           ++ intros [[m1 a1] Hx]. split; [|now rewrite <- Hgo].
              destruct (Hent 0 m1 a1 Hx) as (Hm1 & _). exists m1. exact Hm1.
           ++ intros ([m1 Hm1] & _).
              destruct logs' as [|e1 logs']; [|now eexists].
              exfalso. apply Hne; [|reflexivity]. destruct rest; discriminate.
      * simpl in Hj. destruct (Hent j m attempts Hj) as (Hm & Hr & Hnext).
        split; [exact Hm|]. split; [|exact Hnext].
        rewrite calls_before_cons. simpl.
        rewrite Nat.add_assoc, <- Hcalls. exact Hr.
    + destruct (Llm.model_loop call_once cfg all rest calls' le') as [r' logs'] eqn:Hrest.
      injection Hrun as <- <-. split; [congruence|].
      destruct (IH _ _ _ _ Hrest) as (Hne & Hent).
      intros [|j] m attempts Hj.
      * injection Hj as <- <-. split; [reflexivity|]. split.
        -- exists Llm.Exhausted, calls', last_error, le'.
           unfold Llm.calls_before. simpl. now rewrite Nat.add_0_r.
        -- simpl. split.
           ++ intros [[m1 a1] Hx]. split; [|now rewrite <- Hgo].
              destruct (Hent 0 m1 a1 Hx) as (Hm1 & _). exists m1. exact Hm1.
           ++ intros ([m1 Hm1] & _).
              destruct logs' as [|e1 logs']; [|now eexists].
              exfalso. apply Hne; [|reflexivity]. destruct rest; discriminate.
      * simpl in Hj. destruct (Hent j m attempts Hj) as (Hm & Hr & Hnext).
        split; [exact Hm|]. split; [|exact Hnext].
        rewrite calls_before_cons. simpl.
        rewrite Nat.add_assoc, <- Hcalls. exact Hr.
    + injection Hrun as <- <-. split; [congruence|]. now apply Hstop.
Qed.
Lemma filter_not_model_sublist (model : string) (l : list string) :
  sublist (List.filter (fun m => negb (String.eqb m model)) l) l.
Proof.
  induction l as [|x l IH]; simpl; [constructor|].
  destruct (String.eqb x model); simpl; now constructor.
Qed.

Lemma filter_not_model_count (model m : string) (l : list string) :
  m <> model ->
  count_occ string_dec (List.filter (fun m => negb (String.eqb m model)) l) m
  = count_occ string_dec l m.
Proof.
  intros Hne. induction l as [|x l IH]; simpl; [reflexivity|].
  destruct (String.eqb_spec x model) as [->|Hx]; simpl.
  - destruct (string_dec model m); [congruence | exact IH].
  - destruct (string_dec x m); now rewrite IH.
Qed.

Lemma filter_not_model_absent (model : string) (l : list string) :
  ~ In model (List.filter (fun m => negb (String.eqb m model)) l).
Proof.
  intros Hin. apply filter_In in Hin as [_ Hc].
  now rewrite String.eqb_refl in Hc.
Qed.

(** C7. The candidates are the primary model followed by the fallback
    chain without the occurrences of the primary, in the order of the
    chain.  The primary is tried first.  For every candidate that is
    tried: it is the candidate at that place of the list; at most
    [max_retries] attempts are made on it; attempt [k] is a call of
    [_call_once] with that model; when the attempt fails with a
    rate-limit error, [time.sleep] is called with exactly
    [min(base_delay * 2^k, max_delay)], and in no other case; the same
    model is tried again exactly when the attempt failed with a
    rate-limit error, the sleep did not raise and fewer than
    [max_retries] attempts have been made; and the next candidate is
    tried exactly when there is one and the attempts did not end in a
    reply or in a raising sleep. *)
Theorem chat_retries_with_capped_backoff (model : string) :
  let candidates := Llm.models_to_try cfg model in
  let log := Llm.chat_log call_once cfg model in
  let backoff k :=
    Z.min (Llm.base_delay_sec cfg * 2 ^ Z.of_nat k) (Llm.max_delay_sec cfg) in
  (exists chain,
     candidates = model :: chain /\
     sublist chain (Llm.fallback_models cfg) /\
     ~ In model chain /\
     forall m, m <> model ->
       count_occ string_dec chain m
       = count_occ string_dec (Llm.fallback_models cfg) m) /\
  (exists attempts, log !! 0 = Some (model, attempts)) /\
  forall j m attempts, log !! j = Some (m, attempts) ->
    candidates !! j = Some m /\
    (Z.of_nat (length attempts) <= Z.max 0 (Llm.max_retries cfg))%Z /\
    (forall k a, attempts !! k = Some a ->
       Llm.attempt a = k /\
       Llm.outcome a = call_once (Llm.calls_before log j + k) m /\
       Llm.sleep_arg a
       = match Llm.outcome a with
         | Llm.Fails e =>
             if Llm._is_rate_limit_error e then Some (backoff k) else None
         | Llm.Reply _ => None
         end /\
       (is_Some (attempts !! S k) <->
        (Z.of_nat (S k) < Llm.max_retries cfg)%Z
        /\ exists e, Llm.outcome a = Llm.Fails e
                     /\ Llm._is_rate_limit_error e = true
                     /\ (0 <= backoff k)%Z)) /\
    (is_Some (log !! S j) <->
     is_Some (candidates !! S j) /\ Llm.moves_on cfg attempts = true).
Proof.
  intros candidates log backoff.
  destruct (Llm.chat_run call_once cfg model) as [r logs] eqn:Hrun.
  assert (Hlog : log = logs) by (unfold log, Llm.chat_log; now rewrite Hrun).
  unfold Llm.chat_run in Hrun. fold candidates in Hrun.
  destruct (model_loop_spec _ _ _ _ _ _ Hrun) as (Hne & Hent).
  rewrite Hlog. split; [|split].
  - exists (List.filter (fun m => negb (String.eqb m model)) (Llm.fallback_models cfg)).
    split; [reflexivity|]. split; [apply filter_not_model_sublist|].
    split; [apply filter_not_model_absent|].
    intros m Hm. now apply filter_not_model_count.
  - destruct logs as [|[m0 a0] logs'] eqn:Hlogs.
    + exfalso. apply Hne; [discriminate | reflexivity].
    + destruct (Hent 0 m0 a0 eq_refl) as (Hm0 & _).
      injection Hm0 as ->. now exists a0.
  - intros j m attempts Hj.
    destruct (Hent j m attempts Hj) as (Hm & (exit & calls' & le & le' & Hretry) & Hnext).
    destruct (retry_loop_spec _ _ _ _ _ _ _ _ _ Hretry) as (Hlen & _ & _ & _ & Hatt).
    split; [exact Hm|]. split; [lia|]. split; [|exact Hnext].
    intros k a Hk. destruct (Hatt k a Hk) as (Ha & Ho & Hs & Hn).
    simpl in Ha, Ho, Hs, Hn.
    split; [exact Ha|]. split; [exact Ho|]. split; [exact Hs|].
    rewrite Hn. unfold Llm.backoff_delay, backoff. split.
    + intros (Hlt & He). split; [lia | exact He].
    + intros (Hlt & He). split; [lia | exact He].
Qed.
End Llm_facts.

Section Llm_samples.

Example rate_limit_429 :
  Llm._is_rate_limit_error "Error code: 429 - Too Many Requests" = true.
Proof. vm_compute. reflexivity. Qed.

Example rate_limit_case_insensitive :
  Llm._is_rate_limit_error "QUOTA EXCEEDED for project" = true.
Proof. vm_compute. reflexivity. Qed.

Example not_rate_limit_auth : Llm._is_rate_limit_error "401 unauthorized" = false.
Proof. vm_compute. reflexivity. Qed.

(** The primary is tried [max_retries] = 3 times with sleeps 2, 4, 8,
    then the first fallback answers. *)
Example primary_limited_run :
  Llm.chat_run SampleRun.primary_limited Llm.default_config "gpt-5.2-codex-xhigh"
  = (Ok "pong",
     [("gpt-5.2-codex-xhigh",
       [Llm.mk_attempt 0 (Llm.Fails "Error code: 429 - Too Many Requests") (Some 2%Z);
        Llm.mk_attempt 1 (Llm.Fails "Error code: 429 - Too Many Requests") (Some 4%Z);
        Llm.mk_attempt 2 (Llm.Fails "Error code: 429 - Too Many Requests") (Some 8%Z)]);
      ("opus-4.6-thinking", [Llm.mk_attempt 0 (Llm.Reply "pong") None])]).
Proof. vm_compute. reflexivity. Qed.

(** With seven retries the sleep is capped at [max_delay_sec] = 60. *)
Example capped_sleeps :
  map Llm.sleep_arg
      (concat (map snd (Llm.chat_log (SampleRun.limited_until 7)
                                     (Llm.mk_config 8 2 60 []) "m")))
  = [Some 2; Some 4; Some 8; Some 16; Some 32; Some 60; Some 60; None]%Z.
Proof. vm_compute. reflexivity. Qed.

(** A fallback equal to the primary is not tried a second time. *)
Example candidates_without_primary :
  Llm.models_to_try (Llm.mk_config 3 2 60 ["b"; "a"; "c"; "a"; "b"]) "a"
  = ["a"; "b"; "c"; "b"].
Proof. reflexivity. Qed.
End Llm_samples.

Section Worker_samples.

Example extract_from_summary :
  Worker.extract_handoff_from_response
    ("All done." +:+ PyStr.nl +:+ "# Summary" +:+ PyStr.nl +:+ "README written."
     +:+ PyStr.nl)
  = "# Summary" +:+ PyStr.nl +:+ "README written.".
Proof. vm_compute. reflexivity. Qed.

Example extract_from_blank : Worker.extract_handoff_from_response "   " = "".
Proof. vm_compute. reflexivity. Qed.

Example run_worker_finishes :
  Worker.run_worker SampleRun.agent_done_at_2 SampleRun.parse_by_prefix
                    SampleRun.tool_ok SampleRun.setup_ok SampleRun.write_ok
                    "Write README" "- src/"
  = Ok (Worker.mk_outcome ("# Summary" +:+ PyStr.nl +:+ "README written.")
                          ("# Summary" +:+ PyStr.nl +:+ "README written.")).
Proof. vm_compute. reflexivity. Qed.

Lemma run_worker_always_yields_handoff_witness :
  SampleRun.setup_ok = Ok tt /\
  (forall i msgs, i < Worker._MAX_TOOL_ITERATIONS ->
                  exists r, SampleRun.agent_never_done i msgs = Ok r) /\
  (forall i name args, i < Worker._MAX_TOOL_ITERATIONS ->
                       exists r, SampleRun.tool_ok i name args = Ok r) /\
  (forall text, SampleRun.write_ok text = Ok tt) /\
  exists out,
    Worker.run_worker SampleRun.agent_never_done SampleRun.parse_by_prefix
                      SampleRun.tool_ok SampleRun.setup_ok SampleRun.write_ok
                      "Write README" "- src/" = Ok out /\
    Worker.returned out <> "" /\
    Worker.written out = Worker.returned out /\
    ((forall i msgs r, i < Worker._MAX_TOOL_ITERATIONS ->
                       SampleRun.agent_never_done i msgs = Ok r ->
                       fst (fst (SampleRun.parse_by_prefix r)) <> None) ->
     Worker.returned out = Worker.budget_exceeded_handoff).
Proof.
  assert (H0 : SampleRun.setup_ok = Ok tt) by reflexivity.
  assert (H1 : forall i msgs, i < Worker._MAX_TOOL_ITERATIONS ->
                              exists r, SampleRun.agent_never_done i msgs = Ok r)
    by (intros; eexists; reflexivity).
  assert (H2 : forall i name args, i < Worker._MAX_TOOL_ITERATIONS ->
                                   exists r, SampleRun.tool_ok i name args = Ok r)
    by (intros; eexists; reflexivity).
  assert (H3 : forall text, SampleRun.write_ok text = Ok tt) by reflexivity.
  split; [exact H0|]. split; [exact H1|]. split; [exact H2|]. split; [exact H3|].
  exact (run_worker_always_yields_handoff
           SampleRun.agent_never_done SampleRun.parse_by_prefix SampleRun.tool_ok
           SampleRun.setup_ok SampleRun.write_ok
           "Write README" "- src/" H0 H1 H2 H3).
Defined.

Example run_worker_budget_exceeded :
  Worker.run_worker SampleRun.agent_never_done SampleRun.parse_by_prefix
                    SampleRun.tool_ok SampleRun.setup_ok SampleRun.write_ok
                    "Write README" "- src/"
  = Ok (Worker.mk_outcome Worker.budget_exceeded_handoff
                          Worker.budget_exceeded_handoff).
Proof. vm_compute. reflexivity. Qed.

(** C8, as stated, fails.  The set-up returns and no call of the
    invocation layer fails.  In the first run the agent asks for
    [run_cmd] with the time limit [abc]: [_tool_run_cmd] converts the
    limit before its [try], the ValueError of [int] leaves the tool and
    then [run_worker], which calls the tool in no [try]; nothing is
    returned and nothing is written.  In the second run the agent writes
    its handoff at once and the file cannot be written: [run_worker]
    raises the error of the write. *)
Lemma run_worker_raises_with_invocation_layer_working :
  (forall i msgs, exists r, SampleRun.agent_bad_timeout i msgs = Ok r) /\
  Worker._tool_run_cmd SampleRun.shell_quiet [("command", "ls"); ("timeout", "abc")]
  = Raise ValueError /\
  Worker.run_worker SampleRun.agent_bad_timeout SampleRun.parse_bad_timeout
                    SampleRun.tools SampleRun.setup_ok SampleRun.write_ok
                    "Write README" "- src/"
  = Raise ValueError /\
  (forall i msgs, exists r, SampleRun.agent_done_at_once i msgs = Ok r) /\
  Worker.run_worker SampleRun.agent_done_at_once SampleRun.parse_by_prefix
                    SampleRun.tools SampleRun.setup_ok SampleRun.write_denied
                    "Write README" "- src/"
  = Raise OSError.
Proof.
  split; [intros; eexists; reflexivity|].
  split; [vm_compute; reflexivity|].
  split; [vm_compute; reflexivity|].
  split; [intros; eexists; reflexivity|].
  vm_compute; reflexivity.
Qed.
End Worker_samples.

(** ** The tables stay dictionaries

    The hypotheses of the round trip hold in every state the program
    reaches: a table loaded from a file or built by the operations has
    one entry per id, and the registry stores each sub-planner under its
    own id. *)

Section Tables.
Context `{PathLib}.

Lemma keys_setitem {V} k (v : V) (d : list (string * V)) :
  PyDict.keys (PyDict.setitem k v d)
  = if PyDict.contains k d then PyDict.keys d else (PyDict.keys d ++ [k])%list.
Proof.
  unfold PyDict.contains.
  induction d as [|[k' v'] d IH]; simpl; [reflexivity|].
  destruct (String.eqb k k'); simpl; [reflexivity|].
  rewrite IH. now destruct (PyDict.get k d).
Qed.

Lemma NoDup_snoc {A} (l : list A) (x : A) :
  List.NoDup l -> ~ In x l -> List.NoDup (l ++ [x])%list.
Proof.
  induction 1 as [|y l Hy Hl IH]; intros Hx; simpl.
  - constructor; [intros [] | constructor].
  - constructor.
    + rewrite in_app_iff. intros [Hin|[<-|[]]]; [contradiction|].
      apply Hx. now left.
    + apply IH. intros Hin. apply Hx. now right.
Qed.

Lemma NoDup_setitem {V} k (v : V) (d : list (string * V)) :
  List.NoDup (PyDict.keys d) -> List.NoDup (PyDict.keys (PyDict.setitem k v d)).
Proof.
  intros Hnd. rewrite keys_setitem. unfold PyDict.contains.
  destruct (PyDict.get k d) eqn:Hget; [exact Hnd|].
  apply get_None_not_in_keys in Hget. now apply NoDup_snoc.
Qed.

Lemma NoDup_fold_setitem (tasks : list Task.t) (d : list (string * Task.t)) :
  List.NoDup (PyDict.keys d) ->
  List.NoDup (PyDict.keys
                (fold_left (fun d task => PyDict.setitem (Task.id task) task d) tasks d)).
Proof.
  revert d. induction tasks as [|t tasks IH]; intros d Hnd; [exact Hnd|].
  simpl. apply IH. now apply NoDup_setitem.
Qed.

Lemma run_op_keeps_one_entry_per_id (o : Ops.op) (st st' : TaskStore.t) :
  List.NoDup (PyDict.keys (TaskStore._tasks st)) ->
  Ops.run_op o st = Ok (tt, st') ->
  List.NoDup (PyDict.keys (TaskStore._tasks st')).
Proof.
  intros Hnd. destruct o as [t|ts|i w|i hp]; simpl.
  - rewrite add_eval. intros [= <-]. simpl. now apply NoDup_setitem.
  - rewrite add_many_eval. intros [= <-]. simpl. now apply NoDup_fold_setitem.
  - unfold bind. rewrite claim_eval.
    destruct (PyDict.get i (TaskStore._tasks st)) as [task|].
    + destruct (String.eqb (Task.status task) "pending"); intros [= <-]; simpl;
        [now rewrite keys_alter | exact Hnd].
    + intros [= <-]. exact Hnd.
  - rewrite complete_eval.
    destruct (PyDict.get i (TaskStore._tasks st)) as [task|]; intros [= <-]; simpl;
      [now rewrite keys_alter | exact Hnd].
Qed.

Lemma load_items_one_entry_per_id pairs :
  forall acc tasks,
    List.NoDup (PyDict.keys acc) ->
    TaskStore.load_items pairs acc = Ok tasks ->
    List.NoDup (PyDict.keys tasks).
Proof.
  induction pairs as [|[k v] pairs IH]; intros acc tasks Hnd; simpl.
  - now intros [= <-].
  - destruct (dict_for_subscript v) as [d|]; [|discriminate]. simpl.
    destruct (Task.from_dict d) as [task|]; [|discriminate]. simpl.
    apply IH. now apply NoDup_setitem.
Qed.

Lemma TaskStore_init_one_entry_per_id f st :
  TaskStore.init f = Ok st -> List.NoDup (PyDict.keys (TaskStore._tasks st)).
Proof.
  unfold TaskStore.init, TaskStore._load, bind, get_self. simpl.
  destruct f as [data|]; [|intros [= <-]; constructor].
  destruct (TaskStore.parse_file data) as [tasks|e] eqn:Hparse;
    [|destruct e; simpl; intros Hq; try discriminate; injection Hq as <-;
      constructor].
  intros [= <-]. simpl.
  unfold TaskStore.parse_file in Hparse.
  destruct (dict_for_method data) as [top|]; [|discriminate]. simpl in Hparse.
  destruct (dict_for_method _) as [ts|]; [|discriminate]. simpl in Hparse.
  eapply load_items_one_entry_per_id; [|exact Hparse]. constructor.
Qed.

Lemma registry_ok_setitem (sub : SubPlanner.t) subs :
  registry_ok subs -> registry_ok (PyDict.setitem (SubPlanner.id sub) sub subs).
Proof.
  intros [Hnd Hid]. split; [now apply NoDup_setitem|].
  induction Hid as [|[k' v'] d Hx Hd IH]; simpl.
  - repeat constructor.
  - destruct (String.eqb_spec (SubPlanner.id sub) k') as [<-|Hne];
      constructor; auto.
    apply IH. now inversion Hnd.
Qed.

Lemma add_sub_keeps_registry_ok uuid8 parent_id scope reg sub reg' :
  registry_ok (PlannerRegistry._subs reg) ->
  PlannerRegistry.add_sub uuid8 parent_id scope reg = Ok (sub, reg') ->
  registry_ok (PlannerRegistry._subs reg')
  /\ SubPlanner.is_new sub = true
  /\ PlannerRegistry.get (SubPlanner.id sub) reg' = Some sub.
Proof.
  intros Hok [= <- <-]. simpl. split; [|split; [reflexivity|]].
  - apply (registry_ok_setitem
             (SubPlanner.mk ("sub-" +:+ uuid8) parent_id (PyStr.strip scope) true)).
    exact Hok.
  - unfold PlannerRegistry.get. simpl. apply get_setitem_eq.
Qed.

Lemma mark_run_keeps_registry_ok planner_id reg reg' :
  registry_ok (PlannerRegistry._subs reg) ->
  PlannerRegistry.mark_run planner_id reg = Ok (tt, reg') ->
  registry_ok (PlannerRegistry._subs reg').
Proof.
  intros [Hnd Hid]. unfold PlannerRegistry.mark_run, bind, get_self, PyDict.contains,
    lift, PyDict.getitem.
  destruct (PyDict.get planner_id (PlannerRegistry._subs reg)) as [sub|];
    [|now intros [= <-]].
  intros [= <-]. simpl. split; [now rewrite keys_alter|].
  clear Hnd. induction Hid as [|[k' v'] d Hx Hd IH]; simpl; [constructor|].
  destruct (String.eqb planner_id k'); constructor; auto.
Qed.

Lemma load_subs_registry_ok entries :
  forall acc subs,
    registry_ok acc ->
    PlannerRegistry.load_subs entries acc = Ok subs ->
    registry_ok subs.
Proof.
  induction entries as [|s entries IH]; intros acc subs Hok; simpl.
  - now intros [= <-].
  - destruct (dict_for_subscript s) as [d|]; [|discriminate]. simpl.
    unfold SubPlanner.from_dict.
    destruct (res_bind (PyDict.getitem "id" d) as_str) as [key|]; [|discriminate].
    simpl.
    destruct (res_bind (PyDict.getitem "parent_id" d) as_str) as [p|]; [|discriminate].
    destruct (res_bind (PyDict.getitem "scope" d) as_str) as [sc|]; [|discriminate].
    destruct (as_bool _) as [n|]; [|discriminate]. simpl.
    apply IH. apply (registry_ok_setitem (SubPlanner.mk key p sc n)). exact Hok.
Qed.

Lemma PlannerRegistry_init_registry_ok f reg :
  PlannerRegistry.init f = Ok reg -> registry_ok (PlannerRegistry._subs reg).
Proof.
  assert (Hnil : registry_ok []) by (split; constructor).
  unfold PlannerRegistry.init, PlannerRegistry._load, bind, get_self. simpl.
  destruct f as [data|]; [|now intros [= <-]].
  destruct (PlannerRegistry.parse_file data) as [subs|e] eqn:Hparse;
    [|destruct e; simpl; intros Hq; try discriminate; now injection Hq as <-].
  intros [= <-]. simpl.
  unfold PlannerRegistry.parse_file in Hparse.
  destruct (dict_for_method data) as [top|]; [|discriminate]. simpl in Hparse.
  destruct (PyDict.get_default _ _ top) as [| | |[|c text]|entries|[|kv d]];
    try discriminate.
  - now injection Hparse as <-.
  - eapply load_subs_registry_ok; [exact Hnil | exact Hparse].
  - now injection Hparse as <-.
Qed.
End Tables.

(** * Further properties of the code *)

(** ** The task store: listing, claiming, completing *)

Section TaskStore_more.
Context `{PathLib}.
Implicit Types (st : TaskStore.t) (task : Task.t) (d : list (string * Task.t)).

Lemma values_in_keys d task :
  Forall (fun kv => fst kv = Task.id (snd kv)) d ->
  In task (PyDict.values d) -> In (Task.id task) (PyDict.keys d).
Proof.
  induction 1 as [|[k v] d Hk _ IH]; simpl; [tauto|].
  intros [->|Hin]; [left; exact Hk | right; auto].
Qed.

Lemma store_ok_get d task :
  store_ok d -> In task (PyDict.values d) -> PyDict.get (Task.id task) d = Some task.
Proof.
  intros [Hnd Hid]. revert Hnd.
  induction Hid as [|[k v] d Hkv Hid IH]; intros Hnd; simpl; [tauto|].
  simpl in Hkv, Hnd. apply List.NoDup_cons_iff in Hnd as [Hk Hnd'].
  intros [Hv|Hin].
  - rewrite <- Hv, <- Hkv, String.eqb_refl. reflexivity.
  - destruct (String.eqb_spec (Task.id task) k) as [He|_]; [|auto].
    exfalso. apply Hk. rewrite <- He. now apply values_in_keys.
Qed.

Lemma store_ok_alter (f : Task.t -> Task.t) k d :
  (forall task, Task.id (f task) = Task.id task) ->
  store_ok d -> store_ok (PyDict.alter f k d).
Proof.
  intros Hf [Hnd Hid]. split; [now rewrite keys_alter|].
  clear Hnd. induction Hid as [|[k' v'] d Hk Hd IH]; simpl; [constructor|].
  destruct (String.eqb k k'); constructor; auto. simpl in *. now rewrite Hf.
Qed.

(** The tasks a filter lists after an attribute assignment that takes
    the task under [k] out of the filter. *)
Lemma filter_values_alter_out (P : Task.t -> bool) (f : Task.t -> Task.t) k d task :
  store_ok d ->
  PyDict.get k d = Some task ->
  P (f task) = false ->
  List.filter P (PyDict.values (PyDict.alter f k d))
  = List.filter (fun t => negb (String.eqb (Task.id t) k))
                (List.filter P (PyDict.values d)).
Proof.
  intros [Hnd Hid]. revert Hnd.
  induction Hid as [|[k' v'] d Hk Hd IH]; intros Hnd; simpl; [discriminate|].
  simpl in Hk, Hnd. apply List.NoDup_cons_iff in Hnd as [Hfresh Hnd'].
  subst k'.
  destruct (String.eqb_spec k (Task.id v')) as [->|Hne]; simpl.
  - intros [= ->] ->.
    assert (Hrest : forall l,
               Forall (fun kv => fst kv = Task.id (snd kv)) l ->
               ~ In (Task.id task) (PyDict.keys l) ->
               List.filter (fun t => negb (String.eqb (Task.id t) (Task.id task)))
                           (List.filter P (PyDict.values l))
               = List.filter P (PyDict.values l)).
    { clear. induction 1 as [|[k v] l Hk _ IH]; simpl; [reflexivity|].
      intros Hn. simpl in Hk. subst k.
      destruct (P v); simpl.
      - destruct (String.eqb_spec (Task.id v) (Task.id task)) as [He|_]; simpl.
        + exfalso. apply Hn. now left.
        + f_equal. apply IH. tauto.
      - apply IH. tauto. }
    destruct (P task); simpl.
    + rewrite String.eqb_refl. simpl. symmetry. now apply Hrest.
    + symmetry. now apply Hrest.
  - intros Hget Hout. rewrite (IH Hnd' Hget Hout).
    destruct (P v'); simpl; [|reflexivity].
    destruct (String.eqb_spec (Task.id v') k); [congruence | reflexivity].
Qed.

(** X1. A task listed by [get_pending] can be claimed: in a store with
    one entry per id, each under its own id, the claim of a listed task
    returns it, set to running for the worker; afterwards [get_pending]
    lists the same tasks in the same order without that one. *)
Theorem pending_task_is_claimable st task worker_id :
  store_ok (TaskStore._tasks st) ->
  In task (TaskStore.get_pending st) ->
  exists st',
    TaskStore.claim (Task.id task) worker_id st
    = Ok (Some (claimed worker_id task), st') /\
    TaskStore.get_pending st'
    = List.filter (fun t => negb (String.eqb (Task.id t) (Task.id task)))
                  (TaskStore.get_pending st) /\
    ~ In task (TaskStore.get_pending st') /\
    store_ok (TaskStore._tasks st').
Proof.
  intros Hok Hin. unfold TaskStore.get_pending in Hin.
  apply filter_In in Hin as [Hin Hp].
  pose proof (store_ok_get _ _ Hok Hin) as Hget.
  rewrite claim_eval, Hget, Hp. eexists. split; [reflexivity|].
  assert (Hlist : TaskStore.get_pending
                    (saved (PyDict.alter (claimed worker_id) (Task.id task)
                                         (TaskStore._tasks st)))
                  = List.filter (fun t => negb (String.eqb (Task.id t) (Task.id task)))
                                (TaskStore.get_pending st)).
  { unfold TaskStore.get_pending. simpl.
    now apply (filter_values_alter_out _ (claimed worker_id) _ _ task). }
  split; [exact Hlist|]. split.
  - rewrite Hlist. intros Hin'. apply filter_In in Hin' as [_ Hc].
    now rewrite String.eqb_refl in Hc.
  - simpl. now apply store_ok_alter.
Qed.

(** X2. Completing a stored task makes it a handoff of its planner: it
    is listed by [get_handoffs_for_planner] for the planner that owns it,
    so a registered sub-planner with that id is returned by
    [get_subs_to_run], whether it has run or not. *)
Theorem complete_makes_owner_eligible
        st task_id task handoff_path (reg : PlannerRegistry.t) sub :
  PyDict.get task_id (TaskStore._tasks st) = Some task ->
  In sub (PlannerRegistry.get_all_subs reg) ->
  SubPlanner.id sub = Task.planner_id task ->
  exists st',
    TaskStore.complete task_id handoff_path st = Ok (tt, st') /\
    In (completed handoff_path task)
       (TaskStore.get_handoffs_for_planner (Task.planner_id task) st') /\
    In sub (PlannerRegistry.get_subs_to_run st' reg).
Proof.
  intros Hget Hsub Hid. rewrite complete_eval, Hget. eexists. split; [reflexivity|].
  assert (Hin : In (completed handoff_path task)
                   (TaskStore.get_handoffs_for_planner (Task.planner_id task)
                      (saved (PyDict.alter (completed handoff_path) task_id
                                           (TaskStore._tasks st))))).
  { unfold TaskStore.get_handoffs_for_planner. apply filter_In. split.
    - apply (get_In task_id). simpl. now rewrite get_alter_eq, Hget.
    - simpl. now rewrite String.eqb_refl. }
  split; [exact Hin|].
  unfold PlannerRegistry.get_subs_to_run. rewrite to_run_loop_filter. simpl.
  apply filter_In. split; [exact Hsub|].
  rewrite Hid.
  destruct (TaskStore.get_handoffs_for_planner _ _); [contradiction|].
  apply orb_true_r.
Qed.



(** X5. Tasks are listed in the order they were added: [add] of a task
    under an id the store does not hold puts it last in the table, and
    [get_pending] lists what it listed before, followed by the new task
    when the new task is pending. *)
Theorem add_new_id_appends st task :
  PyDict.get (Task.id task) (TaskStore._tasks st) = None ->
  exists st',
    TaskStore.add task st = Ok (tt, st') /\
    TaskStore._tasks st' = (TaskStore._tasks st ++ [(Task.id task, task)])%list /\
    TaskStore.get_pending st'
    = (TaskStore.get_pending st
       ++ (if String.eqb (Task.status task) "pending" then [task] else []))%list.
Proof.
  intros Hnew. rewrite add_eval. eexists. split; [reflexivity|].
  simpl. rewrite setitem_absent by exact Hnew. split; [reflexivity|].
  unfold TaskStore.get_pending, PyDict.values. simpl.
  rewrite map_app, List.filter_app. reflexivity.
Qed.
End TaskStore_more.

(** ** Restart: the file follows the table *)

Section Restart.
Context `{PathLib}.

Lemma init_file f (st : TaskStore.t) : TaskStore.init f = Ok st -> TaskStore.file st = f.
Proof.
  unfold TaskStore.init, TaskStore._load, bind, get_self. simpl.
  destruct f as [data|]; [|now intros [= <-]].
  destruct (TaskStore.parse_file data) as [tasks|e]; [now intros [= <-]|].
  destruct e; simpl; intros Hq; try discriminate; now injection Hq as <-.
Qed.

Lemma init_saved (tasks : list (string * Task.t)) :
  List.NoDup (PyDict.keys tasks) ->
  TaskStore.init (TaskStore.file (saved tasks)) = Ok (saved tasks).
Proof.
  intros Hnd. unfold TaskStore.init, TaskStore._load, bind, get_self. simpl.
  now rewrite TaskStore_reload.
Qed.

(** Every operation returns, and either leaves the store as it is or
    leaves it with its file just written. *)
Lemma run_op_saves (o : Ops.op) (st : TaskStore.t) :
  exists st', Ops.run_op o st = Ok (tt, st')
              /\ (st' = st \/ st' = saved (TaskStore._tasks st')).
Proof.
  destruct o as [t|ts|i w|i hp]; simpl.
  - rewrite add_eval. eexists. split; [reflexivity | now right].
  - rewrite add_many_eval. eexists. split; [reflexivity | now right].
  - unfold bind. rewrite claim_eval.
    destruct (PyDict.get i (TaskStore._tasks st)) as [task|].
    + destruct (String.eqb (Task.status task) "pending");
        eexists; (split; [reflexivity|]); [now right | now left].
    + eexists. split; [reflexivity | now left].
  - rewrite complete_eval.
    destruct (PyDict.get i (TaskStore._tasks st)) as [task|];
      eexists; (split; [reflexivity|]); [now right | now left].
Qed.

(** X3. Take a store started from a file that the model reads: a
    missing file, a document that [_load] rejects as a whole because
    Python raises on it (the store then starts empty), or a document
    whose records hold values of the declared types.  After any sequence of add, add_many, claim and complete
    operations it can be restarted from its file: no operation raises,
    and a new store created from the file the last operation left holds
    the same table, in the same order.  (On a file that holds a value of
    another type in a field, [TaskStore.init] is [IllTyped] and the
    statement says nothing.) *)
Theorem restart_after_operations f (st0 : TaskStore.t) (os : list Ops.op) :
  TaskStore.init f = Ok st0 ->
  exists st,
    Ops.run_ops os st0 = Ok (tt, st) /\
    TaskStore.init (TaskStore.file st) = Ok st.
Proof.
  intros Hinit.
  assert (Hinv : List.NoDup (PyDict.keys (TaskStore._tasks st0))
                 /\ TaskStore.init (TaskStore.file st0) = Ok st0).
  { split; [now apply (TaskStore_init_one_entry_per_id f)|].
    now rewrite (init_file f st0 Hinit). }
  clear Hinit. revert st0 Hinv.
  induction os as [|o os IH]; intros st0 [Hnd Hre].
  - exists st0. split; [reflexivity | exact Hre].
  - destruct (run_op_saves o st0) as (st1 & Hrun & Hcase).
    pose proof (run_op_keeps_one_entry_per_id o st0 st1 Hnd Hrun) as Hnd1.
    destruct (IH st1) as (st & Hrest & Hfinal).
    { split; [exact Hnd1|]. destruct Hcase as [->|Hs]; [exact Hre|].
      rewrite Hs. apply init_saved. exact Hnd1. }
    exists st. split; [|exact Hfinal].
    simpl. unfold bind. rewrite Hrun. exact Hrest.
Qed.
End Restart.

Section Restart_samples.
#[local] Existing Instance PlainPath.

Lemma restart_after_operations_witness :
  let os := [Ops.Add (Task.new "t3" "root" "Add a changelog");
             Ops.Claim "t2" "w-t2"; Ops.Complete "t2" Sample.b_md;
             Ops.Claim "t9" "w-t9"] in
  TaskStore.init (TaskStore.file Sample.store_done) = Ok Sample.store_done /\
  exists st,
    Ops.run_ops os Sample.store_done = Ok (tt, st) /\
    TaskStore.init (TaskStore.file st) = Ok st.
Proof.
  intros os.
  assert (H1 : TaskStore.init (TaskStore.file Sample.store_done)
               = Ok Sample.store_done) by (vm_compute; reflexivity).
  split; [exact H1|].
  exact (restart_after_operations (TaskStore.file Sample.store_done)
           Sample.store_done os H1).
Defined.

(** A document whose [tasks] entry is a list: [.items()] raises, [_load]
    passes, and the store starts empty. *)
Example init_on_rejected_document :
  TaskStore.init (Some (PDict [("tasks", PList [])]))
  = Ok (TaskStore.mk [] (Some (PDict [("tasks", PList [])]))).
Proof. reflexivity. Qed.

(** A record whose [meta] is null is outside the model: the code keeps
    the null in the field. *)
Example init_outside_the_model :
  TaskStore.init
    (Some (PDict [("tasks",
                   PDict [("t1", PDict [("id", PStr "t1");
                                        ("planner_id", PStr "root");
                                        ("description", PStr "Write README");
                                        ("meta", PNone)])])]))
  = Raise IllTyped.
Proof. reflexivity. Qed.

Lemma pending_task_is_claimable_witness :
  store_ok (TaskStore._tasks Sample.store_pending) /\
  In Sample.t2_pending (TaskStore.get_pending Sample.store_pending) /\
  exists st',
    TaskStore.claim (Task.id Sample.t2_pending) "w-t2" Sample.store_pending
    = Ok (Some (claimed "w-t2" Sample.t2_pending), st') /\
    TaskStore.get_pending st'
    = List.filter (fun t => negb (String.eqb (Task.id t) (Task.id Sample.t2_pending)))
                  (TaskStore.get_pending Sample.store_pending) /\
    ~ In Sample.t2_pending (TaskStore.get_pending st') /\
    store_ok (TaskStore._tasks st').
Proof.
  assert (Hok : store_ok (TaskStore._tasks Sample.store_pending)).
  { split; simpl.
    - repeat constructor; simpl; intuition discriminate.
    - repeat constructor. }
  assert (Hin : In Sample.t2_pending (TaskStore.get_pending Sample.store_pending)).
  { simpl. right. left. reflexivity. }
  split; [exact Hok|]. split; [exact Hin|].
  exact (pending_task_is_claimable Sample.store_pending Sample.t2_pending "w-t2" Hok Hin).
Defined.

Lemma complete_makes_owner_eligible_witness :
  let reg := PlannerRegistry.mk [("sub-1", Sample.sub1_run)] None in
  let task := claimed "w-t1" Sample.t1_done in
  let st := saved [("t1", task)] in
  PyDict.get "t1" (TaskStore._tasks st) = Some task /\
  In Sample.sub1_run (PlannerRegistry.get_all_subs reg) /\
  SubPlanner.id Sample.sub1_run = Task.planner_id task /\
  exists st',
    TaskStore.complete "t1" Sample.b_md st = Ok (tt, st') /\
    In (completed Sample.b_md task)
       (TaskStore.get_handoffs_for_planner (Task.planner_id task) st') /\
    In Sample.sub1_run (PlannerRegistry.get_subs_to_run st' reg).
Proof.
  intros reg task st.
  assert (H1 : PyDict.get "t1" (TaskStore._tasks st) = Some task) by reflexivity.
  assert (H2 : In Sample.sub1_run (PlannerRegistry.get_all_subs reg))
    by (left; reflexivity).
  assert (H3 : SubPlanner.id Sample.sub1_run = Task.planner_id task) by reflexivity.
  split; [exact H1|]. split; [exact H2|]. split; [exact H3|].
  exact (complete_makes_owner_eligible st "t1" task Sample.b_md reg Sample.sub1_run
           H1 H2 H3).
Defined.

Lemma add_new_id_appends_witness :
  let task := Task.new "t3" "root" "Add a changelog" in
  PyDict.get (Task.id task) (TaskStore._tasks Sample.store_done) = None /\
  exists st',
    TaskStore.add task Sample.store_done = Ok (tt, st') /\
    TaskStore._tasks st'
    = (TaskStore._tasks Sample.store_done ++ [(Task.id task, task)])%list /\
    TaskStore.get_pending st'
    = (TaskStore.get_pending Sample.store_done
       ++ (if String.eqb (Task.status task) "pending" then [task] else []))%list.
Proof.
  intros task. split; [reflexivity|].
  exact (add_new_id_appends Sample.store_done task eq_refl).
Defined.
End Restart_samples.

(** ** The planner registry: adding, marking, restarting *)

Section PlannerRegistry_more.
Context `{PathLib}.
Implicit Types (reg : PlannerRegistry.t) (sub : SubPlanner.t).

Lemma registry_ok_get (subs : list (string * SubPlanner.t)) sub :
  registry_ok subs -> In sub (PyDict.values subs) ->
  PyDict.get (SubPlanner.id sub) subs = Some sub.
Proof.
  intros [Hnd Hid]. revert Hnd.
  induction Hid as [|[k v] d Hkv Hid IH]; intros Hnd; simpl; [tauto|].
  simpl in Hkv, Hnd. apply List.NoDup_cons_iff in Hnd as [Hk Hnd'].
  intros [Hv|Hin].
  - rewrite <- Hv, <- Hkv, String.eqb_refl. reflexivity.
  - destruct (String.eqb_spec (SubPlanner.id sub) k) as [He|_]; [|auto].
    exfalso. apply Hk. rewrite <- He. clear - Hid Hin.
    induction Hid as [|[k' v'] d Hk' _ IH]; simpl in *; [tauto|].
    destruct Hin as [->|Hin]; [left; exact Hk' | right; auto].
Qed.

Lemma registry_ok_alter (f : SubPlanner.t -> SubPlanner.t) k subs :
  (forall sub, SubPlanner.id (f sub) = SubPlanner.id sub) ->
  registry_ok subs -> registry_ok (PyDict.alter f k subs).
Proof.
  intros Hf [Hnd Hid]. split; [now rewrite keys_alter|].
  clear Hnd. induction Hid as [|[k' v'] d Hk Hd IH]; simpl; [constructor|].
  destruct (String.eqb k k'); constructor; auto. simpl in *. now rewrite Hf.
Qed.

Lemma alter_ext {V} (f g : V -> V) k (d : list (string * V)) :
  (forall x, f x = g x) -> PyDict.alter f k d = PyDict.alter g k d.
Proof.
  intros Hfg. induction d as [|[k' v'] d IH]; simpl; [reflexivity|].
  destruct (String.eqb k k'); [now rewrite Hfg | now rewrite IH].
Qed.

Lemma mark_run_eval planner_id reg :
  PlannerRegistry.mark_run planner_id reg =
  match PyDict.get planner_id (PlannerRegistry._subs reg) with
  | Some _ =>
      let subs := PyDict.alter (SubPlanner.set_is_new false) planner_id
                               (PlannerRegistry._subs reg) in
      Ok (tt, PlannerRegistry.mk subs (Some (PlannerRegistry.snapshot subs)))
  | None => Ok (tt, reg)
  end.
Proof.
  unfold PlannerRegistry.mark_run, bind, get_self, PyDict.contains, lift,
    PyDict.getitem.
  now destruct (PyDict.get planner_id (PlannerRegistry._subs reg)).
Qed.

(** X6. A sub-planner just added is to run whatever the task store
    holds: [add_sub] never raises, registers the sub-planner under the id
    it returns, leaves the entries under other ids as they were, and
    [get_subs_to_run] on the new registry returns it for every task
    store. *)
Theorem added_sub_planner_is_to_run uuid8 parent_id scope reg (store : TaskStore.t) :
  exists sub reg',
    PlannerRegistry.add_sub uuid8 parent_id scope reg = Ok (sub, reg') /\
    SubPlanner.id sub = "sub-" +:+ uuid8 /\
    SubPlanner.parent_id sub = parent_id /\
    PlannerRegistry.get (SubPlanner.id sub) reg' = Some sub /\
    (forall k, k <> SubPlanner.id sub ->
       PlannerRegistry.get k reg' = PlannerRegistry.get k reg) /\
    In sub (PlannerRegistry.get_subs_to_run store reg').
Proof.
  eexists _, _. split; [reflexivity|]. simpl.
  split; [reflexivity|]. split; [reflexivity|].
  assert (Hget : PlannerRegistry.get ("sub-" +:+ uuid8)
                   (PlannerRegistry.mk
                      (PyDict.setitem ("sub-" +:+ uuid8)
                         (SubPlanner.mk ("sub-" +:+ uuid8) parent_id
                                        (PyStr.strip scope) true)
                         (PlannerRegistry._subs reg))
                      (Some (PlannerRegistry.snapshot
                               (PyDict.setitem ("sub-" +:+ uuid8)
                                  (SubPlanner.mk ("sub-" +:+ uuid8) parent_id
                                                 (PyStr.strip scope) true)
                                  (PlannerRegistry._subs reg)))))
                 = Some (SubPlanner.mk ("sub-" +:+ uuid8) parent_id
                                       (PyStr.strip scope) true)).
  { unfold PlannerRegistry.get. simpl. apply get_setitem_eq. }
  split; [exact Hget|]. split.
  - intros k Hk. unfold PlannerRegistry.get. simpl.
    apply get_setitem_ne. congruence.
  - unfold PlannerRegistry.get_subs_to_run. rewrite to_run_loop_filter. simpl.
    apply filter_In. split; [|reflexivity].
    unfold PlannerRegistry.get in Hget. simpl in Hget.
    exact (get_In _ _ _ Hget).
Qed.

(** X7. [mark_run] never raises.  On an id that is not registered it
    changes nothing.  On a registered id it clears the never-yet-run
    flag of that sub-planner and nothing else, a second call changes
    nothing more, and from then on the sub-planner is returned by
    [get_subs_to_run] only for a task store that holds a handoff for it. *)
Theorem mark_run_clears_flag planner_id reg (store : TaskStore.t) :
  registry_ok (PlannerRegistry._subs reg) ->
  exists reg',
    PlannerRegistry.mark_run planner_id reg = Ok (tt, reg') /\
    (PlannerRegistry.get planner_id reg = None -> reg' = reg) /\
    (forall sub, PlannerRegistry.get planner_id reg = Some sub ->
       PlannerRegistry.get planner_id reg' = Some (SubPlanner.set_is_new false sub)) /\
    (forall k, k <> planner_id ->
       PlannerRegistry.get k reg' = PlannerRegistry.get k reg) /\
    PlannerRegistry.mark_run planner_id reg' = Ok (tt, reg') /\
    (forall sub', In sub' (PlannerRegistry.get_subs_to_run store reg') ->
       SubPlanner.id sub' = planner_id ->
       TaskStore.get_handoffs_for_planner planner_id store <> []).
Proof.
  intros Hok. rewrite mark_run_eval. unfold PlannerRegistry.get.
  destruct (PyDict.get planner_id (PlannerRegistry._subs reg)) as [sub|] eqn:Hget.
  - eexists. split; [reflexivity|]. cbn zeta. simpl PlannerRegistry._subs.
    split; [discriminate|]. split.
    { intros sub0 [= <-]. now rewrite get_alter_eq, Hget. }
    split.
    { intros k Hk. apply get_alter_ne. congruence. }
    split.
    { rewrite mark_run_eval. simpl PlannerRegistry._subs.
      rewrite get_alter_eq, Hget. cbn zeta. simpl option_map. cbv iota.
      rewrite alter_alter.
      rewrite (alter_ext (fun x => SubPlanner.set_is_new false
                                     (SubPlanner.set_is_new false x))
                         (SubPlanner.set_is_new false)) by reflexivity.
      reflexivity. }
    intros sub' Hin Hid.
    unfold PlannerRegistry.get_subs_to_run in Hin.
    rewrite to_run_loop_filter in Hin. simpl in Hin.
    apply filter_In in Hin as [Hin Hc].
    assert (Hok' : registry_ok (PyDict.alter (SubPlanner.set_is_new false) planner_id
                                             (PlannerRegistry._subs reg)))
      by (apply registry_ok_alter; [reflexivity | exact Hok]).
    pose proof (registry_ok_get _ _ Hok' Hin) as Hget'.
    rewrite Hid, get_alter_eq, Hget in Hget'. injection Hget' as <-.
    simpl in Hc, Hid. rewrite Hid in Hc.
    destruct (TaskStore.get_handoffs_for_planner planner_id store);
      [discriminate | congruence].
  - exists reg. split; [reflexivity|]. split; [reflexivity|].
    split; [discriminate|]. split; [reflexivity|]. split.
    { rewrite mark_run_eval. now rewrite Hget. }
    intros sub' Hin Hid.
    unfold PlannerRegistry.get_subs_to_run in Hin.
    rewrite to_run_loop_filter in Hin. simpl in Hin.
    apply filter_In in Hin as [Hin _].
    pose proof (registry_ok_get _ _ Hok Hin) as Hget'.
    rewrite Hid in Hget'. congruence.
Qed.

Lemma filter_sublist {A} (P : A -> bool) (l : list A) : sublist (List.filter P l) l.
Proof.
  induction l as [|x l IH]; simpl; [constructor|].
  destruct (P x); now constructor.
Qed.

(** X8. [get_subs_to_run] keeps the order of the registry: the list it
    returns is the list of [get_all_subs] with some entries left out,
    so sub-planners run in the order they were registered. *)
Theorem subs_to_run_in_registry_order reg (store : TaskStore.t) :
  sublist (PlannerRegistry.get_subs_to_run store reg)
          (PlannerRegistry.get_all_subs reg).
Proof.
  unfold PlannerRegistry.get_subs_to_run, PlannerRegistry.get_all_subs.
  rewrite to_run_loop_filter. apply filter_sublist.
Qed.

Lemma registry_init_file f reg :
  PlannerRegistry.init f = Ok reg -> PlannerRegistry.file reg = f.
Proof.
  unfold PlannerRegistry.init, PlannerRegistry._load, bind, get_self. simpl.
  destruct f as [data|]; [|now intros [= <-]].
  destruct (PlannerRegistry.parse_file data) as [subs|e]; [now intros [= <-]|].
  destruct e; simpl; intros Hq; try discriminate; now injection Hq as <-.
Qed.

Lemma registry_init_saved (subs : list (string * SubPlanner.t)) :
  registry_ok subs ->
  PlannerRegistry.init (Some (PlannerRegistry.snapshot subs))
  = Ok (PlannerRegistry.mk subs (Some (PlannerRegistry.snapshot subs))).
Proof.
  intros [Hnd Hid]. unfold PlannerRegistry.init, PlannerRegistry._load, bind, get_self.
  simpl. now rewrite PlannerRegistry_reload.
Qed.

(** X9. Take a registry started from a file that the model reads: a
    missing file, a document that [_load] rejects as a whole because
    Python raises on it (the registry then starts empty), or a document
    whose entries hold values of the declared types.  After any sequence of [add_sub] and [mark_run] calls it can
    be restarted from its file: no call raises, and a new registry
    created from the file the last call left holds the same
    sub-planners, with the same flags, in the same order.  (On a file
    that holds a value of another type in a field,
    [PlannerRegistry.init] is [IllTyped] and the statement says
    nothing.) *)
Theorem registry_restart_after_operations f (reg0 : PlannerRegistry.t)
        (os : list RegOps.op) :
  PlannerRegistry.init f = Ok reg0 ->
  exists reg,
    RegOps.run_ops os reg0 = Ok (tt, reg) /\
    PlannerRegistry.init (PlannerRegistry.file reg) = Ok reg.
Proof.
  intros Hinit.
  assert (Hinv : registry_ok (PlannerRegistry._subs reg0)
                 /\ PlannerRegistry.init (PlannerRegistry.file reg0) = Ok reg0).
  { split; [now apply (PlannerRegistry_init_registry_ok f)|].
    now rewrite (registry_init_file f reg0 Hinit). }
  clear Hinit. revert reg0 Hinv.
  induction os as [|o os IH]; intros reg0 [Hok Hre].
  - exists reg0. split; [reflexivity | exact Hre].
  - assert (Hstep : exists reg1,
               RegOps.run_op o reg0 = Ok (tt, reg1)
               /\ registry_ok (PlannerRegistry._subs reg1)
               /\ PlannerRegistry.init (PlannerRegistry.file reg1) = Ok reg1).
    { destruct o as [uuid8 parent_id scope|planner_id]; simpl.
      - eexists. split; [reflexivity|]. simpl.
        assert (Hok1 : registry_ok
                         (PyDict.setitem ("sub-" +:+ uuid8)
                            (SubPlanner.mk ("sub-" +:+ uuid8) parent_id
                                           (PyStr.strip scope) true)
                            (PlannerRegistry._subs reg0))).
        { apply (registry_ok_setitem
                   (SubPlanner.mk ("sub-" +:+ uuid8) parent_id (PyStr.strip scope) true)).
          exact Hok. }
        split; [exact Hok1 | now apply registry_init_saved].
      - rewrite mark_run_eval.
        destruct (PyDict.get planner_id (PlannerRegistry._subs reg0)).
        + eexists. split; [reflexivity|]. cbn zeta. simpl.
          assert (Hok1 : registry_ok
                           (PyDict.alter (SubPlanner.set_is_new false) planner_id
                                         (PlannerRegistry._subs reg0)))
            by (apply registry_ok_alter; [reflexivity | exact Hok]).
          split; [exact Hok1 | now apply registry_init_saved].
        + exists reg0. split; [reflexivity|]. split; [exact Hok | exact Hre]. }
    destruct Hstep as (reg1 & Hrun & Hok1 & Hre1).
    destruct (IH reg1 (conj Hok1 Hre1)) as (reg & Hrest & Hfinal).
    exists reg. split; [|exact Hfinal].
    simpl. unfold bind. rewrite Hrun. exact Hrest.
Qed.
End PlannerRegistry_more.

Section PlannerRegistry_more_samples.
#[local] Existing Instance PlainPath.

Lemma mark_run_clears_flag_witness :
  registry_ok (PlannerRegistry._subs Sample.registry_new) /\
  exists reg',
    PlannerRegistry.mark_run "sub-1" Sample.registry_new = Ok (tt, reg') /\
    (PlannerRegistry.get "sub-1" Sample.registry_new = None ->
     reg' = Sample.registry_new) /\
    (forall sub, PlannerRegistry.get "sub-1" Sample.registry_new = Some sub ->
       PlannerRegistry.get "sub-1" reg' = Some (SubPlanner.set_is_new false sub)) /\
    (forall k, k <> "sub-1" ->
       PlannerRegistry.get k reg' = PlannerRegistry.get k Sample.registry_new) /\
    PlannerRegistry.mark_run "sub-1" reg' = Ok (tt, reg') /\
    (forall sub', In sub' (PlannerRegistry.get_subs_to_run Sample.store_pending reg') ->
       SubPlanner.id sub' = "sub-1" ->
       TaskStore.get_handoffs_for_planner "sub-1" Sample.store_pending <> []).
Proof.
  assert (Hok : registry_ok (PlannerRegistry._subs Sample.registry_new)).
  { split; simpl.
    - repeat constructor; simpl; intuition discriminate.
    - repeat constructor. }
  split; [exact Hok|].
  exact (mark_run_clears_flag "sub-1" Sample.registry_new Sample.store_pending Hok).
Defined.

Lemma registry_restart_after_operations_witness :
  let os := [RegOps.AddSub "0a1b2c3d" "root" " Handle all test files ";
             RegOps.MarkRun "sub-0a1b2c3d"; RegOps.MarkRun "sub-none"] in
  let f := Some (PlannerRegistry.snapshot [("sub-1", Sample.sub1_run)]) in
  let reg0 := PlannerRegistry.mk [("sub-1", Sample.sub1_run)] f in
  PlannerRegistry.init f = Ok reg0 /\
  exists reg,
    RegOps.run_ops os reg0 = Ok (tt, reg) /\
    PlannerRegistry.init (PlannerRegistry.file reg) = Ok reg.
Proof.
  intros os f reg0.
  assert (H1 : PlannerRegistry.init f = Ok reg0) by (vm_compute; reflexivity).
  split; [exact H1|].
  exact (registry_restart_after_operations f reg0 os H1).
Defined.

(** An entry whose [is_new] is a number is outside the model: the code
    keeps the number in the field. *)
Example registry_init_outside_the_model :
  PlannerRegistry.init
    (Some (PDict [("sub_planners",
                   PList [PDict [("id", PStr "sub-1"); ("parent_id", PStr "root");
                                 ("scope", PStr "Handle all test files");
                                 ("is_new", PInt 0)]])]))
  = Raise IllTyped.
Proof. reflexivity. Qed.

(** A document whose [sub_planners] entry is a number: the loop raises,
    [_load] passes, and the registry starts empty. *)
Example registry_init_on_rejected_document :
  PlannerRegistry.init (Some (PDict [("sub_planners", PInt 3)]))
  = Ok (PlannerRegistry.mk [] (Some (PDict [("sub_planners", PInt 3)]))).
Proof. reflexivity. Qed.
End PlannerRegistry_more_samples.

(** ** The runner: applying a planner's output, dispatching a task *)

Section Runner_more.
Context `{PathLib}.

Lemma add_subs_eval planner_id sub_scopes (store : TaskStore.t) :
  forall reg : PlannerRegistry.t,
  exists reg',
    Runner.add_subs planner_id sub_scopes (store, reg) = Ok (tt, (store, reg')) /\
    (sub_scopes = [] -> reg' = reg) /\
    (forall k, PlannerRegistry.get k reg <> None -> PlannerRegistry.get k reg' <> None).
Proof.
  induction sub_scopes as [|[uuid8 scope] rest IH]; intros reg.
  - exists reg. now repeat split.
  - simpl. unfold bind, Runner.on_planner_registry. simpl.
    destruct (IH (PlannerRegistry.mk
                    (PyDict.setitem ("sub-" +:+ uuid8)
                       (SubPlanner.mk ("sub-" +:+ uuid8) planner_id
                                      (PyStr.strip scope) true)
                       (PlannerRegistry._subs reg))
                    (Some (PlannerRegistry.snapshot
                             (PyDict.setitem ("sub-" +:+ uuid8)
                                (SubPlanner.mk ("sub-" +:+ uuid8) planner_id
                                               (PyStr.strip scope) true)
                                (PlannerRegistry._subs reg))))))
      as (reg' & Hrun & _ & Hkeep).
    exists reg'. split; [exact Hrun|]. split; [discriminate|].
    intros k Hk. apply Hkeep. unfold PlannerRegistry.get in *. simpl.
    destruct (String.eqb_spec ("sub-" +:+ uuid8) k) as [<-|Hne].
    + rewrite get_setitem_eq. discriminate.
    + now rewrite get_setitem_ne.
Qed.

(** X10. [_run_planner_and_apply] raises exactly when the call of
    [run_planner] raises, and then it raises the same exception.  When
    [run_planner] returns, it returns the tasks it was given.  The store
    then holds, under each id, the last of the new tasks with that id, or
    what it held before; with no new task the store is untouched.  A
    registered planner other than root ends with its never-yet-run flag
    cleared; root is never marked, so with no delegation the registry is
    untouched. *)
Theorem planner_output_is_applied planner_id
        (run_planner : res (list Task.t * list (string * string)))
        (store : TaskStore.t) (reg : PlannerRegistry.t) :
  match run_planner with
  | Raise e =>
      Runner._run_planner_and_apply planner_id run_planner (store, reg) = Raise e
  | Ok (tasks, sub_scopes) =>
      exists store' reg',
        Runner._run_planner_and_apply planner_id run_planner (store, reg)
        = Ok (tasks, (store', reg')) /\
        (forall k, PyDict.get k (TaskStore._tasks store')
                   = match last_with_id k tasks with
                     | Some t => Some t
                     | None => PyDict.get k (TaskStore._tasks store)
                     end) /\
        (tasks = [] -> store' = store) /\
        (planner_id <> "root" ->
         PlannerRegistry.get planner_id reg <> None ->
         exists sub, PlannerRegistry.get planner_id reg' = Some sub
                     /\ SubPlanner.is_new sub = false) /\
        (planner_id = "root" -> sub_scopes = [] -> reg' = reg)
  end.
Proof.
  destruct run_planner as [[tasks sub_scopes]|e]; [|reflexivity].
  destruct (add_subs_eval planner_id sub_scopes store reg) as (reg1 & Hsubs & Hnil & Hkeep).
  unfold Runner._run_planner_and_apply, bind, lift. cbn [fst snd]. rewrite Hsubs.
  assert (Hstore : exists store',
             (match tasks with
              | _ :: _ => Runner.on_task_store (TaskStore.add_many tasks)
              | [] => ret tt
              end) (store, reg1) = Ok (tt, (store', reg1))
             /\ (forall k, PyDict.get k (TaskStore._tasks store')
                           = match last_with_id k tasks with
                             | Some t => Some t
                             | None => PyDict.get k (TaskStore._tasks store)
                             end)
             /\ (tasks = [] -> store' = store)).
  { destruct tasks as [|t ts].
    - exists store. now repeat split.
    - unfold Runner.on_task_store. cbn [fst snd]. rewrite add_many_eval.
      eexists. split; [reflexivity|]. split; [|discriminate].
      intros k. unfold saved. cbn [TaskStore._tasks]. apply get_fold_setitem. }
  destruct Hstore as (store' & -> & Hget & Hsame).
  destruct (String.eqb_spec planner_id "root") as [Hroot|Hroot]; cbn [negb].
  - exists store', reg1. split; [reflexivity|]. split; [exact Hget|].
    split; [exact Hsame|]. split; [congruence|]. intros _ Hs. now apply Hnil.
  - unfold Runner.on_planner_registry. cbn [fst snd]. rewrite mark_run_eval.
    destruct (PyDict.get planner_id (PlannerRegistry._subs reg1)) as [sub1|] eqn:Hg1.
    + eexists store', _. split; [reflexivity|]. split; [exact Hget|].
      split; [exact Hsame|]. split; [|congruence].
      intros _ _. exists (SubPlanner.set_is_new false sub1).
      unfold PlannerRegistry.get. cbn zeta. simpl PlannerRegistry._subs.
      now rewrite get_alter_eq, Hg1.
    + exists store', reg1. split; [reflexivity|]. split; [exact Hget|].
      split; [exact Hsame|]. split; [|congruence].
      intros _ Hreg. exfalso. apply (Hkeep planner_id Hreg). exact Hg1.
Qed.

(** X11. [run_one] raises only when the working copy cannot be
    prepared.  Otherwise it leaves the records under other ids as they
    were, and: when the task is not stored or not pending it returns
    None and changes nothing; when the task is pending and the worker
    returns, the task ends done with the handoff path and is returned;
    when the task is pending and the worker raises, it returns None and
    the task stays running for the worker [w-<id>]: it is not put back
    to pending. *)
Theorem run_one_outcomes (task : Task.t) (handoff_path : Path)
        (prepare : res unit) (worker : res Worker.outcome) (st : TaskStore.t) :
  (forall e, prepare = Raise e ->
             Dispatch.run_one task handoff_path prepare worker st = Raise e) /\
  (prepare = Ok tt ->
   exists r st',
     Dispatch.run_one task handoff_path prepare worker st = Ok (r, st') /\
     (forall k, k <> Task.id task ->
        PyDict.get k (TaskStore._tasks st') = PyDict.get k (TaskStore._tasks st)) /\
     ((forall t0, PyDict.get (Task.id task) (TaskStore._tasks st) = Some t0 ->
                  Task.status t0 <> "pending") ->
      r = None /\ st' = st) /\
     (forall t0, PyDict.get (Task.id task) (TaskStore._tasks st) = Some t0 ->
        Task.status t0 = "pending" ->
        let running := claimed ("w-" +:+ Task.id task) t0 in
        (forall out, worker = Ok out ->
           r = Some (completed handoff_path running)
           /\ PyDict.get (Task.id task) (TaskStore._tasks st')
              = Some (completed handoff_path running)) /\
        (forall e, worker = Raise e ->
           r = None
           /\ PyDict.get (Task.id task) (TaskStore._tasks st') = Some running
           /\ Task.status running = "running"))).
Proof.
  split.
  - intros e ->. reflexivity.
  - intros ->. unfold Dispatch.run_one, bind. cbn [lift].
    rewrite claim_eval.
    destruct (PyDict.get (Task.id task) (TaskStore._tasks st)) as [t0|] eqn:Hget.
    + destruct (String.eqb_spec (Task.status t0) "pending") as [Hp|Hp].
      * destruct worker as [out|e].
        -- rewrite complete_eval. simpl TaskStore._tasks.
           rewrite get_alter_eq, Hget. simpl option_map. cbv iota.
           eexists _, _. split; [reflexivity|]. simpl TaskStore._tasks. split.
           { intros k Hk. rewrite !get_alter_ne by congruence. reflexivity. }
           split.
           { intros Hnp. exfalso. now apply (Hnp t0). }
           intros t1 [= <-] _. cbv zeta. split.
           ++ intros out' _. rewrite !get_alter_eq, Hget. now split.
           ++ intros e [=].
        -- eexists _, _. split; [reflexivity|]. simpl TaskStore._tasks. split.
           { intros k Hk. rewrite get_alter_ne by congruence. reflexivity. }
           split.
           { intros Hnp. exfalso. now apply (Hnp t0). }
           intros t1 [= <-] _. cbv zeta. split.
           ++ intros out' [=].
           ++ intros e' _. rewrite get_alter_eq, Hget. now repeat split.
      * exists None, st. split; [reflexivity|]. split; [reflexivity|].
        split; [now split|]. intros t1 [= <-] Hp'. contradiction.
    + exists None, st. split; [reflexivity|]. split; [reflexivity|].
      split; [now split|]. intros t1 [=].
Qed.
End Runner_more.

(** ** The invocation layer: what [chat] returns and raises *)

Section Llm_more.
Variable call_once : nat -> string -> Llm.call_outcome.
Variable cfg : Llm.config.

Local Abbreviation quiet := (Forall (fun a => replied a = false)).

Lemma last_error_after_app le log1 log2 :
  last_error_after le (log1 ++ log2)
  = last_error_after (last_error_after le log1) log2.
Proof. revert le. induction log1 as [|a log1 IH]; intros le; simpl; auto. Qed.

Lemma last_error_after_quiet le log :
  quiet log ->
  last_error_after le log
  = match last log with Some a => error_of a | None => le end.
Proof.
  intros Hq. revert le. induction Hq as [|a log Ha Hq IH]; intros le; [reflexivity|].
  simpl. rewrite IH, last_cons. unfold replied, error_of in *.
  destruct (last log); [reflexivity|].
  now destruct (Llm.outcome a).
Qed.

(** How the inner loop ends, and what it has logged by then. *)
Lemma retry_loop_result model_name n :
  forall k calls le exit log calls' le',
    Llm.retry_loop call_once cfg model_name (seq k n) calls le
    = (exit, log, calls', le') ->
    match exit with
    | Llm.Returned res =>
        exists pre a, log = (pre ++ [a])%list
                      /\ Llm.outcome a = Llm.Reply res /\ quiet pre
    | Llm.SleepRaised =>
        quiet log
        /\ exists pre a err, log = (pre ++ [a])%list
             /\ Llm.outcome a = Llm.Fails err
             /\ Llm._is_rate_limit_error err = true
             /\ (Llm.backoff_delay cfg (Llm.attempt a) < 0)%Z
    | Llm.Broke | Llm.Exhausted =>
        quiet log /\ le' = last_error_after le log
    end.
Proof.
  induction n as [|n IH]; intros k calls le exit log calls' le' Hrun.
  - simpl in Hrun. injection Hrun as <- <- <- <-. split; [constructor | reflexivity].
  - cbn [seq Llm.retry_loop] in Hrun.
    destruct (call_once calls model_name) as [result|e] eqn:Hcall.
    + injection Hrun as <- <- <- <-.
      exists [], (Llm.mk_attempt k (Llm.Reply result) None).
      split; [reflexivity|]. split; [reflexivity | constructor].
    + destruct (Llm._is_rate_limit_error e) eqn:Hrl.
      * destruct (Z.ltb_spec (Llm.backoff_delay cfg k) 0) as [Hneg|Hpos].
        -- injection Hrun as <- <- <- <-. split; [repeat constructor|].
           exists [], (Llm.mk_attempt k (Llm.Fails e) (Some (Llm.backoff_delay cfg k))), e.
           now repeat split.
        -- destruct (Llm.retry_loop call_once cfg model_name (seq (S k) n)
                                    (S calls) (Some e))
             as [[[exit0 log0] calls0] le0] eqn:Hrec.
           injection Hrun as <- <- <- <-.
           specialize (IH _ _ _ _ _ _ _ Hrec).
           set (a0 := Llm.mk_attempt k (Llm.Fails e) (Some (Llm.backoff_delay cfg k))).
           assert (Ha0 : replied a0 = false) by reflexivity.
           destruct exit0 as [res| | |].
           ++ destruct IH as (pre & a & -> & Ha & Hq).
              exists (a0 :: pre), a. split; [reflexivity|]. split; [exact Ha|].
              now constructor.
           ++ destruct IH as [Hq ->]. split; [now constructor | reflexivity].
           ++ destruct IH as [Hq ->]. split; [now constructor | reflexivity].
           ++ destruct IH as (Hq & pre & a & err & -> & Ha & Herr & Hd).
              split; [now constructor|].
              exists (a0 :: pre), a, err. now repeat split.
      * injection Hrun as <- <- <- <-. split; [repeat constructor | reflexivity].
Qed.

(** How [chat] ends, and what it has logged by then. *)
Lemma model_loop_result all models :
  forall calls le r logs,
    Llm.model_loop call_once cfg all models calls le = (r, logs) ->
    match r with
    | Ok res =>
        exists pre a, all_attempts logs = (pre ++ [a])%list
                      /\ Llm.outcome a = Llm.Reply res /\ quiet pre
    | Raise (RuntimeError ms e) =>
        ms = all /\ map fst logs = models /\ quiet (all_attempts logs)
        /\ e = last_error_after le (all_attempts logs)
    | Raise ValueError =>
        quiet (all_attempts logs)
        /\ exists pre a err, all_attempts logs = (pre ++ [a])%list
             /\ Llm.outcome a = Llm.Fails err
             /\ Llm._is_rate_limit_error err = true
             /\ (Llm.backoff_delay cfg (Llm.attempt a) < 0)%Z
    | Raise _ => False
    end.
Proof.
  induction models as [|m0 rest IH]; intros calls le r logs Hrun.
  - simpl in Hrun. injection Hrun as <- <-. now repeat split.
  - cbn [Llm.model_loop] in Hrun.
    destruct (Llm.retry_loop call_once cfg m0 _ calls le)
      as [[[exit log] calls'] le'] eqn:Hretry.
    pose proof (retry_loop_result _ _ _ _ _ _ _ _ _ Hretry) as Hres.
    assert (Hgo : Llm.goes_on exit = true ->
              quiet log /\ le' = last_error_after le log ->
              forall r' logs',
                Llm.model_loop call_once cfg all rest calls' le' = (r', logs') ->
                (r, logs) = (r', (m0, log) :: logs') ->
                match r with
                | Ok res =>
                    exists pre a, all_attempts logs = (pre ++ [a])%list
                                  /\ Llm.outcome a = Llm.Reply res /\ quiet pre
                | Raise (RuntimeError ms e) =>
                    ms = all /\ map fst logs = m0 :: rest /\ quiet (all_attempts logs)
                    /\ e = last_error_after le (all_attempts logs)
                | Raise ValueError =>
                    quiet (all_attempts logs)
                    /\ exists pre a err, all_attempts logs = (pre ++ [a])%list
                         /\ Llm.outcome a = Llm.Fails err
                         /\ Llm._is_rate_limit_error err = true
                         /\ (Llm.backoff_delay cfg (Llm.attempt a) < 0)%Z
                | Raise _ => False
                end).
    { intros _ [Hq Hle] r' logs' Hrest [= -> ->].
      specialize (IH _ _ _ _ Hrest).
      unfold all_attempts in *. cbn [map concat snd].
      destruct r' as [res|[key| | | | | |ms e]]; try contradiction.
      - destruct IH as (pre & a & -> & Ha & Hpre).
        exists (log ++ pre)%list, a. rewrite app_assoc.
        split; [reflexivity|]. split; [exact Ha|].
        apply Forall_app. now split.
      - destruct IH as (Hq' & pre & a & err & Heq & Ha & Herr & Hd).
        split; [apply Forall_app; now split|].
        exists (log ++ pre)%list, a, err. rewrite Heq, app_assoc. now repeat split.
      - destruct IH as (-> & <- & Hq' & ->).
        split; [reflexivity|]. split; [reflexivity|].
        split; [apply Forall_app; now split|].
        now rewrite last_error_after_app, Hle. }
    destruct exit as [result| | |].
    + injection Hrun as <- <-. unfold all_attempts. cbn [map concat snd].
      rewrite app_nil_r. exact Hres.
    + destruct (Llm.model_loop call_once cfg all rest calls' le') as [r' logs'] eqn:Hrest.
      now apply (Hgo eq_refl Hres r' logs').
    + destruct (Llm.model_loop call_once cfg all rest calls' le') as [r' logs'] eqn:Hrest.
      now apply (Hgo eq_refl Hres r' logs').
    + injection Hrun as <- <-. unfold all_attempts. cbn [map concat snd].
      rewrite app_nil_r. exact Hres.
Qed.

Lemma quiet_no_reply (log : list Llm.attempt_log) i a :
  quiet log -> log !! i = Some a -> replied a = false.
Proof.
  intros Hq Hi. rewrite Forall_forall in Hq. apply Hq.
  eapply list_elem_of_lookup_2. exact Hi.
Qed.

(** X12. [chat] returns the first reply it gets: it returns a text
    exactly when the last call it made replied with that text, and no
    call is made after a call that replied. *)
Theorem chat_returns_first_reply (model : string) :
  let log := all_attempts (Llm.chat_log call_once cfg model) in
  (forall res,
     Llm.chat call_once cfg model = Ok res <->
     exists a, last log = Some a /\ Llm.outcome a = Llm.Reply res) /\
  (forall i a, log !! i = Some a -> replied a = true -> S i = length log).
Proof.
  intros log. unfold log, Llm.chat, Llm.chat_log.
  destruct (Llm.chat_run call_once cfg model) as [r logs] eqn:Hrun.
  unfold Llm.chat_run in Hrun. cbn [fst snd].
  pose proof (model_loop_result _ _ _ _ _ _ Hrun) as Hres.
  assert (Hquiet : quiet (all_attempts logs) ->
            forall i a, all_attempts logs !! i = Some a -> replied a = true -> False).
  { intros Hq i a Hi Ha. rewrite (quiet_no_reply _ i a Hq Hi) in Ha. discriminate. }
  assert (Hlast : forall a, last (all_attempts logs) = Some a ->
                            exists i, all_attempts logs !! i = Some a).
  { intros a Ha. rewrite last_lookup in Ha. eauto. }
  destruct r as [res|e].
  - destruct Hres as (pre & a & Hall & Ha & Hq). rewrite Hall. split.
    + intros res'. rewrite last_snoc. split.
      * intros [= <-]. now exists a.
      * intros (a' & [= <-] & Ha'). congruence.
    + intros i a' Hi Hrep. rewrite length_app. simpl.
      apply lookup_app_Some in Hi as [Hi|[Hle Hi]].
      * rewrite (quiet_no_reply _ i a' Hq Hi) in Hrep. discriminate.
      * destruct (i - length pre) eqn:Hd; [lia | discriminate].
  - assert (Hq : quiet (all_attempts logs)).
    { destruct e as [key| | | | | |ms le]; try contradiction; tauto. }
    split.
    + intros res. split; [discriminate|].
      intros (a & Hl & Ha). destruct (Hlast a Hl) as [i Hi].
      exfalso. apply (Hquiet Hq i a Hi). unfold replied. now rewrite Ha.
    + intros i a Hi Hrep. exfalso. exact (Hquiet Hq i a Hi Hrep).
Qed.

(** X13. When [chat] raises, no call has replied, and the error is
    either the ValueError of [time.sleep], raised after a rate-limited
    call whose delay is negative, or the RuntimeError that names every
    candidate, after each candidate was tried in turn; that error
    carries the text of the last failure, or nothing when no call was
    made. *)
Theorem chat_raises_after_all_candidates (model : string) (e : exn) :
  Llm.chat call_once cfg model = Raise e ->
  let log := all_attempts (Llm.chat_log call_once cfg model) in
  Forall (fun a => replied a = false) log /\
  ((e = ValueError
    /\ exists a err, last log = Some a
         /\ Llm.outcome a = Llm.Fails err
         /\ Llm._is_rate_limit_error err = true
         /\ (Z.min (Llm.base_delay_sec cfg * 2 ^ Z.of_nat (Llm.attempt a))
                   (Llm.max_delay_sec cfg) < 0)%Z)
   \/ (e = RuntimeError (Llm.models_to_try cfg model)
                        (match last log with Some a => error_of a | None => None end)
       /\ map fst (Llm.chat_log call_once cfg model) = Llm.models_to_try cfg model)).
Proof.
  unfold Llm.chat, Llm.chat_log.
  destruct (Llm.chat_run call_once cfg model) as [r logs] eqn:Hrun.
  unfold Llm.chat_run in Hrun. cbn [fst snd]. intros ->.
  pose proof (model_loop_result _ _ _ _ _ _ Hrun) as Hres. cbv zeta.
  destruct e as [key| | | | | |ms le]; try contradiction.
  - destruct Hres as (Hq & pre & a & err & Hall & Ha & Herr & Hd).
    split; [exact Hq|]. left. split; [reflexivity|].
    exists a, err. rewrite Hall, last_snoc. now repeat split.
  - destruct Hres as (-> & Hfst & Hq & ->).
    split; [exact Hq|]. right. split; [|exact Hfst].
    now rewrite (last_error_after_quiet None _ Hq).
Qed.

Lemma model_loop_calls all models :
  forall calls le r logs,
    Llm.model_loop call_once cfg all models calls le = (r, logs) ->
    length logs <= length models /\
    length (all_attempts logs) <= Z.to_nat (Llm.max_retries cfg) * length models.
Proof.
  induction models as [|m0 rest IH]; intros calls le r logs Hrun.
  - simpl in Hrun. injection Hrun as <- <-. simpl. lia.
  - cbn [Llm.model_loop] in Hrun.
    destruct (Llm.retry_loop call_once cfg m0 _ calls le)
      as [[[exit log] calls'] le'] eqn:Hretry.
    destruct (retry_loop_spec _ _ _ _ _ _ _ _ _ _ _ Hretry) as (Hlen & _).
    destruct (Llm.model_loop call_once cfg all rest calls' le') as [r' logs'] eqn:Hrest.
    destruct (IH _ _ _ _ Hrest) as (Hl & Hc).
    unfold all_attempts in *.
    destruct exit; injection Hrun as <- <-; cbn [map concat snd length];
      rewrite ?app_nil_r, ?length_app; simpl; lia.
Qed.

(** X14. One call of [chat] makes at most [max_retries] calls of
    [_call_once] for each candidate: at most [max_retries] times the
    number of candidates in all, and none when [max_retries] is zero or
    negative. *)
Theorem chat_calls_are_bounded (model : string) :
  (Z.of_nat (length (all_attempts (Llm.chat_log call_once cfg model)))
   <= Z.max 0 (Llm.max_retries cfg)
      * Z.of_nat (length (Llm.models_to_try cfg model)))%Z /\
  length (Llm.chat_log call_once cfg model) <= length (Llm.models_to_try cfg model).
Proof.
  unfold Llm.chat_log.
  destruct (Llm.chat_run call_once cfg model) as [r logs] eqn:Hrun.
  unfold Llm.chat_run in Hrun. cbn [snd].
  destruct (model_loop_calls _ _ _ _ _ _ Hrun) as (Hl & Hc).
  split; [|exact Hl]. nia.
Qed.
End Llm_more.

Section Llm_fallback.
Variable call_once : nat -> string -> Llm.call_outcome.
Variable cfg : Llm.config.

Lemma backoff_delay_nonneg k :
  (0 <= Llm.base_delay_sec cfg)%Z -> (0 <= Llm.max_delay_sec cfg)%Z ->
  (0 <= Llm.backoff_delay cfg k)%Z.
Proof.
  intros Hb Hm. unfold Llm.backoff_delay.
  assert (0 <= 2 ^ Z.of_nat k)%Z by (apply Z.pow_nonneg; lia). nia.
Qed.

(** A model that is rate-limited at every call uses up its attempts. *)
Lemma retry_loop_limited model_name e n :
  (forall c, call_once c model_name = Llm.Fails e) ->
  Llm._is_rate_limit_error e = true ->
  (forall k, (0 <= Llm.backoff_delay cfg k)%Z) ->
  forall k calls le,
    Llm.retry_loop call_once cfg model_name (seq k n) calls le
    = (Llm.Exhausted, limited_attempts cfg e (seq k n), calls + n,
       match n with O => le | S _ => Some e end).
Proof.
  intros Hcall Hrl Hd. induction n as [|n IH]; intros k calls le.
  - simpl. now rewrite Nat.add_0_r.
  - cbn [seq Llm.retry_loop]. rewrite Hcall, Hrl.
    destruct (Z.ltb_spec (Llm.backoff_delay cfg k) 0) as [Hneg|_];
      [specialize (Hd k); lia|].
    rewrite IH. rewrite Nat.add_succ_r. simpl. now destruct n.
Qed.

(** X16. When every call to the primary model fails with a rate-limit
    error and the first fallback, another model, answers, [chat] returns
    the answer of the fallback after exactly [max_retries] attempts on
    the primary, each followed by its capped exponential sleep, and one
    call to the fallback.  (The retry settings are positive or zero, and
    at least one attempt is allowed.) *)
Theorem rate_limited_primary_falls_back model fb rest e res :
  (forall n, call_once n model = Llm.Fails e) ->
  Llm._is_rate_limit_error e = true ->
  (forall n, call_once n fb = Llm.Reply res) ->
  Llm.fallback_models cfg = fb :: rest ->
  fb <> model ->
  (0 < Llm.max_retries cfg)%Z ->
  (0 <= Llm.base_delay_sec cfg)%Z ->
  (0 <= Llm.max_delay_sec cfg)%Z ->
  Llm.chat_run call_once cfg model
  = (Ok res,
     [(model, limited_attempts cfg e (seq 0 (Z.to_nat (Llm.max_retries cfg))));
      (fb, [Llm.mk_attempt 0 (Llm.Reply res) None])]).
Proof.
  intros Hprimary Hrl Hfb Hchain Hne Hn Hb Hm.
  unfold Llm.chat_run, Llm.models_to_try. rewrite Hchain. simpl List.filter.
  destruct (String.eqb_spec fb model) as [|_]; [contradiction|]. simpl negb. cbv iota.
  cbn [Llm.model_loop].
  rewrite (retry_loop_limited model e) by
    (auto; intros; now apply backoff_delay_nonneg).
  cbn [Llm.goes_on].
  destruct (Z.to_nat (Llm.max_retries cfg)) as [|n] eqn:Hnat; [lia|].
  cbn [seq Llm.retry_loop]. rewrite Hfb. reflexivity.
Qed.
End Llm_fallback.

Section Llm_more_samples.

Lemma rate_limited_primary_falls_back_witness :
  let e := "Error code: 429 - Too Many Requests" in
  (forall n, SampleRun.primary_limited n "gpt-5.2-codex-xhigh" = Llm.Fails e) /\
  Llm._is_rate_limit_error e = true /\
  (forall n, SampleRun.primary_limited n "opus-4.6-thinking" = Llm.Reply "pong") /\
  Llm.fallback_models Llm.default_config = ["opus-4.6-thinking"; "auto"] /\
  "opus-4.6-thinking" <> "gpt-5.2-codex-xhigh" /\
  (0 < Llm.max_retries Llm.default_config)%Z /\
  (0 <= Llm.base_delay_sec Llm.default_config)%Z /\
  (0 <= Llm.max_delay_sec Llm.default_config)%Z /\
  Llm.chat_run SampleRun.primary_limited Llm.default_config "gpt-5.2-codex-xhigh"
  = (Ok "pong",
     [("gpt-5.2-codex-xhigh",
       limited_attempts Llm.default_config e
                        (seq 0 (Z.to_nat (Llm.max_retries Llm.default_config))));
      ("opus-4.6-thinking", [Llm.mk_attempt 0 (Llm.Reply "pong") None])]).
Proof.
  intros e.
  assert (H1 : forall n, SampleRun.primary_limited n "gpt-5.2-codex-xhigh" = Llm.Fails e)
    by (intros; reflexivity).
  assert (H2 : Llm._is_rate_limit_error e = true) by (vm_compute; reflexivity).
  assert (H3 : forall n, SampleRun.primary_limited n "opus-4.6-thinking" = Llm.Reply "pong")
    by (intros; reflexivity).
  assert (H4 : Llm.fallback_models Llm.default_config = ["opus-4.6-thinking"; "auto"])
    by reflexivity.
  assert (H5 : "opus-4.6-thinking" <> "gpt-5.2-codex-xhigh") by discriminate.
  assert (H6 : (0 < Llm.max_retries Llm.default_config)%Z) by (simpl; lia).
  assert (H7 : (0 <= Llm.base_delay_sec Llm.default_config)%Z) by (simpl; lia).
  assert (H8 : (0 <= Llm.max_delay_sec Llm.default_config)%Z) by (simpl; lia).
  repeat (split; [assumption|]).
  exact (rate_limited_primary_falls_back SampleRun.primary_limited Llm.default_config
           "gpt-5.2-codex-xhigh" "opus-4.6-thinking" ["auto"] e "pong"
           H1 H2 H3 H4 H5 H6 H7 H8).
Defined.

Lemma chat_raises_after_all_candidates_witness :
  let e := RuntimeError ["m"; "opus-4.6-thinking"; "auto"] (Some "401 unauthorized") in
  let log := all_attempts (Llm.chat_log SampleCalls.unauthorized Llm.default_config "m") in
  Llm.chat SampleCalls.unauthorized Llm.default_config "m" = Raise e /\
  Forall (fun a => replied a = false) log /\
  ((e = ValueError
    /\ exists a err, last log = Some a
         /\ Llm.outcome a = Llm.Fails err
         /\ Llm._is_rate_limit_error err = true
         /\ (Z.min (Llm.base_delay_sec Llm.default_config * 2 ^ Z.of_nat (Llm.attempt a))
                   (Llm.max_delay_sec Llm.default_config) < 0)%Z)
   \/ (e = RuntimeError (Llm.models_to_try Llm.default_config "m")
                        (match last log with Some a => error_of a | None => None end)
       /\ map fst (Llm.chat_log SampleCalls.unauthorized Llm.default_config "m")
          = Llm.models_to_try Llm.default_config "m")).
Proof.
  intros e log.
  assert (H1 : Llm.chat SampleCalls.unauthorized Llm.default_config "m" = Raise e)
    by (vm_compute; reflexivity).
  split; [exact H1|].
  exact (chat_raises_after_all_candidates SampleCalls.unauthorized Llm.default_config
           "m" e H1).
Defined.
End Llm_more_samples.

(** ** Strings: search, case, trimming *)

Section PyStr_facts.

Lemma prefix_refl_app (sub b : string) : String.prefix sub (sub +:+ b) = true.
Proof.
  induction sub as [|c sub IH]; simpl; [now destruct b|].
  now destruct (ascii_dec c c).
Qed.

Lemma prefix_split (sub s : string) :
  String.prefix sub s = true -> exists b, s = sub +:+ b.
Proof.
  revert s. induction sub as [|c sub IH]; intros s; simpl.
  - intros _. now exists s.
  - destruct s as [|c' s]; simpl; [discriminate|].
    destruct (ascii_dec c c') as [<-|]; [|discriminate].
    intros Hp. destruct (IH s Hp) as [b ->]. now exists b.
Qed.

Lemma find_app_left (sub a s : string) :
  (0 <= PyStr.find sub s)%Z -> (0 <= PyStr.find sub (a +:+ s))%Z.
Proof.
  intros Hs. induction a as [|c a IH]; [exact Hs|].
  change (String c a +:+ s) with (String c (a +:+ s)). cbn [PyStr.find].
  destruct (String.prefix sub (String c (a +:+ s))); [lia|].
  destruct (Z.ltb_spec (PyStr.find sub (a +:+ s)) 0); lia.
Qed.

Lemma find_here (sub b : string) : (0 <= PyStr.find sub (sub +:+ b))%Z.
Proof.
  pose proof (prefix_refl_app sub b) as Hp.
  destruct (sub +:+ b) as [|c s]; cbn [PyStr.find]; rewrite Hp; lia.
Qed.

(** [sub in s] holds exactly when [s] is some text, [sub], some text. *)
Lemma contains_iff (sub s : string) :
  PyStr.contains sub s = true <-> exists a b, s = a +:+ sub +:+ b.
Proof.
  unfold PyStr.contains. rewrite negb_true_iff, Z.ltb_ge. split.
  - induction s as [|c s IH]; cbn [PyStr.find].
    + destruct (String.prefix sub "") eqn:Hp; [|lia].
      intros _. apply prefix_split in Hp as [b Hb]. now exists "", b.
    + destruct (String.prefix sub (String c s)) eqn:Hp.
      * intros _. apply prefix_split in Hp as [b Hb]. now exists "", b.
      * destruct (Z.ltb_spec (PyStr.find sub s) 0) as [|Hge]; [lia|].
        intros _. destruct (IH Hge) as (a & b & ->). now exists (String c a), b.
  - intros (a & b & ->). apply find_app_left, find_here.
Qed.

Lemma lower_app (a b : string) :
  PyStr.lower (a +:+ b) = PyStr.lower a +:+ PyStr.lower b.
Proof. induction a as [|c a IH]; simpl; [reflexivity | now rewrite IH]. Qed.

(** X15. An error is taken for a rate limit exactly when its text, put
    in lower case, contains one of the keywords; so a message that
    contains a keyword written in any mix of upper and lower case is a
    rate-limit error, whatever comes before and after. *)
Theorem rate_limit_keywords_any_case :
  (forall error,
     Llm._is_rate_limit_error error = true <->
     exists kw a b, In kw Llm._RATE_LIMIT_KEYWORDS
                    /\ PyStr.lower error = a +:+ kw +:+ b) /\
  (forall kw before word after,
     In kw Llm._RATE_LIMIT_KEYWORDS ->
     PyStr.lower word = kw ->
     Llm._is_rate_limit_error (before +:+ word +:+ after) = true).
Proof.
  assert (Hiff : forall error,
             Llm._is_rate_limit_error error = true <->
             exists kw a b, In kw Llm._RATE_LIMIT_KEYWORDS
                            /\ PyStr.lower error = a +:+ kw +:+ b).
  { intros error. unfold Llm._is_rate_limit_error. cbv zeta.
    rewrite existsb_exists. split.
    - intros (kw & Hin & Hc). apply contains_iff in Hc as (a & b & Hab).
      now exists kw, a, b.
    - intros (kw & a & b & Hin & Hab). exists kw. split; [exact Hin|].
      apply contains_iff. now exists a, b. }
  split; [exact Hiff|].
  intros kw before word after Hin Hw. apply Hiff.
  exists kw, (PyStr.lower before), (PyStr.lower after).
  split; [exact Hin|]. now rewrite !lower_app, Hw.
Qed.

Lemma lstrip_head (s : string) :
  PyStr.lstrip s = "" \/
  exists c s', PyStr.lstrip s = String c s' /\ PyStr.isspace c = false.
Proof.
  induction s as [|c s IH]; simpl; [now left|].
  destruct (PyStr.isspace c) eqn:Hc; [exact IH|]. right. now exists c, s.
Qed.

Lemma rstrip_idem (s : string) : PyStr.rstrip (PyStr.rstrip s) = PyStr.rstrip s.
Proof.
  induction s as [|c s IH]; [reflexivity|].
  cbn [PyStr.rstrip]. destruct (PyStr.rstrip s) as [|c2 r] eqn:Hr.
  - destruct (PyStr.isspace c) eqn:Hc; [reflexivity|].
    cbn [PyStr.rstrip]. now rewrite Hc.
  - cbn [PyStr.rstrip] in *. now rewrite IH.
Qed.

Lemma rstrip_head (c : ascii) (s : string) :
  PyStr.isspace c = false -> exists r, PyStr.rstrip (String c s) = String c r.
Proof.
  intros Hc. cbn [PyStr.rstrip].
  destruct (PyStr.rstrip s); [rewrite Hc|]; now eexists.
Qed.

(** Trimming a trimmed text changes nothing. *)
Lemma strip_idem (s : string) : PyStr.strip (PyStr.strip s) = PyStr.strip s.
Proof.
  unfold PyStr.strip.
  destruct (lstrip_head s) as [->|(c & s' & -> & Hc)]; [reflexivity|].
  destruct (rstrip_head c s' Hc) as [r Hr]. rewrite Hr.
  cbn [PyStr.lstrip]. rewrite Hc, <- Hr. apply rstrip_idem.
Qed.

Lemma find_prefix (sub s : string) :
  (0 <= PyStr.find sub s)%Z ->
  String.prefix sub (PyStr.slice_from (PyStr.find sub s) s) = true.
Proof.
  unfold PyStr.slice_from. induction s as [|c s IH]; cbn [PyStr.find].
  - destruct (String.prefix sub "") eqn:Hp; [now intros _ | lia].
  - destruct (String.prefix sub (String c s)) eqn:Hp; [now intros _|].
    destruct (Z.ltb_spec (PyStr.find sub s) 0) as [|Hge]; [lia|].
    intros _. replace (Z.to_nat (PyStr.find sub s + 1)) with (S (Z.to_nat (PyStr.find sub s)))
      by lia.
    cbn [PyStr.drop]. now apply IH.
Qed.

Lemma prefix_nonempty (c : ascii) (p s : string) :
  String.prefix (String c p) s = true -> exists s', s = String c s'.
Proof.
  destruct s as [|c' s]; simpl; [discriminate|].
  destruct (ascii_dec c c') as [<-|]; [|discriminate]. now eexists.
Qed.

(** Trimming on the right keeps a prefix that does not end in white
    space. *)
Lemma rstrip_keeps_prefix (p : string) :
  PyStr.rstrip p = p ->
  forall s, String.prefix p s = true -> String.prefix p (PyStr.rstrip s) = true.
Proof.
  induction p as [|c p IH]; intros Hp s Hs; [now destruct (PyStr.rstrip s)|].
  destruct (prefix_nonempty c p s Hs) as [s' ->].
  simpl in Hs. destruct (ascii_dec c c) as [_|Hn]; [|contradiction].
  cbn [PyStr.rstrip] in Hp.
  destruct (PyStr.rstrip p) as [|c2 r] eqn:Hr.
  - destruct (PyStr.isspace c) eqn:Hc; [discriminate|].
    injection Hp as <-.
    destruct (rstrip_head c s' Hc) as [r' ->]. simpl.
    destruct (ascii_dec c c); [now destruct r' | contradiction].
  - injection Hp as Hp.
    specialize (IH Hp s' Hs).
    cbn [PyStr.rstrip]. destruct (PyStr.rstrip s') as [|c3 r3] eqn:Hs'.
    + rewrite <- Hp in IH. discriminate.
    + simpl. destruct (ascii_dec c c); [exact IH | contradiction].
Qed.
End PyStr_facts.

(** ** The handoff taken from a response *)

Section Extract_handoff.

Lemma find_range (sub s : string) :
  PyStr.find sub s = (-1)%Z \/ (0 <= PyStr.find sub s)%Z.
Proof.
  induction s as [|c s IH]; cbn [PyStr.find].
  - destruct (String.prefix sub ""); [right; lia | now left].
  - destruct (String.prefix sub (String c s)); [right; lia|].
    destruct (Z.ltb_spec (PyStr.find sub s) 0); [now left | right; lia].
Qed.

Lemma find_found (sub s : string) :
  negb (PyStr.find sub s =? -1)%Z = PyStr.contains sub s.
Proof.
  unfold PyStr.contains.
  destruct (find_range sub s) as [-> | Hge]; [reflexivity|].
  destruct (Z.eqb_spec (PyStr.find sub s) (-1)); [lia|].
  destruct (Z.ltb_spec (PyStr.find sub s) 0); [lia | reflexivity].
Qed.

Lemma rfind_find (sub s : string) :
  (PyStr.rfind sub s = (-1)%Z /\ PyStr.find sub s = (-1)%Z) \/
  (0 <= PyStr.rfind sub s /\ 0 <= PyStr.find sub s)%Z.
Proof.
  induction s as [|c s IH]; cbn [PyStr.find PyStr.rfind].
  - destruct (String.prefix sub ""); [right; lia | now left].
  - cbv zeta. destruct (String.prefix sub (String c s)).
    + right. destruct (Z.ltb_spec (PyStr.rfind sub s) 0); lia.
    + destruct IH as [[-> ->] | [Hr Hf]]; [now left|]. right.
      destruct (Z.ltb_spec (PyStr.rfind sub s) 0);
        destruct (Z.ltb_spec (PyStr.find sub s) 0); lia.
Qed.

Lemma rfind_found (sub s : string) :
  negb (PyStr.rfind sub s =? -1)%Z = PyStr.contains sub s.
Proof.
  unfold PyStr.contains.
  destruct (rfind_find sub s) as [[-> ->] | [Hr Hf]]; [reflexivity|].
  destruct (Z.eqb_spec (PyStr.rfind sub s) (-1)); [lia|].
  destruct (Z.ltb_spec (PyStr.find sub s) 0); [lia | reflexivity].
Qed.

(** The text from the first occurrence of a marker, trimmed, still
    starts with the marker, when the marker neither starts nor ends with
    white space. *)
Lemma strip_from_marker (c : ascii) (p response : string) :
  PyStr.isspace c = false ->
  PyStr.rstrip (String c p) = String c p ->
  PyStr.contains (String c p) response = true ->
  String.prefix (String c p)
    (PyStr.strip (PyStr.slice_from (PyStr.find (String c p) response) response))
  = true.
Proof.
  intros Hc Hp Hin.
  assert (Hge : (0 <= PyStr.find (String c p) response)%Z).
  { unfold PyStr.contains in Hin. apply negb_true_iff, Z.ltb_ge in Hin. exact Hin. }
  pose proof (find_prefix _ _ Hge) as Hpre.
  destruct (prefix_nonempty _ _ _ Hpre) as [rest Hrest].
  unfold PyStr.strip. rewrite Hrest in *. cbn [PyStr.lstrip]. rewrite Hc.
  now apply rstrip_keeps_prefix.
Qed.

(** X17. The handoff taken from a response is trimmed.  It starts with
    the first of the markers [# Summary], [# Handoff], [# What was done]
    that occurs in the response, wherever that marker stands (also in the
    middle of a line); with no marker and no line starting with [# ]
    after the first line, it is the whole response, trimmed. *)
Theorem extracted_handoff_starts_at_first_marker (response : string) :
  let handoff := Worker.extract_handoff_from_response response in
  PyStr.strip handoff = handoff /\
  (PyStr.contains "# Summary" response = true ->
   String.prefix "# Summary" handoff = true) /\
  (PyStr.contains "# Summary" response = false ->
   PyStr.contains "# Handoff" response = true ->
   String.prefix "# Handoff" handoff = true) /\
  (PyStr.contains "# Summary" response = false ->
   PyStr.contains "# Handoff" response = false ->
   PyStr.contains "# What was done" response = true ->
   String.prefix "# What was done" handoff = true) /\
  (PyStr.contains "# Summary" response = false ->
   PyStr.contains "# Handoff" response = false ->
   PyStr.contains "# What was done" response = false ->
   PyStr.contains (PyStr.nl +:+ "# ") response = false ->
   handoff = PyStr.strip response).
Proof.
  cbv zeta. unfold Worker.extract_handoff_from_response.
  rewrite !find_found.
  destruct (PyStr.contains "# Summary" response) eqn:H1.
  { split; [apply strip_idem|].
    split; [intros _; now apply strip_from_marker|].
    repeat split; discriminate. }
  destruct (PyStr.contains "# Handoff" response) eqn:H2.
  { split; [apply strip_idem|].
    split; [discriminate|].
    split; [intros _ _; now apply strip_from_marker|].
    repeat split; discriminate. }
  destruct (PyStr.contains "# What was done" response) eqn:H3.
  { split; [apply strip_idem|].
    split; [discriminate|]. split; [discriminate|].
    split; [intros _ _ _; now apply strip_from_marker|].
    discriminate. }
  split.
  { destruct (negb _); apply strip_idem. }
  split; [discriminate|]. split; [discriminate|]. split; [discriminate|].
  intros _ _ _ H4. now rewrite rfind_found, H4.
Qed.
End Extract_handoff.

(** ** The worker: where its result and its errors come from *)

Section Worker_more.
Variable chat : nat -> list Worker.message -> res string.
Variable _parse_tool_call :
  string -> option string * option (list (string * string)) * string.

Lemma known_tool (name : string) :
  existsb (String.eqb name) Worker._TOOLS = true <-> In name Worker._TOOLS.
Proof.
  rewrite existsb_exists. split.
  - intros (x & Hin & Heq). apply String.eqb_eq in Heq. now subst.
  - intros Hin. exists name. split; [exact Hin | apply String.eqb_refl].
Qed.

Lemma tool_loop_raises run_tool iterations messages e :
  Worker.tool_loop chat _parse_tool_call run_tool iterations messages = Raise e ->
  exists i, In i iterations /\
    ((exists msgs, chat i msgs = Raise e) \/
     (exists name args, In name Worker._TOOLS /\ run_tool i name args = Raise e)).
Proof.
  revert messages. induction iterations as [|i its IH]; intros messages Hl.
  - discriminate.
  - cbn [Worker.tool_loop] in Hl.
    destruct (chat i messages) as [response|e'] eqn:Hchat.
    2:{ injection Hl as ->. exists i. split; [now left|]. left. now exists messages. }
    cbn [res_bind] in Hl.
    destruct (_parse_tool_call response) as [[[name|] args] remaining];
      [|discriminate].
    destruct (existsb (String.eqb name) Worker._TOOLS) eqn:Hknown.
    + destruct (run_tool i name match args with Some a => a | None => [] end)
        as [tool_result|e'] eqn:Htool.
      * cbn [res_bind] in Hl. apply IH in Hl as (j & Hj & Hor).
        exists j. split; [now right | exact Hor].
      * injection Hl as ->. exists i. split; [now left|]. right.
        eexists name, _. split; [now apply known_tool | exact Htool].
    + cbn [res_bind] in Hl. apply IH in Hl as (j & Hj & Hor).
      exists j. split; [now right | exact Hor].
Qed.

(** X18. [run_worker] handles no exception: when it raises, the
    exception is the one raised by its set-up (configuration, client,
    prompt), by a call of the invocation layer or by a tool of the table
    in one of the twenty iterations, or by the write of the handoff. *)
Theorem run_worker_raises_what_its_calls_raised
    run_tool setup write_handoff description listing e :
  Worker.run_worker chat _parse_tool_call run_tool setup write_handoff
                    description listing = Raise e ->
  setup = Raise e \/
  (exists i, i < Worker._MAX_TOOL_ITERATIONS /\
     ((exists msgs, chat i msgs = Raise e) \/
      (exists name args, In name Worker._TOOLS /\ run_tool i name args = Raise e))) \/
  (exists text, text <> "" /\ write_handoff text = Raise e).
Proof.
  unfold Worker.run_worker. intros Hrun.
  destruct setup as [u|e']; [|left; simpl in Hrun; congruence].
  cbn [res_bind] in Hrun. right.
  destruct (Worker.tool_loop _ _ _ _ _) as [[exit messages]|e'] eqn:Hl.
  - right. cbn [res_bind] in Hrun.
    match type of Hrun with
    | res_bind (write_handoff ?text) _ = _ =>
        exists text; destruct (write_handoff text) as [u'|e'] eqn:Hw;
        [discriminate|]
    end.
    injection Hrun as ->. split; [|reflexivity].
    match goal with
    | |- (if String.eqb ?h "" then _ else _) <> "" =>
        destruct (String.eqb_spec h "") as [_|Hne];
        [intros Heq; vm_compute in Heq; discriminate Heq | exact Hne]
    end.
  - left. simpl in Hrun. injection Hrun as ->.
    apply tool_loop_raises in Hl as (i & Hi & Hor).
    exists i. split; [|exact Hor]. apply in_seq in Hi. lia.
Qed.

Lemma tool_loop_tools_agree run_tool1 run_tool2 iterations messages :
  (forall i name args, In i iterations -> In name Worker._TOOLS ->
                       run_tool1 i name args = run_tool2 i name args) ->
  Worker.tool_loop chat _parse_tool_call run_tool1 iterations messages
  = Worker.tool_loop chat _parse_tool_call run_tool2 iterations messages.
Proof.
  revert messages. induction iterations as [|i its IH]; intros messages Hsame.
  - reflexivity.
  - cbn [Worker.tool_loop].
    destruct (chat i messages) as [response|e]; [|reflexivity].
    cbn [res_bind].
    destruct (_parse_tool_call response) as [[[name|] args] remaining];
      [|reflexivity].
    destruct (existsb (String.eqb name) Worker._TOOLS) eqn:Hknown.
    + rewrite (Hsame i name _ (or_introl eq_refl) (proj1 (known_tool name) Hknown)).
      destruct (run_tool2 i name _) as [tool_result|e]; [|reflexivity].
      cbn [res_bind]. apply IH. intros j n a' Hj. apply Hsame. now right.
    + cbn [res_bind]. apply IH. intros j n a' Hj. apply Hsame. now right.
Qed.

(** X19. The worker runs a tool only under a name of the table
    ([run_cmd], [read_file], [edit_file]) and only in the twenty
    iterations: two tool environments that agree there give the same
    outcome, whatever they do under any other name. *)
Theorem run_worker_uses_only_listed_tools
    run_tool1 run_tool2 setup write_handoff description listing :
  (forall i name args, i < Worker._MAX_TOOL_ITERATIONS -> In name Worker._TOOLS ->
                       run_tool1 i name args = run_tool2 i name args) ->
  Worker.run_worker chat _parse_tool_call run_tool1 setup write_handoff
                    description listing
  = Worker.run_worker chat _parse_tool_call run_tool2 setup write_handoff
                      description listing.
Proof.
  intros Hsame. unfold Worker.run_worker.
  rewrite (tool_loop_tools_agree run_tool1 run_tool2); [reflexivity|].
  intros i name args Hi. apply Hsame. apply in_seq in Hi. lia.
Qed.

Lemma tool_loop_break run_tool iterations messages h messages' :
  Worker.tool_loop chat _parse_tool_call run_tool iterations messages
  = Ok (Worker.LoopBreak h, messages') ->
  exists i msgs response,
    In i iterations /\ chat i msgs = Ok response /\
    fst (fst (_parse_tool_call response)) = None /\
    h = Worker.extract_handoff_from_response response.
Proof.
  revert messages. induction iterations as [|i its IH]; intros messages Hl.
  - discriminate.
  - cbn [Worker.tool_loop] in Hl.
    destruct (chat i messages) as [response|e] eqn:Hchat; [|discriminate].
    cbn [res_bind] in Hl.
    destruct (_parse_tool_call response) as [[[name|] args] remaining] eqn:Hparse.
    + match type of Hl with
      | res_bind ?x _ = _ => destruct x as [tool_result|e]; [|discriminate]
      end.
      cbn [res_bind] in Hl. apply IH in Hl as (j & msgs & r & Hj & Hrest).
      exists j, msgs, r. split; [now right | exact Hrest].
    + injection Hl as <- _. exists i, messages, response.
      split; [now left|]. split; [exact Hchat|]. now rewrite Hparse.
Qed.

(** X20. The handoff that [run_worker] returns is the budget-exceeded
    text, or it is extracted from a response of the agent that asked for
    no tool.  A response that asks for a tool is never used as a handoff:
    when the loop runs out, the conversation ends with the feedback of a
    tool, so the extraction after the loop does not happen. *)
Theorem handoff_comes_from_a_final_response
    run_tool setup write_handoff description listing out :
  Worker.run_worker chat _parse_tool_call run_tool setup write_handoff
                    description listing = Ok out ->
  Worker.returned out = Worker.budget_exceeded_handoff \/
  exists i msgs response,
    i < Worker._MAX_TOOL_ITERATIONS /\ chat i msgs = Ok response /\
    fst (fst (_parse_tool_call response)) = None /\
    Worker.returned out = Worker.extract_handoff_from_response response.
Proof.
  unfold Worker.run_worker. intros Hrun.
  destruct setup as [u|e]; [|discriminate]. cbn [res_bind] in Hrun.
  destruct (Worker.tool_loop _ _ _ _ _) as [[exit messages]|e] eqn:Hl;
    [|discriminate].
  cbn [res_bind] in Hrun.
  destruct (write_handoff _) as [u'|e]; [|discriminate].
  simpl in Hrun. injection Hrun as <-. cbn [Worker.returned].
  destruct exit as [h|].
  - destruct (String.eqb h ""); [now left|]. right.
    apply tool_loop_break in Hl as (i & msgs & r & Hi & Hchat & Hparse & ->).
    exists i, msgs, r. split; [apply in_seq in Hi; lia|].
    split; [exact Hchat|]. split; [exact Hparse | reflexivity].
  - left.
    apply tool_loop_else_ends_with_user in Hl as (m & -> & ->); [reflexivity|].
    eexists. split; reflexivity.
Qed.
End Worker_more.

Section Worker_more_samples.

Lemma run_worker_raises_what_its_calls_raised_witness :
  let e := RuntimeError ["m"] (Some "Error code: 401 - Unauthorized") in
  Worker.run_worker SampleRun.agent_down SampleRun.parse_by_prefix
                    SampleRun.tool_ok SampleRun.setup_ok SampleRun.write_ok
                    "Write README" "- src/" = Raise e /\
  (SampleRun.setup_ok = Raise e \/
   (exists i, i < Worker._MAX_TOOL_ITERATIONS /\
      ((exists msgs, SampleRun.agent_down i msgs = Raise e) \/
       (exists name args, In name Worker._TOOLS
                          /\ SampleRun.tool_ok i name args = Raise e))) \/
   (exists text, text <> "" /\ SampleRun.write_ok text = Raise e)).
Proof.
  intros e.
  assert (H1 : Worker.run_worker SampleRun.agent_down SampleRun.parse_by_prefix
                 SampleRun.tool_ok SampleRun.setup_ok SampleRun.write_ok
                 "Write README" "- src/" = Raise e)
    by reflexivity.
  split; [exact H1|].
  exact (run_worker_raises_what_its_calls_raised
           SampleRun.agent_down SampleRun.parse_by_prefix SampleRun.tool_ok
           SampleRun.setup_ok SampleRun.write_ok "Write README" "- src/" e H1).
Defined.

Lemma run_worker_uses_only_listed_tools_witness :
  (forall i name args, i < Worker._MAX_TOOL_ITERATIONS -> In name Worker._TOOLS ->
     SampleRun.tool_ok i name args = SampleRun.tool_known_only i name args) /\
  Worker.run_worker SampleRun.agent_done_at_2 SampleRun.parse_by_prefix
                    SampleRun.tool_ok SampleRun.setup_ok SampleRun.write_ok
                    "Write README" "- src/"
  = Worker.run_worker SampleRun.agent_done_at_2 SampleRun.parse_by_prefix
                      SampleRun.tool_known_only SampleRun.setup_ok SampleRun.write_ok
                      "Write README" "- src/".
Proof.
  assert (H1 : forall i name args,
             i < Worker._MAX_TOOL_ITERATIONS -> In name Worker._TOOLS ->
             SampleRun.tool_ok i name args = SampleRun.tool_known_only i name args).
  { intros i name args _ Hin. simpl in Hin.
    destruct Hin as [ <- | [ <- | [ <- | [] ] ] ]; reflexivity. }
  split; [exact H1|].
  exact (run_worker_uses_only_listed_tools
           SampleRun.agent_done_at_2 SampleRun.parse_by_prefix
           SampleRun.tool_ok SampleRun.tool_known_only
           SampleRun.setup_ok SampleRun.write_ok "Write README" "- src/" H1).
Defined.

Lemma handoff_comes_from_a_final_response_witness :
  let out := Worker.mk_outcome ("# Summary" +:+ PyStr.nl +:+ "README written.")
                               ("# Summary" +:+ PyStr.nl +:+ "README written.") in
  Worker.run_worker SampleRun.agent_done_at_2 SampleRun.parse_by_prefix
                    SampleRun.tool_ok SampleRun.setup_ok SampleRun.write_ok
                    "Write README" "- src/" = Ok out /\
  (Worker.returned out = Worker.budget_exceeded_handoff \/
   exists i msgs response,
     i < Worker._MAX_TOOL_ITERATIONS /\
     SampleRun.agent_done_at_2 i msgs = Ok response /\
     fst (fst (SampleRun.parse_by_prefix response)) = None /\
     Worker.returned out = Worker.extract_handoff_from_response response).
Proof.
  intros out.
  assert (H1 : Worker.run_worker SampleRun.agent_done_at_2 SampleRun.parse_by_prefix
                 SampleRun.tool_ok SampleRun.setup_ok SampleRun.write_ok
                 "Write README" "- src/" = Ok out)
    by (vm_compute; reflexivity).
  split; [exact H1|].
  exact (handoff_comes_from_a_final_response
           SampleRun.agent_done_at_2 SampleRun.parse_by_prefix SampleRun.tool_ok
           SampleRun.setup_ok SampleRun.write_ok "Write README" "- src/" out H1).
Defined.
End Worker_more_samples.

(** ** The repository listing *)

Section Listing_facts.

Local Abbreviation visible :=
  (fun entry : string * bool => negb (String.prefix "." (fst entry))).

Lemma list_loop_closed (max_entries : Z) entries :
  forall i lines,
    let budget := (Z.to_nat max_entries - i)%nat in
    Listing.list_loop max_entries i entries lines
    = (lines ++ map Listing.line_of (List.filter visible (firstn budget entries))
             ++ (if (budget <? length entries)%nat then ["..."] else []))%list.
Proof.
  induction entries as [|entry rest IH]; intros i lines budget; subst budget.
  - cbn [Listing.list_loop]. rewrite firstn_nil. simpl.
    now rewrite app_nil_r.
  - cbn [Listing.list_loop].
    destruct (Z.leb_spec max_entries (Z.of_nat i)) as [Hle|Hgt].
    + replace (Z.to_nat max_entries - i)%nat with 0%nat by lia. reflexivity.
    + replace (Z.to_nat max_entries - i)%nat
        with (S (Z.to_nat max_entries - S i))%nat by lia.
      cbn [firstn List.filter length].
      change (S (Z.to_nat max_entries - S i) <? S (length rest))%nat
        with (Z.to_nat max_entries - S i <? length rest)%nat.
      destruct (String.prefix "." (fst entry)); cbn [negb]; rewrite IH.
      * reflexivity.
      * cbn [map]. now rewrite <- app_assoc.
Qed.

Lemma join_nonempty sep (p : string) rest :
  p <> "" -> PyText.join sep (p :: rest) <> "".
Proof.
  intros Hp. cbn [PyText.join]. destruct rest as [|q rest]; [exact Hp|].
  destruct p as [|c p]; [contradiction | discriminate].
Qed.

(** X21. [list_repo] looks at the first [max_entries] entries of the
    sorted directory and shows those whose name does not start with a
    dot, so hidden entries use up the limit; [...] follows exactly when
    the directory has more than [max_entries] entries (a limit below zero
    counts as zero).  The text is [(empty)] exactly when no line is
    shown; it is never the empty text. *)
Theorem list_repo_shows_visible_entries_within_limit entries (max_entries : Z) :
  let limit := Z.to_nat max_entries in
  let lines :=
    (map Listing.line_of (List.filter visible (firstn limit entries))
     ++ (if (limit <? length entries)%nat then ["..."] else []))%list in
  Listing.list_repo entries max_entries
  = match lines with
    | [] => "(empty)"
    | _ => PyText.join PyStr.nl lines
    end /\
  Listing.list_repo entries max_entries <> "".
Proof.
  cbv zeta. unfold Listing.list_repo. rewrite list_loop_closed.
  rewrite Nat.sub_0_r. cbn [app].
  set (lines := (map Listing.line_of _ ++ _)%list).
  assert (Hne : forall line, In line lines -> line <> "").
  { intros line Hin. apply in_app_or in Hin as [Hin|Hin].
    - apply in_map_iff in Hin as ([name is_dir] & <- & _).
      unfold Listing.line_of. now destruct is_dir.
    - destruct (_ <? _)%nat; [|contradiction].
      destruct Hin as [<-|[]]. discriminate. }
  destruct lines as [|line rest].
  - split; [reflexivity | discriminate].
  - assert (Hj : PyText.join PyStr.nl (line :: rest) <> "").
    { apply join_nonempty, Hne. now left. }
    destruct (String.eqb_spec (PyText.join PyStr.nl (line :: rest)) "");
      [contradiction|].
    split; [reflexivity | exact Hj].
Qed.
End Listing_facts.

(** ** The handoff format *)

Section Handoff_facts.

Lemma in_keys_setitem {V} k' k (v : V) (d : list (string * V)) :
  In k' (PyDict.keys (PyDict.setitem k v d)) <-> k' = k \/ In k' (PyDict.keys d).
Proof.
  rewrite keys_setitem. unfold PyDict.contains.
  destruct (PyDict.get k d) eqn:Hget.
  - split; [now right|]. intros [->|Hin]; [|exact Hin].
    destruct (in_dec String.string_dec k (PyDict.keys d)) as [Hin|Hout];
      [exact Hin|].
    apply get_None_not_in_keys in Hout. congruence.
  - rewrite in_app_iff. simpl. intuition congruence.
Qed.

Lemma close_section_keys k sections current buf :
  In k (PyDict.keys (Handoff.close_section sections current buf))
  <-> In k (PyDict.keys sections) \/ (current = Some k /\ k <> "").
Proof.
  unfold Handoff.close_section. destruct current as [heading|].
  - destruct (String.eqb_spec heading "") as [->|Hne].
    + split; [now left|]. intros [Hin|[[= <-] Hk]]; [exact Hin | contradiction].
    + rewrite in_keys_setitem. split.
      * intros [->|Hin]; [right; now split | now left].
      * intros [Hin|[[= <-] _]]; [now right | now left].
  - split; [now left|]. now intros [Hin|[[=] _]].
Qed.

(** The headings of the sections found: those of the lines that start
    with [#] and have a title. *)
Lemma parse_lines_keys k lines :
  forall sections current buf,
    In k (PyDict.keys (Handoff.parse_lines lines sections current buf))
    <-> In k (PyDict.keys sections) \/ (current = Some k /\ k <> "")
        \/ exists line, In line lines /\ String.prefix "#" line = true
                        /\ Handoff.heading_of line = k /\ k <> "".
Proof.
  induction lines as [|line rest IH]; intros sections current buf;
    cbn [Handoff.parse_lines].
  - rewrite close_section_keys. split; [tauto|].
    intros [Hin|[Hc|(line & [] & _)]]; tauto.
  - destruct (String.prefix "#" line) eqn:Hp.
    + rewrite IH, close_section_keys. split.
      * intros [[Hin|Hc]|[[[= <-] Hk]|(l & Hl & Hrest)]].
        -- now left.
        -- right. now left.
        -- right. right. exists line. split; [now left|]. now split.
        -- right. right. exists l. split; [now right | exact Hrest].
      * intros [Hin|[Hc|(l & [<-|Hl] & Hpl & Hh & Hk)]].
        -- left. now left.
        -- left. now right.
        -- right. left. split; [now rewrite Hh | exact Hk].
        -- right. right. exists l. split; [exact Hl|]. now split.
    + rewrite IH. split.
      * intros [Hin|[Hc|(l & Hl & Hrest)]]; [tauto | tauto |].
        right. right. exists l. split; [now right | exact Hrest].
      * intros [Hin|[Hc|(l & [<-|Hl] & Hpl & Hrest)]]; [tauto | tauto | congruence |].
        right. right. exists l. split; [exact Hl|]. now split.
Qed.

Lemma parse_handoff_keys k content :
  In k (PyDict.keys (Handoff.parse_handoff content))
  <-> exists line, In line (PyText.splitlines content)
                   /\ String.prefix "#" line = true
                   /\ Handoff.heading_of line = k /\ k <> "".
Proof.
  unfold Handoff.parse_handoff. rewrite parse_lines_keys. simpl. split.
  - intros [[]|[[[=] _]|Hex]]. exact Hex.
  - intros Hex. right. now right.
Qed.

(** X23. A handoff is accepted exactly when its trimmed text has at
    least 100 characters and one of its lines starts with [#] and has a
    title.  The names of the sections play no part in the verdict: the
    test for a summary-like heading never changes it. *)
Theorem handoff_accepted_iff_long_with_a_heading (content : string) :
  fst (Handoff.validate_handoff content) = true <->
  100 <= String.length (PyStr.strip content) /\
  exists line, In line (PyText.splitlines content)
               /\ String.prefix "#" line = true
               /\ Handoff.heading_of line <> "".
Proof.
  unfold Handoff.validate_handoff. cbn [fst].
  rewrite andb_true_iff, Nat.leb_le.
  assert (Hsec : (existsb (fun k => negb (String.eqb k ""))
                    (List.filter
                       (fun k => PyStr.contains "summary" k || PyStr.contains "done" k
                                 || PyStr.contains "change" k)
                       (PyDict.keys (Handoff.parse_handoff content)))
                  || (1 <=? length (Handoff.parse_handoff content))%nat) = true
                 <-> exists k, In k (PyDict.keys (Handoff.parse_handoff content))).
  { destruct (Handoff.parse_handoff content) as [|[k v] sections].
    - simpl. split; [discriminate | now intros [k []]].
    - cbn [length Nat.leb]. rewrite orb_true_r. split; [|reflexivity].
      intros _. exists k. now left. }
  rewrite Hsec. split; intros [Hlen Hex]; (split; [exact Hlen|]).
  - destruct Hex as [k Hk]. apply parse_handoff_keys in Hk as (line & Hl & Hp & <- & Hne).
    now exists line.
  - destruct Hex as (line & Hl & Hp & Hne). exists (Handoff.heading_of line).
    apply parse_handoff_keys. exists line. now repeat split.
Qed.

Lemma existsb_false {A} (f : A -> bool) (l : list A) :
  existsb f l = false <-> forall x, In x l -> f x = false.
Proof.
  induction l as [|a l IH]; simpl; [tauto|].
  rewrite orb_false_iff, IH. split.
  - intros [Ha Hl] x [<-|Hx]; auto.
  - intros Hall. split; [apply Hall; now left | intros x Hx; apply Hall; now right].
Qed.

Lemma recommended_not_in_empty s :
  In s Handoff.recommended -> PyStr.contains s "" = false.
Proof.
  intros Hin. simpl in Hin.
  repeat (destruct Hin as [<-|Hin]; [reflexivity|]). contradiction.
Qed.

(** X24. The sections reported as missing are recommended names, in
    the order of the list; a recommended name is missing exactly when no
    line that starts with [#] has it inside its title, the title being
    read without the leading [#]s, trimmed and in lower case. *)
Theorem missing_sections_are_those_in_no_heading (content : string) :
  let missing := snd (Handoff.validate_handoff content) in
  sublist missing Handoff.recommended /\
  forall s, In s missing <->
            In s Handoff.recommended /\
            forall line, In line (PyText.splitlines content) ->
                         String.prefix "#" line = true ->
                         PyStr.contains s (Handoff.heading_of line) = false.
Proof.
  cbv zeta. unfold Handoff.validate_handoff. cbn [snd].
  split; [apply filter_sublist|].
  intros s. rewrite List.filter_In, negb_true_iff, existsb_false.
  split; intros [Hrec Hall]; (split; [exact Hrec|]).
  - intros line Hl Hp.
    destruct (String.eqb_spec (Handoff.heading_of line) "") as [->|Hne].
    + now apply recommended_not_in_empty.
    + apply Hall, parse_handoff_keys. exists line. now repeat split.
  - intros k Hk. apply parse_handoff_keys in Hk as (line & Hl & Hp & <- & _).
    now apply Hall.
Qed.
End Handoff_facts.

(** ** The planner: tasks read from a response *)

Section Planner_facts.
Context `{PathLib}.

Lemma description_of_trimmed patterns line desc :
  Planner.description_of patterns line = Some desc ->
  PyStr.strip desc = desc /\ 10 <= String.length desc.
Proof.
  induction patterns as [|pattern rest IH]; cbn [Planner.description_of];
    [discriminate|].
  destruct (pattern line) as [after|]; [|exact IH]. cbv zeta.
  destruct (Nat.ltb_spec (String.length (PyStr.strip after)) 10) as [|Hlen];
    [exact IH|].
  intros [= <-]. split; [apply strip_idem | exact Hlen].
Qed.

Lemma tasks_of_lines_spec uuid planner_id lines :
  forall tasks,
    (forall task, In task tasks -> fresh_task planner_id task) ->
    map Task.id tasks
    = map (fun n => "task-" +:+ uuid n) (seq 0 (length tasks)) ->
    let tasks' := Planner.tasks_of_lines uuid planner_id lines tasks in
    (forall task, In task tasks' -> fresh_task planner_id task) /\
    map Task.id tasks'
    = map (fun n => "task-" +:+ uuid n) (seq 0 (length tasks')) /\
    length tasks' <= length tasks + length lines.
Proof.
  induction lines as [|line rest IH]; intros tasks Hfresh Hids;
    cbn [Planner.tasks_of_lines]; cbv zeta.
  - split; [exact Hfresh|]. split; [exact Hids | simpl; lia].
  - assert (Hskip :
      (forall task, In task (Planner.tasks_of_lines uuid planner_id rest tasks) ->
                    fresh_task planner_id task) /\
      map Task.id (Planner.tasks_of_lines uuid planner_id rest tasks)
      = map (fun n => "task-" +:+ uuid n)
            (seq 0 (length (Planner.tasks_of_lines uuid planner_id rest tasks))) /\
      length (Planner.tasks_of_lines uuid planner_id rest tasks)
      <= length tasks + length (line :: rest)).
    { destruct (IH tasks Hfresh Hids) as (H1 & H2 & H3).
      split; [exact H1|]. split; [exact H2 | simpl; lia]. }
    destruct (String.eqb (PyStr.strip line) ""); [exact Hskip|].
    destruct (Planner.description_of _ _) as [desc|] eqn:Hdesc; [|exact Hskip].
    apply description_of_trimmed in Hdesc as [Htrim Hlen].
    destruct (IH (tasks ++ [Task.new ("task-" +:+ uuid (length tasks))
                                     planner_id desc])%list)
      as (H1 & H2 & H3).
    + intros task Hin. apply in_app_or in Hin as [Hin|[<-|[]]]; [now apply Hfresh|].
      unfold fresh_task. simpl. now repeat split.
    + rewrite map_app, length_app, Hids. cbn [length map Task.id Task.new].
      replace (length tasks + 1) with (S (length tasks)) by lia.
      now rewrite seq_S, map_app.
    + split; [exact H1|]. split; [exact H2|].
      rewrite length_app in H3. simpl in *. lia.
Qed.

(** X22. Every task read from a planner's response is pending, belongs
    to the planner, has no worker and no handoff, and its description is
    trimmed and at least ten characters long.  The ids are [task-]
    followed by the identifiers drawn, in the order of the lines, and
    there are at most as many tasks as lines. *)
Theorem parsed_tasks_are_fresh (uuid : nat -> string) (response planner_id : string) :
  let tasks := Planner.parse_tasks_from_response uuid response planner_id in
  (forall task, In task tasks -> fresh_task planner_id task) /\
  map Task.id tasks = map (fun n => "task-" +:+ uuid n) (seq 0 (length tasks)) /\
  length tasks <= length (PyText.splitlines response).
Proof.
  cbv zeta. unfold Planner.parse_tasks_from_response.
  apply (tasks_of_lines_spec uuid planner_id (PyText.splitlines response) []).
  - intros task [].
  - reflexivity.
Qed.
End Planner_facts.
